(** * The faces simulation: run driver and statistics pipeline

    A shallow embedding of the [Sim] methods of the [faces] package
    (control-loop configuration, the phase-based statistics functions over
    the tensorfs directory tree, seeding and the headless run driver),
    followed by the properties of the design document that concern them.

    Go pointers to heap objects are addresses into explicit stores, a
    runtime panic is a [Panic] result, and calls into the opaque
    collaborators (network executor, environment, display and log sinks)
    are recorded in the [Events] trace of the simulation state. *)

From Stdlib Require Import ZArith List Lia QArith.
From stdpp Require Import gmap strings list pretty.

(** ** Enumerations *)

(** [type Modes int32], constants [Train], [Test]. *)
Inductive Modes := Train | Test.

(** [type Levels int32], constants [Cycle] .. [Expt]. *)
Inductive Levels := Cycle | Trial | Epoch | Run | Expt.

(** [type StatsPhase int32], constants [Start], [Step]. *)
Inductive StatsPhase := Start | Step.

#[global] Instance Modes_eq_dec : EqDecision Modes.
Proof. solve_decision. Defined.
#[global] Instance Levels_eq_dec : EqDecision Levels.
Proof. solve_decision. Defined.
#[global] Instance StatsPhase_eq_dec : EqDecision StatsPhase.
Proof. solve_decision. Defined.

Definition Modes_Int64 (m : Modes) : Z :=
  match m with Train => 0 | Test => 1 end.

Definition Levels_Int64 (l : Levels) : Z :=
  match l with Cycle => 0 | Trial => 1 | Epoch => 2 | Run => 3 | Expt => 4 end.

Definition Levels_of_Int64 (v : Z) : option Levels :=
  match v with
  | 0 => Some Cycle | 1 => Some Trial | 2 => Some Epoch
  | 3 => Some Run | 4 => Some Expt | _ => None
  end%Z.

(** The [String] method that the [//enums:enum] directive generates: the
    declared name of the value, and the decimal rendering of any value of
    the underlying integer type that has no declared name. *)
Definition ModesValue_String (v : Z) : string :=
  match v with 0 => "Train" | 1 => "Test" | _ => pretty v end%Z.

Definition LevelsValue_String (v : Z) : string :=
  match v with
  | 0 => "Cycle" | 1 => "Trial" | 2 => "Epoch" | 3 => "Run" | 4 => "Expt"
  | _ => pretty v
  end%Z.

Definition Modes_String (m : Modes) : string := ModesValue_String (Modes_Int64 m).
Definition Levels_String (l : Levels) : string := LevelsValue_String (Levels_Int64 l).

(** An [enums.Enum] interface value: the dynamic type and the value. The
    loop library hands modes and levels to the callbacks in this form. *)
Inductive Enum :=
| EModes (m : Modes)
| ELevels (l : Levels)
| EForeign (ty : string) (v : Z).

Definition Enum_Int64 (e : Enum) : Z :=
  match e with
  | EModes m => Modes_Int64 m
  | ELevels l => Levels_Int64 l
  | EForeign _ v => v
  end.

(** ** Data *)

Abbreviation Path := (list string).

(** [leabra.LayerTypes]. *)
Inductive LayerTypes := SuperLayer | InputLayer | TargetLayer | CompareLayer.

#[global] Instance LayerTypes_eq_dec : EqDecision LayerTypes.
Proof. solve_decision. Defined.

Record Layer := mkLayer {
  LayName : string;
  LayType : LayerTypes;      (* Params.Type *)
  LayShape : Z * Z;
  LayDoc : string
}.

Record Network := mkNetwork {
  NetName : string;
  NetLayers : list Layer;
  NetRand : option Z         (* seed last given to Net.Rand *)
}.

(** [looper.Counter], [looper.Stack] and [looper.Stacks]. [Order] lists
    the levels of a stack from the outermost to the innermost. *)
Record Counter := mkCounter { Cur : Z; Max : Z }.

Record Stack := mkStack {
  Order : list Levels;
  StackLoops : list (Levels * Counter)
}.

Definition Stacks := list (Modes * Stack).

(** [table.Table]: metadata name and doc, and the rows of cells. *)
Record Table := mkTable {
  TName : string;
  TDoc : string;
  TRows : list (list string)
}.

(** The configuration values the modelled methods read. *)
Record ConfigT := mkConfig {
  CfgName : string;
  CfgGUI : bool;
  CfgDebug : bool;
  CfgParamsSheet : string;      (* Config.Params.Sheet *)
  CfgParamsTag : string;        (* Config.Params.Tag *)
  CfgParamsNote : string;       (* Config.Params.Note *)
  CfgRunRun : Z;                (* Config.Run.Run *)
  CfgRunRuns : Z;               (* Config.Run.Runs *)
  CfgLogTest : list string      (* Config.Log.Test *)
}.

(** [leabra.Params] after [Params.Config]: the extra sheets and the tag. *)
Record ParamsT := mkParams { ParamsSheet : string; ParamsTag : string }.

(** The stat functions [ConfigStats] registers; a closure is represented
    by its tag and run by [callStat] below. *)
Inductive StatFuncId := SFCounters | SFTrialName | SFHarmony | SFLayerState.

(** The fields of [Sim], for pointers to a field ([&ss.TestUpdate]). *)
Inductive SimField :=
| FPatterns | FPartialPatterns | FConfig | FNet | FParams | FLoops | FEnvs
| FTestUpdate | FRoot | FStats | FCurrent | FStatFuncs | FGUI | FRandSeeds.

(** Calls into the opaque collaborators, in the order they happen. *)
Inductive Event :=
| EvPrint (s : string)
| EvPrintDocString
| EvLogError (s : string)
| EvEnvConfig (mode : Modes) (table : nat)
| EvNetBuild
| EvLooperStandard
| EvAddCallback (name : string)
| EvGoUpdatePlot (nm : string)
| EvWriteToLog (dir : Path)
| EvPlotTensorFS (dir : Path)
| EvApplyParams
| EvEnvInit (mode : Modes)
| EvContextReset
| EvNetInitWeights
| EvOpenWeightsFS (fnm : string)
| EvOpenLogFiles (netName runName : string) (levels : list string)
| EvCloseLogFiles (exclude : Levels).

(** Runtime panics. *)
Inductive Panic :=
| NilPointer
| IndexOutOfRange (i : Z) (len : nat)
| TypeAssertion
| NoSuchNode (p : Path)
| NotADirectory (p : Path)
| NotATensor (p : Path)
| LibraryPanic.

Section State.

(** The type of [float64] values. *)
Context {F : Type}.

(** Modelled from the spec: a node of the Stats Directory Tree (the
    tensorfs library is not part of the sources): a directory, or a leaf
    holding a growable numeric or string series. A numeric leaf also
    carries the number of plot stylers attached to its metadata. The tree
    is the finite map from the path of a node, from the root, to the
    node. *)
Inductive Node :=
| DirNode
| Float64Node (rows : list F) (stylers : nat)
| StringNode (vals : list string).

Record Sim := mkSim {
  Patterns : option nat;           (* *table.Table *)
  PartialPatterns : option nat;    (* *table.Table *)
  Tables : gmap nat Table;         (* the table objects on the heap *)
  Config : ConfigT;
  Net : option Network;            (* *leabra.Network *)
  Params : ParamsT;
  Loops : option Stacks;           (* *looper.Stacks *)
  Root : option Path;              (* *tensorfs.Node, by its path *)
  Stats : option Path;
  Current : option Path;
  FS : gmap Path Node;             (* the tree under tensorfs.CurRoot *)
  StatFuncs : list StatFuncId;
  GUITabs : bool;                  (* ss.GUI.Tabs != nil *)
  RandSeeds : list Z;              (* randx.Seeds = []int64 *)
  GlobalRand : option Z;           (* seed last given to the global source *)
  Events : list Event
}.

(** ** The state-and-panic monad *)

Inductive Res (A : Type) :=
| Ok (a : A) (ss : Sim)
| Fail (p : Panic).
Arguments Ok {A} a ss.
Arguments Fail {A} p.

Definition M (A : Type) := Sim -> Res A.

Definition ret {A} (a : A) : M A := fun ss => Ok a ss.
Definition panic {A} (p : Panic) : M A := fun _ => Fail p.
Definition bind {A B} (c : M A) (k : A -> M B) : M B :=
  fun ss => match c ss with Ok a ss' => k a ss' | Fail p => Fail p end.

Local Notation "c >>> k" := (bind c (fun _ => k))
  (at level 100, k at level 200, right associativity).

Definition get {A} (f : Sim -> A) : M A := fun ss => Ok (f ss) ss.

(** Dereference of a pointer field. *)
Definition deref {A} (f : Sim -> option A) : M A :=
  fun ss => match f ss with Some a => Ok a ss | None => Fail NilPointer end.

Fixpoint forEach {A} (l : list A) (body : A -> M unit) : M unit :=
  match l with
  | [] => ret tt
  | a :: l' => body a >>> forEach l' body
  end.

(** Field updates. *)
Definition set_FS (fs : gmap Path Node) (ss : Sim) : Sim :=
  mkSim (Patterns ss) (PartialPatterns ss) (Tables ss) (Config ss) (Net ss)
    (Params ss) (Loops ss) (Root ss) (Stats ss) (Current ss) fs
    (StatFuncs ss) (GUITabs ss) (RandSeeds ss) (GlobalRand ss) (Events ss).

Definition set_Events (ev : list Event) (ss : Sim) : Sim :=
  mkSim (Patterns ss) (PartialPatterns ss) (Tables ss) (Config ss) (Net ss)
    (Params ss) (Loops ss) (Root ss) (Stats ss) (Current ss) (FS ss)
    (StatFuncs ss) (GUITabs ss) (RandSeeds ss) (GlobalRand ss) ev.

Definition set_Net (n : option Network) (ss : Sim) : Sim :=
  mkSim (Patterns ss) (PartialPatterns ss) (Tables ss) (Config ss) n
    (Params ss) (Loops ss) (Root ss) (Stats ss) (Current ss) (FS ss)
    (StatFuncs ss) (GUITabs ss) (RandSeeds ss) (GlobalRand ss) (Events ss).

Definition set_Loops (l : option Stacks) (ss : Sim) : Sim :=
  mkSim (Patterns ss) (PartialPatterns ss) (Tables ss) (Config ss) (Net ss)
    (Params ss) l (Root ss) (Stats ss) (Current ss) (FS ss)
    (StatFuncs ss) (GUITabs ss) (RandSeeds ss) (GlobalRand ss) (Events ss).

Definition set_Stats (p : option Path) (ss : Sim) : Sim :=
  mkSim (Patterns ss) (PartialPatterns ss) (Tables ss) (Config ss) (Net ss)
    (Params ss) (Loops ss) (Root ss) p (Current ss) (FS ss)
    (StatFuncs ss) (GUITabs ss) (RandSeeds ss) (GlobalRand ss) (Events ss).

Definition set_Current (p : option Path) (ss : Sim) : Sim :=
  mkSim (Patterns ss) (PartialPatterns ss) (Tables ss) (Config ss) (Net ss)
    (Params ss) (Loops ss) (Root ss) (Stats ss) p (FS ss)
    (StatFuncs ss) (GUITabs ss) (RandSeeds ss) (GlobalRand ss) (Events ss).

Definition set_StatFuncs (l : list StatFuncId) (ss : Sim) : Sim :=
  mkSim (Patterns ss) (PartialPatterns ss) (Tables ss) (Config ss) (Net ss)
    (Params ss) (Loops ss) (Root ss) (Stats ss) (Current ss) (FS ss)
    l (GUITabs ss) (RandSeeds ss) (GlobalRand ss) (Events ss).

Definition set_GlobalRand (s : option Z) (ss : Sim) : Sim :=
  mkSim (Patterns ss) (PartialPatterns ss) (Tables ss) (Config ss) (Net ss)
    (Params ss) (Loops ss) (Root ss) (Stats ss) (Current ss) (FS ss)
    (StatFuncs ss) (GUITabs ss) (RandSeeds ss) s (Events ss).

Definition set_Patterns (p : option nat) (ss : Sim) : Sim :=
  mkSim p (PartialPatterns ss) (Tables ss) (Config ss) (Net ss)
    (Params ss) (Loops ss) (Root ss) (Stats ss) (Current ss) (FS ss)
    (StatFuncs ss) (GUITabs ss) (RandSeeds ss) (GlobalRand ss) (Events ss).

Definition set_Tables (t : gmap nat Table) (ss : Sim) : Sim :=
  mkSim (Patterns ss) (PartialPatterns ss) t (Config ss) (Net ss)
    (Params ss) (Loops ss) (Root ss) (Stats ss) (Current ss) (FS ss)
    (StatFuncs ss) (GUITabs ss) (RandSeeds ss) (GlobalRand ss) (Events ss).

Definition set_PartialPatterns (p : option nat) (ss : Sim) : Sim :=
  mkSim (Patterns ss) p (Tables ss) (Config ss) (Net ss)
    (Params ss) (Loops ss) (Root ss) (Stats ss) (Current ss) (FS ss)
    (StatFuncs ss) (GUITabs ss) (RandSeeds ss) (GlobalRand ss) (Events ss).

Definition set_Params (p : ParamsT) (ss : Sim) : Sim :=
  mkSim (Patterns ss) (PartialPatterns ss) (Tables ss) (Config ss) (Net ss)
    p (Loops ss) (Root ss) (Stats ss) (Current ss) (FS ss)
    (StatFuncs ss) (GUITabs ss) (RandSeeds ss) (GlobalRand ss) (Events ss).

Definition set_Root (p : option Path) (ss : Sim) : Sim :=
  mkSim (Patterns ss) (PartialPatterns ss) (Tables ss) (Config ss) (Net ss)
    (Params ss) (Loops ss) p (Stats ss) (Current ss) (FS ss)
    (StatFuncs ss) (GUITabs ss) (RandSeeds ss) (GlobalRand ss) (Events ss).

Definition set_RandSeeds (l : list Z) (ss : Sim) : Sim :=
  mkSim (Patterns ss) (PartialPatterns ss) (Tables ss) (Config ss) (Net ss)
    (Params ss) (Loops ss) (Root ss) (Stats ss) (Current ss) (FS ss)
    (StatFuncs ss) (GUITabs ss) l (GlobalRand ss) (Events ss).

Definition modify (f : Sim -> Sim) : M unit := fun ss => Ok tt (f ss).

Definition emit (e : Event) : M unit :=
  modify (fun ss => set_Events (Events ss ++ [e]) ss).

End State.

Arguments Node : clear implicits.
Arguments Sim : clear implicits.
Arguments Res : clear implicits.
Arguments M : clear implicits.
Arguments Ok {F A} a ss.
Arguments Fail {F A} p.

Notation "'let*' x := c 'in' k" := (bind c (fun x => k))
  (at level 10, x name, c at level 100, k at level 200).
Notation "c >>> k" := (bind c (fun _ => k))
  (at level 100, k at level 200, right associativity).

(** The collaborators that are not part of the sources: the numeric
    library ([float64] zero and [stats.StatMean]), the closures that
    [leabra.StatLoopCounters], [leabra.StatTrialName] and
    [leabra.StatLayerState] return (they read the simulation and write to
    the tree only; [None] is a panic inside the library, and the boolean
    is [phase == Start]), [ss.Params.RunName(startRun)], the value
    [randx.Seeds.Init] stores at an index, and the embedded files
    ([//go:embed]) read as tables ([None] when a file does not open as a
    table). *)
Class Collaborators (F : Type) := {
  fzero : F;
  StatMean : list F -> F;
  counterFunc : Modes -> Levels -> bool -> Sim F -> option (gmap Path (Node F));
  trialNameFunc : Modes -> Levels -> bool -> Sim F -> option (gmap Path (Node F));
  stateFunc : Modes -> Levels -> bool -> Sim F -> option (gmap Path (Node F));
  Params_RunName : ParamsT -> Z -> string;
  seedInit : nat -> Z;
  embedfs : string -> option (list (list string))
}.

Section Faces.

Context {F : Type} `{!Collaborators F}.

(** ** The Stats Directory Tree *)

(** Modelled from the spec: [dir.Dir(name)] of the tensorfs library, which
    is not part of the sources: "auto-creates and returns a subtree
    handle". A name that is already taken by a leaf is an error. *)
Definition Dir (d : Path) (name : string) : M F Path := fun ss =>
  match FS ss !! d with
  | Some DirNode =>
      let p := d ++ [name] in
      match FS ss !! p with
      | Some DirNode => Ok p ss
      | Some _ => Fail (NotADirectory p)
      | None => Ok p (set_FS (<[p := DirNode]> (FS ss)) ss)
      end
  | Some _ => Fail (NotADirectory d)
  | None => Fail (NoSuchNode d)
  end.

(** Modelled from the spec: [dir.Float64(name, sizes...)] of the tensorfs
    library: the numeric leaf of that name, created lazily with [size]
    zero rows when there is none, returned as it is when there is one. A
    name taken by a directory or by a string leaf is an error. *)
Definition Float64 (d : Path) (name : string) (size : nat) : M F Path := fun ss =>
  match FS ss !! d with
  | Some DirNode =>
      let p := d ++ [name] in
      match FS ss !! p with
      | Some (Float64Node _ _) => Ok p ss
      | Some (StringNode _) => Fail TypeAssertion
      | Some DirNode => Fail (NotATensor p)
      | None => Ok p (set_FS (<[p := Float64Node (replicate size fzero) 0]> (FS ss)) ss)
      end
  | Some _ => Fail (NotADirectory d)
  | None => Fail (NoSuchNode d)
  end.

(** Modelled from the spec: [dir.StringValue(name, sizes...)], the string
    counterpart of [Float64]. *)
Definition StringValue (d : Path) (name : string) (size : nat) : M F Path := fun ss =>
  match FS ss !! d with
  | Some DirNode =>
      let p := d ++ [name] in
      match FS ss !! p with
      | Some (StringNode _) => Ok p ss
      | Some (Float64Node _ _) => Fail TypeAssertion
      | Some DirNode => Fail (NotATensor p)
      | None => Ok p (set_FS (<[p := StringNode (replicate size EmptyString)]> (FS ss)) ss)
      end
  | Some _ => Fail (NotADirectory d)
  | None => Fail (NoSuchNode d)
  end.

(** Modelled from the spec: [dir.Value(name)]: "reading a nonexistent path
    is an error, not a default value". *)
Definition Value (d : Path) (name : string) : M F Path := fun ss =>
  match FS ss !! d with
  | Some DirNode =>
      let p := d ++ [name] in
      match FS ss !! p with
      | Some DirNode => Fail (NotATensor p)
      | Some _ => Ok p ss
      | None => Fail (NoSuchNode p)
      end
  | Some _ => Fail (NotADirectory d)
  | None => Fail (NoSuchNode d)
  end.

(** The rows of a numeric leaf. *)
Definition readFloats (t : Path) : M F (list F) := fun ss =>
  match FS ss !! t with
  | Some (Float64Node rows _) => Ok rows ss
  | Some _ => Fail TypeAssertion
  | None => Fail (NoSuchNode t)
  end.

Definition updFloats (t : Path) (f : list F -> nat -> list F * nat) : M F unit := fun ss =>
  match FS ss !! t with
  | Some (Float64Node rows sty) =>
      let '(rows', sty') := f rows sty in
      Ok tt (set_FS (<[t := Float64Node rows' sty']> (FS ss)) ss)
  | Some _ => Fail TypeAssertion
  | None => Fail (NoSuchNode t)
  end.

(** Modelled from the spec: [tsr.SetNumRows(n)]; "Truncate(0) empties".
    Growing pads with zero rows. *)
Definition SetNumRows (t : Path) (n : nat) : M F unit :=
  updFloats t (fun rows sty =>
    (take n rows ++ replicate (n - length rows) fzero, sty)).

(** Modelled from the spec: [tsr.AppendRowFloat(v)]; "AppendRow(value)
    appends". *)
Definition AppendRowFloat (t : Path) (v : F) : M F unit :=
  updFloats t (fun rows sty => (rows ++ [v], sty)).

(** [tsr.SetFloat1D(v, i)]: an index outside the series panics. *)
Definition SetFloat1D (t : Path) (v : F) (i : nat) : M F unit :=
  let* rows := readFloats t in
  if decide (i < length rows)%nat
  then updFloats t (fun rows sty => (<[i := v]> rows, sty))
  else panic (IndexOutOfRange (Z.of_nat i) (length rows)).

(** [plot.SetFirstStyler(tsr, f)]: attaches the styler only when the leaf
    has none yet. *)
Definition SetFirstStyler (t : Path) : M F unit :=
  updFloats t (fun rows sty =>
    (rows, match sty with O => 1%nat | S _ => sty end)).

(** [stats.StatMean.Call(tsr).Float1D(0)]. *)
Definition StatMeanCall (t : Path) : M F F :=
  let* rows := readFloats t in ret (StatMean rows).

Definition readStrings (t : Path) : M F (list string) := fun ss =>
  match FS ss !! t with
  | Some (StringNode vals) => Ok vals ss
  | Some _ => Fail TypeAssertion
  | None => Fail (NoSuchNode t)
  end.

(** [tsr.SetString1D(s, i)] and [tsr.String1D(i)]. *)
Definition SetString1D (t : Path) (s : string) (i : nat) : M F unit :=
  let* vals := readStrings t in
  if decide (i < length vals)%nat
  then modify (fun ss => set_FS (<[t := StringNode (<[i := s]> vals)]> (FS ss)) ss)
  else panic (IndexOutOfRange (Z.of_nat i) (length vals)).

Definition String1D (t : Path) (i : nat) : M F string :=
  let* vals := readStrings t in
  match vals !! i with
  | Some s => ret s
  | None => panic (IndexOutOfRange (Z.of_nat i) (length vals))
  end.

(** ** Stats *)

(** A call of a library closure. *)
Definition callLib (f : Sim F -> option (gmap Path (Node F))) : M F unit := fun ss =>
  match f ss with
  | Some fs => Ok tt (set_FS fs ss)
  | None => Fail LibraryPanic
  end.

(** [AddStat]. *)
Definition AddStat (f : StatFuncId) : M F unit :=
  modify (fun ss => set_StatFuncs (StatFuncs ss ++ [f]) ss).

Definition statNames : list string := ["Harmony"].

(** The stat function that [ConfigStats] registers for [statNames]. The
    value [level - 1] is -1 at [Cycle], which has no declared name. *)
Definition HarmonyStat (mode : Modes) (level : Levels) (phase : StatsPhase) : M F unit :=
  forEach statNames (fun name =>
    let di := 0%nat in
    let ndata := 1%nat in
    let* stats := deref Stats in
    let* modeDir := Dir stats (Modes_String mode) in
    let* cur := deref Current in
    let* curModeDir := Dir cur (Modes_String mode) in
    let* levelDir := Dir modeDir (Levels_String level) in
    let* subDir := Dir modeDir (LevelsValue_String (Levels_Int64 level - 1)) in
    let* tsr := Float64 levelDir name 0 in
    match phase with
    | Start =>
        SetNumRows tsr 0 >>>
        SetFirstStyler tsr
    | Step =>
        match level with
        | Cycle =>
            let* src := Value subDir name in
            let* stat := StatMeanCall src in
            let* c := Float64 curModeDir name ndata in
            SetFloat1D c stat di >>>
            AppendRowFloat tsr stat
        | _ =>
            let* src := Value subDir name in
            let* stat := StatMeanCall src in
            AppendRowFloat tsr stat
        end
    end).

Definition callStat (f : StatFuncId) (mode : Modes) (level : Levels)
    (phase : StatsPhase) : M F unit :=
  match f with
  | SFCounters => callLib (counterFunc mode level (bool_decide (phase = Start)))
  | SFTrialName => callLib (trialNameFunc mode level (bool_decide (phase = Start)))
  | SFHarmony => HarmonyStat mode level phase
  | SFLayerState => callLib (stateFunc mode level (bool_decide (phase = Start)))
  end.

(** [RunStats]. *)
Definition RunStats (mode : Modes) (level : Levels) (phase : StatsPhase) : M F unit :=
  let* sfs := get StatFuncs in
  forEach sfs (fun sf => callStat sf mode level phase) >>>
  let* tabs := get GUITabs in
  if bool_decide (phase = Step) && tabs then
    let nm := Modes_String mode +:+ " " +:+ Levels_String level +:+ " Plot" in
    emit (EvGoUpdatePlot nm) >>>
    if bool_decide (level = Run)
    then emit (EvGoUpdatePlot "Train RunAll Plot")
    else ret tt
  else ret tt.

(** The type assertions [lmd.(Modes)] and [ltm.(Levels)]. *)
Definition assertModes (e : Enum) : M F Modes :=
  match e with EModes m => ret m | _ => panic TypeAssertion end.

Definition assertLevels (e : Enum) : M F Levels :=
  match e with ELevels l => ret l | _ => panic TypeAssertion end.

(** [StatsStart]. Past the guard, [level - 1] is a declared level. *)
Definition StatsStart (lmd ltm : Enum) : M F unit :=
  let* mode := assertModes lmd in
  let* level := assertLevels ltm in
  if bool_decide (Levels_Int64 level <= Levels_Int64 Cycle)%Z then ret tt
  else
    match Levels_of_Int64 (Levels_Int64 level - 1) with
    | Some inner => RunStats mode inner Start
    | None => ret tt
    end.

(** [leabra.StatsNode(statsDir, mode, level)]. *)
Definition StatsNode (mode : Modes) (level : Levels) : M F Path :=
  let* stats := deref Stats in
  let* modeDir := Dir stats (Modes_String mode) in
  Dir modeDir (Levels_String level).

(** [StatsStep]. *)
Definition StatsStep (lmd ltm : Enum) : M F unit :=
  let* mode := assertModes lmd in
  let* level := assertLevels ltm in
  RunStats mode level Step >>>
  let* d := StatsNode mode level in
  emit (EvWriteToLog d).

(** [SetRunName] and [RunName]. *)
Definition SetRunName : M F string :=
  let* params := get Params in
  let* cfg := get Config in
  let runName := Params_RunName params (CfgRunRun cfg) in
  let* cur := deref Current in
  let* t := StringValue cur "RunName" 1 in
  SetString1D t runName 0 >>>
  ret runName.

Definition RunName : M F string :=
  let* cur := deref Current in
  let* t := StringValue cur "RunName" 1 in
  String1D t 0.

(** [StatsInit]. The stacks are visited in the order of the list. *)
Definition StatsInit : M F unit :=
  let* ls := deref Loops in
  forEach ls (fun st =>
    forEach (Order st.2) (fun level => RunStats st.1 level Start)) >>>
  let* tabs := get GUITabs in
  if tabs then
    let* d1 := StatsNode Test Cycle in
    emit (EvPlotTensorFS d1) >>>
    let* d2 := StatsNode Test Trial in
    emit (EvPlotTensorFS d2)
  else ret tt.

(** [ConfigStats]. *)
Definition ConfigStats : M F unit :=
  let* root := deref Root in
  let* st := Dir root "Stats" in
  modify (set_Stats (Some st)) >>>
  let* cur := Dir st "Current" in
  modify (set_Current (Some cur)) >>>
  let* _ := SetRunName in
  AddStat SFCounters >>>
  AddStat SFTrialName >>>
  AddStat SFHarmony >>>
  AddStat SFLayerState.

(** ** Seeds *)

(** [rs.Init(n)]: a table of [n] seeds. *)
Definition Seeds_Init (n : nat) : list Z := map seedInit (seq 0 n).

(** Indexing the seed table: an index outside it is a runtime panic. *)
Definition Seeds_at (idx : Z) : M F Z := fun ss =>
  match (if (idx <? 0)%Z then None else RandSeeds ss !! Z.to_nat idx) with
  | Some seed => Ok seed ss
  | None => Fail (IndexOutOfRange idx (length (RandSeeds ss)))
  end.

(** [InitRandSeed]: [rs.Set(run)] seeds the global source, and
    [rs.Set(run, &ss.Net.Rand)] the source of the network. *)
Definition InitRandSeed (run : Z) : M F unit :=
  let* seed := Seeds_at run in
  modify (set_GlobalRand (Some seed)) >>>
  let* net := deref Net in
  let* seed := Seeds_at run in
  modify (set_Net (Some (mkNetwork (NetName net) (NetLayers net) (Some seed)))).

(** ** Network view and input direction *)

(** [NetViewUpdater]: the result is the address of a field of [ss]. *)
Definition NetViewUpdater (mode : Enum) : SimField :=
  if (Enum_Int64 mode =? Modes_Int64 Test)%Z then FTestUpdate else FTestUpdate.

(** [net.LayerByName(name)]: the position of the layer, [None] for nil. *)
Fixpoint LayerByName (ls : list Layer) (name : string) : option nat :=
  match ls with
  | [] => None
  | ly :: ls' =>
      if decide (LayName ly = name) then Some O
      else S <$> LayerByName ls' name
  end.

Definition withType (ty : LayerTypes) (ly : Layer) : Layer :=
  mkLayer (LayName ly) ty (LayShape ly) (LayDoc ly).

(** [ly.Params.Type = ty] through a layer pointer. *)
Definition setLayerType (ly : option nat) (ty : LayerTypes) : M F unit :=
  let* net := deref Net in
  match ly with
  | Some i =>
      modify (set_Net (Some (mkNetwork (NetName net)
        (alter (withType ty) i (NetLayers net)) (NetRand net))))
  | None => panic NilPointer
  end.

(** [SetInput]. *)
Definition SetInput (topDown : bool) : M F unit :=
  let* net := deref Net in
  let inp := LayerByName (NetLayers net) "Input" in
  let emo := LayerByName (NetLayers net) "Emotion" in
  let gend := LayerByName (NetLayers net) "Gender" in
  let iden := LayerByName (NetLayers net) "Identity" in
  if topDown then
    setLayerType inp CompareLayer >>>
    setLayerType emo InputLayer >>>
    setLayerType gend InputLayer >>>
    setLayerType iden InputLayer
  else
    setLayerType inp InputLayer >>>
    setLayerType emo CompareLayer >>>
    setLayerType gend CompareLayer >>>
    setLayerType iden CompareLayer.

(** ** Patterns *)

(** [table.New()] and [&table.Table{}]: a new table object. *)
Definition newTable : M F nat := fun ss =>
  let a := fresh (dom (Tables ss)) in
  Ok a (set_Tables (<[a := mkTable EmptyString EmptyString []]> (Tables ss)) ss).

Definition updTable (dt : option nat) (f : Table -> Table) : M F unit := fun ss =>
  match dt with
  | Some a =>
      match Tables ss !! a with
      | Some t => Ok tt (set_Tables (<[a := f t]> (Tables ss)) ss)
      | None => Fail NilPointer
      end
  | None => Fail NilPointer
  end.

(** [metadata.SetName(dt, name)] and [metadata.SetDoc(dt, doc)]. *)
Definition SetName (dt : option nat) (name : string) : M F unit :=
  updTable dt (fun t => mkTable name (TDoc t) (TRows t)).

Definition SetDoc (dt : option nat) (doc : string) : M F unit :=
  updTable dt (fun t => mkTable (TName t) doc (TRows t)).

(** [dt.OpenFS(embedfs, fnm, tensor.Tab)]: the error, if any. *)
Definition OpenFS (dt : option nat) (fnm : string) : M F (option string) :=
  match embedfs fnm with
  | Some rows =>
      updTable dt (fun t => mkTable (TName t) (TDoc t) rows) >>> ret None
  | None =>
      updTable dt (fun t => t) >>> ret (Some fnm)
  end.

(** [if errors.Log(err) != nil { fmt.Println(err) }]. *)
Definition logAndPrint (err : option string) : M F unit :=
  match err with
  | Some e => emit (EvLogError e) >>> emit (EvPrint e)
  | None => ret tt
  end.

(** [OpenPatterns]. *)
Definition OpenPatterns : M F unit :=
  let* a := newTable in
  let dt := Some a in
  SetName dt "Faces" >>>
  SetDoc dt "Face testing patterns" >>>
  let* err := OpenFS dt "faces.tsv" in
  logAndPrint err >>>
  let* dt := get PartialPatterns in
  SetName dt "FacesPartial" >>>
  SetDoc dt "Partial face testing patterns" >>>
  let* err := OpenFS dt "partial_faces.tsv" in
  logAndPrint err >>>
  modify (set_Patterns dt).

(** ** Run driver *)

(** [ls.ResetCounters()] of the looper library: every counter back to 0. *)
Definition ResetCounters : M F unit :=
  let* ls := deref Loops in
  modify (set_Loops (Some
    (map (fun st => (st.1, mkStack (Order st.2)
       (map (fun lp => (lp.1, mkCounter 0 (Max lp.2))) (StackLoops st.2)))) ls))).

(** [ApplyParams]. *)
Definition ApplyParams : M F unit :=
  let* _ := deref Net in
  emit EvApplyParams.

(** [InitWeights]. *)
Definition InitWeights : M F unit :=
  let* _ := deref Net in
  emit EvNetInitWeights >>>
  emit (EvOpenWeightsFS "faces.wts").

(** [NewRun]. *)
Definition NewRun : M F unit :=
  let* _ := deref Net in
  emit (EvEnvInit Test) >>>
  emit EvContextReset >>>
  InitWeights.

(** [Init]. *)
Definition Init : M F unit :=
  ResetCounters >>>
  InitRandSeed 0 >>>
  ApplyParams >>>
  StatsInit >>>
  NewRun.

Fixpoint setCounter (level : Levels) (c : Counter)
    (lps : list (Levels * Counter)) : option (list (Levels * Counter)) :=
  match lps with
  | [] => None
  | lp :: lps' =>
      if decide (lp.1 = level) then Some ((level, c) :: lps')
      else (fun r => lp :: r) <$> setCounter level c lps'
  end.

Fixpoint setStackCounter (mode : Modes) (level : Levels) (c : Counter)
    (ls : Stacks) : option Stacks :=
  match ls with
  | [] => None
  | st :: ls' =>
      if decide (st.1 = mode) then
        (fun lps => (mode, mkStack (Order st.2) lps) :: ls')
          <$> setCounter level c (StackLoops st.2)
      else (fun r => st :: r) <$> setStackCounter mode level c ls'
  end.

(** [ss.Loops.Loop(mode, level).Counter.SetCurMaxPlusN(cur, n)]: no such
    loop is a nil pointer. *)
Definition SetCurMaxPlusN (mode : Modes) (level : Levels) (cur n : Z) : M F unit :=
  let* ls := deref Loops in
  match setStackCounter mode level (mkCounter cur (cur + n)) ls with
  | Some ls' => modify (set_Loops (Some ls'))
  | None => panic NilPointer
  end.

Definition newline : string := String (Ascii.ascii_of_nat 10) EmptyString.

(** [RunNoGUI]. *)
Definition RunNoGUI : M F unit :=
  Init >>>
  let* cfg := get Config in
  (if decide (CfgParamsNote cfg = EmptyString) then ret tt
   else emit (EvPrint ("Note: " +:+ CfgParamsNote cfg +:+ newline))) >>>
  let* runName := SetRunName in
  let* net := deref Net in
  let netName := NetName net in
  emit (EvOpenLogFiles netName runName (CfgLogTest cfg)) >>>
  emit (EvPrint ("Running " +:+ pretty (CfgRunRuns cfg) +:+
                 " Runs starting at " +:+ pretty (CfgRunRun cfg) +:+ newline)) >>>
  SetCurMaxPlusN Test Trial (CfgRunRun cfg) (CfgRunRuns cfg) >>>
  emit (EvCloseLogFiles Cycle).

(** ** Configuration *)

(** [ConfigEnv]: the Test environment is a view on [ss.Patterns]. *)
Definition ConfigEnv : M F unit :=
  let* pats := deref Patterns in
  emit (EvEnvConfig Test pats).

Definition addLayer (name : string) (ty : LayerTypes) (shape : Z * Z)
    (doc : string) : M F unit :=
  let* net := deref Net in
  modify (set_Net (Some (mkNetwork (NetName net)
    (NetLayers net ++ [mkLayer name ty shape doc]) (NetRand net)))).

(** [ConfigNet]. *)
Definition ConfigNet : M F unit :=
  let* seed := Seeds_at 0 in
  let* net := deref Net in
  modify (set_Net (Some (mkNetwork (NetName net) (NetLayers net) (Some seed)))) >>>
  addLayer "Input" InputLayer (16, 16)%Z
    "Input represents visual image inputs in a simple cartoon form." >>>
  addLayer "Emotion" CompareLayer (1, 2)%Z
    "Emotion has synaptic weights that detect the facial features in the eyes and mouth that specifically reflect emotions." >>>
  addLayer "Gender" CompareLayer (1, 2)%Z
    "Gender has synaptic weights that detect the hair and face features that discriminate male vs female gender in this simplified cartoon set of inputs." >>>
  addLayer "Identity" CompareLayer (1, 10)%Z
    "Identity detects individual faces." >>>
  emit EvNetBuild >>>
  ApplyParams >>>
  InitWeights.

(** [ConfigLoops]: the Test stack has the levels Epoch and Trial, and the
    Trial count is the number of rows of the environment's table. *)
Definition ConfigLoops : M F unit :=
  let* cfg := get Config in
  let* pats := deref Patterns in
  let* tabs := get Tables in
  match tabs !! pats with
  | None => panic NilPointer
  | Some t =>
      let ntrls := Z.of_nat (length (TRows t)) in
      let ls : Stacks :=
        [(Test, mkStack [Epoch; Trial]
                  [(Epoch, mkCounter 0 1); (Trial, mkCounter 0 ntrls)])] in
      emit EvLooperStandard >>>
      emit (EvAddCallback "Init") >>>
      emit (EvAddCallback "ApplyInputs") >>>
      emit (EvAddCallback "StatsStart") >>>
      emit (EvAddCallback "StatsStep") >>>
      (if CfgGUI cfg then emit (EvAddCallback "GUI-Init") else ret tt) >>>
      (if CfgDebug cfg then emit EvPrintDocString else ret tt) >>>
      modify (set_Loops (Some ls))
  end.

(** [ConfigSim]. *)
Definition ConfigSim : M F unit :=
  modify (fun ss => set_Root (Some []) (set_FS {[ [] := DirNode ]} ss)) >>>
  let* cfg := get Config in
  modify (set_Net (Some (mkNetwork (CfgName cfg) [] None))) >>>
  modify (set_Params (mkParams (CfgParamsSheet cfg) (CfgParamsTag cfg))) >>>
  let* a := newTable in
  modify (set_Patterns (Some a)) >>>
  let* b := newTable in
  modify (set_PartialPatterns (Some b)) >>>
  modify (set_RandSeeds (Seeds_Init 100)) >>>
  InitRandSeed 0 >>>
  OpenPatterns >>>
  ConfigEnv >>>
  ConfigNet >>>
  ConfigLoops >>>
  ConfigStats.

End Faces.


(** * Further methods *)

Section FacesMore.

Context {F : Type} `{!Collaborators F}.

(** [ss.Envs.ByMode(Test)] with its type assertion. [ConfigEnv] is the
    one function that adds the Test environment, after configuring it,
    and the trace keeps that configuration: with no such environment the
    lookup gives nil and the assertion panics. *)
Definition isTestEnvConfig (e : Event) : bool :=
  match e with
  | EvEnvConfig Test _ => true
  | _ => false
  end.

Definition testEnv : M F unit :=
  let* evs := get Events in
  if existsb isTestEnvConfig evs then ret tt else panic TypeAssertion.

(** [SetPatterns]: the Test environment is given a view on one of the two
    tables (the assignment to [ev.Table]) and initialised again
    ([ev.Init(0)]). *)
Definition SetPatterns (partial : bool) : M F unit :=
  testEnv >>>
  if partial then
    let* dt := deref PartialPatterns in
    emit (EvEnvConfig Test dt) >>>
    emit (EvEnvInit Test)
  else
    let* dt := deref Patterns in
    emit (EvEnvConfig Test dt) >>>
    emit (EvEnvInit Test).

End FacesMore.

(** * Vocabulary of the properties *)

Section Vocabulary.

Context {F : Type} `{!Collaborators F}.

(** The part every call of the stat function starts with: the four
    directories and the series of the level, then the phase-specific
    continuation [K]. *)
Definition harmonyPrelude (mode : Modes) (level : Levels) (name : string)
    (K : Path -> Path -> Path -> M F unit) : M F unit :=
  let* stats := deref Stats in
  let* modeDir := Dir stats (Modes_String mode) in
  let* cur := deref Current in
  let* curModeDir := Dir cur (Modes_String mode) in
  let* levelDir := Dir modeDir (Levels_String level) in
  let* subDir := Dir modeDir (LevelsValue_String (Levels_Int64 level - 1)) in
  let* tsr := Float64 levelDir name 0 in
  K curModeDir subDir tsr.

(** The paths the prelude visits under the handles [S] and [C]. *)
Definition modeDirOf (S : Path) (mode : Modes) : Path := S ++ [Modes_String mode].
Definition levelDirOf (S : Path) (mode : Modes) (level : Levels) : Path :=
  modeDirOf S mode ++ [Levels_String level].
Definition subDirOf (S : Path) (mode : Modes) (level : Levels) : Path :=
  modeDirOf S mode ++ [LevelsValue_String (Levels_Int64 level - 1)].
Definition seriesOf (S : Path) (mode : Modes) (level : Levels) (name : string) : Path :=
  levelDirOf S mode level ++ [name].

(** What the stat function does after the prelude, by phase and level. *)
Definition harmonyPhase (phase : StatsPhase) (level : Levels) (name : string)
    (curModeDir subDir tsr : Path) : M F unit :=
  match phase with
  | Start =>
      SetNumRows tsr 0 >>>
      SetFirstStyler tsr
  | Step =>
      match level with
      | Cycle =>
          let* src := Value subDir name in
          let* stat := StatMeanCall src in
          let* c := Float64 curModeDir name 1 in
          SetFloat1D c stat 0 >>>
          AppendRowFloat tsr stat
      | _ =>
          let* src := Value subDir name in
          let* stat := StatMeanCall src in
          AppendRowFloat tsr stat
      end
  end.

(** The styler count after [plot.SetFirstStyler]. *)
Definition firstStyler (sty : nat) : nat :=
  match sty with O => 1%nat | S _ => sty end.

(** The handles as [ConfigStats] sets them: [Stats] is the directory
    "Stats" of the root and [Current] the directory "Current" in it. *)
Definition StatsConfigured (ss : Sim F) : Prop :=
  Stats ss = Some ["Stats"] /\ Current ss = Some ["Stats"; "Current"].

(** The state [s5] the prelude leaves, from the state [ss] it starts in:
    only the tree changes, nothing that was in it is lost, the four
    directories and the series of the level are in place, and nothing else
    is touched. *)
Record PreludeDone (mode : Modes) (level : Levels) (name : string)
    (ss : Sim F) (S C : Path) (s5 : Sim F) (rows : list F) (sty : nat) : Prop := {
  pd_Stats : Stats ss = Some S;
  pd_Current : Current ss = Some C;
  pd_frame : s5 = set_FS (FS s5) ss;
  pd_grows : FS ss ⊆ FS s5;
  pd_others : forall q,
    q <> modeDirOf S mode -> q <> modeDirOf C mode ->
    q <> levelDirOf S mode level -> q <> subDirOf S mode level ->
    q <> seriesOf S mode level name ->
    FS s5 !! q = FS ss !! q;
  pd_S : FS s5 !! S = Some DirNode;
  pd_C : FS s5 !! C = Some DirNode;
  pd_modeDir : FS s5 !! modeDirOf S mode = Some DirNode;
  pd_curModeDir : FS s5 !! modeDirOf C mode = Some DirNode;
  pd_levelDir : FS s5 !! levelDirOf S mode level = Some DirNode;
  pd_subDir : FS s5 !! subDirOf S mode level = Some DirNode;
  pd_series : FS s5 !! seriesOf S mode level name = Some (Float64Node rows sty);
  pd_before :
    FS ss !! seriesOf S mode level name = None /\ rows = [] /\ sty = O \/
    FS ss !! seriesOf S mode level name = Some (Float64Node rows sty)
}.

(** The series of the statistic at a mode and level, under the configured
    handles, its rows and its row count (0 before the series exists). *)
Definition seriesPath (mode : Modes) (level : Levels) : Path :=
  ["Stats"; Modes_String mode; Levels_String level; "Harmony"].

Definition seriesRows (ss : Sim F) (mode : Modes) (level : Levels) : option (list F) :=
  match FS ss !! seriesPath mode level with
  | Some (Float64Node rows _) => Some rows
  | _ => None
  end.

Definition NumRows (ss : Sim F) (mode : Modes) (level : Levels) : nat :=
  match seriesRows ss mode level with
  | Some rows => length rows
  | None => O
  end.

(** The entry of the statistic in the Current cache of a mode. *)
Definition currentPath (mode : Modes) : Path :=
  ["Stats"; "Current"; Modes_String mode; "Harmony"].

(** The path of the series a Step reduces: the series named after the
    value [level - 1], under the directory of the mode. *)
Definition reducedPath (mode : Modes) (level : Levels) : Path :=
  ["Stats"; Modes_String mode; LevelsValue_String (Levels_Int64 level - 1); "Harmony"].

(** The stat functions in the order [ConfigStats] registers them. *)
Definition configuredStatFuncs : list StatFuncId :=
  [SFCounters; SFTrialName; SFHarmony; SFLayerState].

(** A library closure that leaves every node named "Harmony" alone. *)
Definition keepsHarmony
    (f : Modes -> Levels -> bool -> Sim F -> option (gmap Path (Node F))) : Prop :=
  forall m l b ss fs q,
    f m l b ss = Some fs -> last q = Some "Harmony" -> fs !! q = FS ss !! q.

(** A sequence of phases, each run through [RunStats]. *)
Definition runPhases (tr : list (Modes * Levels * StatsPhase)) : M F unit :=
  forEach tr (fun e => RunStats e.1.1 e.1.2 e.2).

(** The number of Step phases of a mode and level in a sequence. *)
Fixpoint stepsAt (mode : Modes) (level : Levels)
    (tr : list (Modes * Levels * StatsPhase)) : nat :=
  match tr with
  | [] => O
  | e :: tr' =>
      if decide (e = (mode, level, Step))
      then S (stepsAt mode level tr')
      else stepsAt mode level tr'
  end.

(** The row count a sequence of phases leaves, from the count [n] before
    it: a Start of the mode and level resets it, a Step adds one. *)
Fixpoint rowsAfter (mode : Modes) (level : Levels)
    (tr : list (Modes * Levels * StatsPhase)) (n : nat) : nat :=
  match tr with
  | [] => n
  | e :: tr' =>
      rowsAfter mode level tr'
        (if decide (e = (mode, level, Start)) then O
         else if decide (e = (mode, level, Step)) then S n
         else n)
  end.

(** The layers whose type [SetInput] assigns. *)
Definition inputLayerNames : list string :=
  ["Input"; "Emotion"; "Gender"; "Identity"].

(** Layer [b] is layer [a] up to its type, and is [a] itself unless [a] is
    one of the four layers. *)
Definition sameButType (a b : Layer) : Prop :=
  LayName b = LayName a /\ LayShape b = LayShape a /\ LayDoc b = LayDoc a /\
  (LayName a ∉ inputLayerNames -> b = a).

(** Network [n1] is network [n0] up to the types of the four layers. *)
Definition netSameButTypes (n0 n1 : Network) : Prop :=
  NetName n1 = NetName n0 /\ NetRand n1 = NetRand n0 /\
  Forall2 sameButType (NetLayers n0) (NetLayers n1).

(** The events that only a Step phase produces: the log line that
    [StatsStep] writes and the plot update of [RunStats] at Step. *)
Definition isStepEvent (e : Event) : bool :=
  match e with
  | EvWriteToLog _ | EvGoUpdatePlot _ => true
  | _ => false
  end.

(** A computation that, when it returns, has only added events to the
    trace, none of them a Step event. *)
Definition stepless {A} (c : M F A) : Prop :=
  forall ss a ss1, c ss = Ok a ss1 ->
    exists evs, Events ss1 = Events ss ++ evs /\
                Forall (fun e => isStepEvent e = false) evs.

(** Lookup by key in an association list. *)
Fixpoint assoc {K V} `{EqDecision K} (k : K) (l : list (K * V)) : option V :=
  match l with
  | [] => None
  | kv :: l' => if decide (kv.1 = k) then Some kv.2 else assoc k l'
  end.

(** The counter of a level in the stack of a mode. *)
Definition counterOf (ls : Stacks) (mode : Modes) (level : Levels) : option Counter :=
  match assoc mode ls with
  | Some st => assoc level (StackLoops st)
  | None => None
  end.

End Vocabulary.


(** * Vocabulary of the further properties *)

Section FrameVocabulary.

Context {F : Type} `{!Collaborators F}.

(** A computation that, when it returns, has changed nothing of the
    simulation but the tree and the event trace. *)
Definition treeAndEventsOnly {A} (c : M F A) : Prop :=
  forall ss a ss1, c ss = Ok a ss1 ->
    ss1 = set_Events (Events ss1) (set_FS (FS ss1) ss).


(** The stacks after [ResetCounters]. *)
Definition resetStacks (ls : Stacks) : Stacks :=
  map (fun st => (st.1, mkStack (Order st.2)
         (map (fun lp => (lp.1, mkCounter 0 (Max lp.2))) (StackLoops st.2)))) ls.

(** The plot updates [RunStats] asks for, by phase and level, when the
    display is attached. *)
Definition plotUpdates (mode : Modes) (level : Levels) (phase : StatsPhase) : list Event :=
  match phase with
  | Start => []
  | Step =>
      EvGoUpdatePlot (Modes_String mode +:+ " " +:+ Levels_String level +:+ " Plot")
      :: (if decide (level = Run) then [EvGoUpdatePlot "Train RunAll Plot"] else [])
  end.

End FrameVocabulary.


Section TreeOnlyVocabulary.

Context {F : Type} `{!Collaborators F}.

(** A computation that, when it returns, has changed the tree only. *)
Definition treeOnly {A} (c : M F A) : Prop :=
  forall ss a ss1, c ss = Ok a ss1 -> exists fs, ss1 = set_FS fs ss.

End TreeOnlyVocabulary.


Section InputVocabulary.

(** The type [SetInput] assigns to the layer of a name. *)
Definition inputType (topDown : bool) (name : string) : LayerTypes :=
  if decide (name = "Input")
  then (if topDown then CompareLayer else InputLayer)
  else (if topDown then InputLayer else CompareLayer).

(** The layers after the four assignments of [SetInput], at the positions
    of the layers Input, Emotion, Gender and Identity. *)
Definition retyped (topDown : bool) (inp emo gend iden : nat)
    (ls : list Layer) : list Layer :=
  alter (withType (inputType topDown "Identity")) iden
    (alter (withType (inputType topDown "Gender")) gend
       (alter (withType (inputType topDown "Emotion")) emo
          (alter (withType (inputType topDown "Input")) inp ls))).

End InputVocabulary.


Section PatternVocabulary.

Context {F : Type} `{!Collaborators F}.

(** What [OpenPatterns] reports for a file: nothing when it opens, the
    logged and the printed error when it does not. *)
Definition loadErrors (fnm : string) : list Event :=
  match embedfs fnm with
  | Some _ => []
  | None => [EvLogError fnm; EvPrint fnm]
  end.

End PatternVocabulary.

(** * A concrete simulation

    Rational numbers for the float values, the arithmetic mean, library
    closures that do not fail, and two small embedded pattern files. *)

Definition Qmean (l : list Q) : Q :=
  Qred (fold_right Qplus 0%Q l / inject_Z (Z.of_nat (length l))).

Definition exFiles (fnm : string) : option (list (list string)) :=
  if decide (fnm = "faces.tsv")
  then Some [["happy"]; ["sad"]; ["frown"]; ["smile"]]
  else if decide (fnm = "partial_faces.tsv")
  then Some [["happy-top"]; ["sad-top"]]
  else None.

(** A trial-name closure that records the name in the Current cache. *)
Definition exTrialName (mode : Modes) (level : Levels) (start : bool)
    (ss : Sim Q) : option (gmap Path (Node Q)) :=
  Some (<[ ["Stats"; "Current"; Modes_String mode; "TrialName"] :=
           StringNode ["trial"] ]> (FS ss)).

Definition exCollaborators : Collaborators Q := {|
  fzero := 0%Q;
  StatMean := Qmean;
  counterFunc := fun _ _ _ ss => Some (FS ss);
  trialNameFunc := exTrialName;
  stateFunc := fun _ _ _ ss => Some (FS ss);
  Params_RunName := fun _ run => "Base_" +:+ pretty run;
  seedInit := fun i => (Z.of_nat i + 1)%Z;
  embedfs := exFiles
|}.

Definition exConfig : ConfigT :=
  mkConfig "Faces" false false "" "" "" 0 1 [].

(** The simulation object before [ConfigSim]. *)
Definition exBlank : Sim Q :=
  mkSim None None ∅ exConfig None (mkParams "" "") None None None None ∅
    [] false [] None [].

Definition stateOf {A} (r : Res Q A) : Sim Q :=
  match r with Ok _ ss => ss | Fail _ => exBlank end.

(** The simulation after [ConfigSim]. *)
Definition exConfigured : Sim Q :=
  Eval vm_compute in stateOf (@ConfigSim Q exCollaborators exBlank).

(** The phases of one epoch with two trials, up to the end of the second
    trial: the epoch starts, and each trial starts and ends. *)
Definition exPre : list (Modes * Levels * StatsPhase) :=
  [(Test, Epoch, Start); (Test, Cycle, Start)].

Definition exSuf : list (Modes * Levels * StatsPhase) :=
  [(Test, Trial, Step); (Test, Cycle, Start); (Test, Trial, Step)].

Definition exAfterTrials : Sim Q :=
  Eval vm_compute in
    stateOf (@runPhases Q exCollaborators
               (exPre ++ (Test, Trial, Start) :: exSuf) exConfigured).

Definition exAfterEpoch : Sim Q :=
  Eval vm_compute in
    stateOf (@HarmonyStat Q exCollaborators Test Epoch Step exAfterTrials).

Definition exAfterStart : Sim Q :=
  Eval vm_compute in
    stateOf (@HarmonyStat Q exCollaborators Test Trial Start exAfterTrials).

Definition exTopDown : Sim Q :=
  Eval vm_compute in stateOf (@SetInput Q true exConfigured).

Definition exAfterRunNoGUI : Sim Q :=
  Eval vm_compute in stateOf (@RunNoGUI Q exCollaborators exConfigured).


(** ** Further states *)

(** A simulation with the display attached ([ss.GUI.Tabs] is not nil). *)
Definition withDisplay (ss : Sim Q) : Sim Q :=
  mkSim (Patterns ss) (PartialPatterns ss) (Tables ss) (Config ss) (Net ss)
    (Params ss) (Loops ss) (Root ss) (Stats ss) (Current ss) (FS ss)
    (StatFuncs ss) true (RandSeeds ss) (GlobalRand ss) (Events ss).

(** The end of the epoch, with the display attached. *)
Definition exDisplayed : Sim Q :=
  Eval vm_compute in withDisplay exAfterEpoch.


Definition exAfterTrialStep : Sim Q :=
  Eval vm_compute in
    stateOf (@StatsStep Q exCollaborators (EModes Test) (ELevels Trial) exDisplayed).

Definition exAfterEpochStart : Sim Q :=
  Eval vm_compute in
    stateOf (@StatsStart Q exCollaborators (EModes Test) (ELevels Epoch) exAfterTrials).

(** A third trial after the two of [exAfterTrials]. *)
Definition exThird : list (Modes * Levels * StatsPhase) :=
  [(Test, Cycle, Start); (Test, Trial, Step)].

Definition exAfterThird : Sim Q :=
  Eval vm_compute in stateOf (@runPhases Q exCollaborators exThird exAfterTrials).


Definition exAfterInit : Sim Q :=
  Eval vm_compute in stateOf (@Init Q exCollaborators exAfterTrials).

(** [ConfigStats] a second time. *)
Definition exReconfigured : Sim Q :=
  Eval vm_compute in stateOf (@ConfigStats Q exCollaborators exConfigured).


(** The configured simulation with a network that lacks the Identity
    layer. *)
Definition exNoIdentity : Sim Q :=
  Eval vm_compute in
    set_Net (Some (mkNetwork "Faces"
                     (take 3 (NetLayers (default (mkNetwork "" [] None)
                                           (Net exConfigured))))
                     None)) exConfigured.

(** Collaborators whose embedded file system holds no file. *)
Definition exNoFiles : Collaborators Q := {|
  fzero := 0%Q;
  StatMean := Qmean;
  counterFunc := fun _ _ _ ss => Some (FS ss);
  trialNameFunc := exTrialName;
  stateFunc := fun _ _ _ ss => Some (FS ss);
  Params_RunName := fun _ run => "Base_" +:+ pretty run;
  seedInit := fun i => (Z.of_nat i + 1)%Z;
  embedfs := fun _ => None
|}.

Definition exReopened : Sim Q :=
  Eval vm_compute in stateOf (@OpenPatterns Q exCollaborators exConfigured).

(** * Properties *)

Section Monad.

Context {F : Type}.

Lemma bind_Ok_inv {A B} (c : M F A) (k : A -> M F B) ss b ss' :
  bind c k ss = Ok b ss' ->
  exists a s1, c ss = Ok a s1 /\ k a s1 = Ok b ss'.
Proof.
  unfold bind. destruct (c ss) as [a s1|p]; [eauto | discriminate].
Qed.

Lemma bind_Ok {A B} (c : M F A) (k : A -> M F B) ss a s1 :
  c ss = Ok a s1 -> bind c k ss = k a s1.
Proof. unfold bind. now intros ->. Qed.

Lemma bind_Fail {A B} (c : M F A) (k : A -> M F B) ss p :
  c ss = Fail p -> bind c k ss = Fail p.
Proof. unfold bind. now intros ->. Qed.

Lemma set_FS_same (ss : Sim F) : set_FS (FS ss) ss = ss.
Proof. now destruct ss. Qed.

Lemma deref_Ok_inv {A} (f : Sim F -> option A) ss a ss' :
  deref f ss = Ok a ss' -> f ss = Some a /\ ss' = ss.
Proof.
  unfold deref. destruct (f ss); [|discriminate].
  intros [= -> ->]. auto.
Qed.

End Monad.

(** Splits a successful run of a sequence into its steps. *)
Tactic Notation "inv_bind" hyp(H) "as" ident(a) ident(s) ident(H1) :=
  apply bind_Ok_inv in H as (a & s & H1 & H).

Section TreeOps.

Context {F : Type} `{!Collaborators F}.

Implicit Types (ss : Sim F) (d p t : Path).

Lemma Dir_inv d name ss p ss' :
  Dir d name ss = Ok p ss' ->
  p = d ++ [name] /\
  FS ss !! d = Some DirNode /\
  (FS ss !! p = None \/ FS ss !! p = Some DirNode) /\
  ss' = set_FS (<[p := DirNode]> (FS ss)) ss.
Proof.
  unfold Dir. destruct (FS ss !! d) as [[]|] eqn:Hd; try discriminate.
  destruct (FS ss !! (d ++ [name])) as [[]|] eqn:Hp; try discriminate;
    intros [= <- <-]; repeat split; auto.
  now rewrite insert_id, set_FS_same.
Qed.

Lemma Dir_found d name ss :
  FS ss !! d = Some DirNode ->
  FS ss !! (d ++ [name]) = Some DirNode ->
  Dir d name ss = Ok (d ++ [name]) ss.
Proof. unfold Dir. now intros -> ->. Qed.

Lemma Float64_inv d name n ss p ss' :
  Float64 d name n ss = Ok p ss' ->
  p = d ++ [name] /\
  FS ss !! d = Some DirNode /\
  exists rows sty,
    (FS ss !! p = None /\ rows = replicate n fzero /\ sty = O \/
     FS ss !! p = Some (Float64Node rows sty)) /\
    ss' = set_FS (<[p := Float64Node rows sty]> (FS ss)) ss.
Proof.
  unfold Float64. destruct (FS ss !! d) as [[]|] eqn:Hd; try discriminate.
  destruct (FS ss !! (d ++ [name])) as [[|rows sty|]|] eqn:Hp; try discriminate;
    intros [= <- <-]; repeat split; auto.
  - exists rows, sty. split; [now right|].
    now rewrite insert_id, set_FS_same.
  - eexists _, _. split; [left; eauto | reflexivity].
Qed.

Lemma Float64_found d name n ss rows sty :
  FS ss !! d = Some DirNode ->
  FS ss !! (d ++ [name]) = Some (Float64Node rows sty) ->
  Float64 d name n ss = Ok (d ++ [name]) ss.
Proof. unfold Float64. now intros -> ->. Qed.

Lemma updFloats_inv t f ss ss' :
  updFloats t f ss = Ok tt ss' ->
  exists rows sty,
    FS ss !! t = Some (Float64Node rows sty) /\
    ss' = set_FS (<[t := Float64Node (f rows sty).1 (f rows sty).2]> (FS ss)) ss.
Proof.
  unfold updFloats. destruct (FS ss !! t) as [[|rows sty|]|]; try discriminate.
  destruct (f rows sty) as [rows' sty'] eqn:Hf. intros [= <-].
  exists rows, sty. now rewrite Hf.
Qed.

Lemma updFloats_run t f ss rows sty :
  FS ss !! t = Some (Float64Node rows sty) ->
  updFloats t f ss =
    Ok tt (set_FS (<[t := Float64Node (f rows sty).1 (f rows sty).2]> (FS ss)) ss).
Proof. unfold updFloats. intros ->. now destruct (f rows sty). Qed.

Lemma readFloats_inv t ss rows ss' :
  readFloats t ss = Ok rows ss' ->
  ss' = ss /\ exists sty, FS ss !! t = Some (Float64Node rows sty).
Proof.
  unfold readFloats. destruct (FS ss !! t) as [[|r sty|]|]; try discriminate.
  intros [= <- <-]. eauto.
Qed.

Lemma Value_inv d name ss p ss' :
  Value d name ss = Ok p ss' ->
  p = d ++ [name] /\ ss' = ss /\ FS ss !! d = Some DirNode /\
  exists nd, FS ss !! p = Some nd /\ nd <> DirNode.
Proof.
  unfold Value. destruct (FS ss !! d) as [[]|] eqn:Hd; try discriminate.
  destruct (FS ss !! (d ++ [name])) as [[]|] eqn:Hp; try discriminate;
    intros [= <- <-]; repeat split; eauto.
Qed.

End TreeOps.

Section HarmonyPrelude.

Context {F : Type} `{!Collaborators F}.

Implicit Types (ss : Sim F) (fs : gmap Path (Node F)).

Lemma insert_same_subseteq fs (p : Path) (nd : Node F) :
  fs !! p = None \/ fs !! p = Some nd -> fs ⊆ <[p := nd]> fs.
Proof.
  intros [Hn|Hs]; [now apply insert_subseteq | now rewrite insert_id].
Qed.



Lemma harmonyPrelude_inv mode level name K ss ss' :
  harmonyPrelude mode level name K ss = Ok tt ss' ->
  exists S C s5 rows sty,
    Stats ss = Some S /\ Current ss = Some C /\
    s5 = set_FS (FS s5) ss /\
    FS ss ⊆ FS s5 /\
    (forall q, q <> modeDirOf S mode -> q <> modeDirOf C mode ->
               q <> levelDirOf S mode level -> q <> subDirOf S mode level ->
               q <> seriesOf S mode level name ->
               FS s5 !! q = FS ss !! q) /\
    FS s5 !! S = Some DirNode /\
    FS s5 !! C = Some DirNode /\
    FS s5 !! modeDirOf S mode = Some DirNode /\
    FS s5 !! modeDirOf C mode = Some DirNode /\
    FS s5 !! levelDirOf S mode level = Some DirNode /\
    FS s5 !! subDirOf S mode level = Some DirNode /\
    FS s5 !! seriesOf S mode level name = Some (Float64Node rows sty) /\
    (FS ss !! seriesOf S mode level name = None /\ rows = [] /\ sty = O \/
     FS ss !! seriesOf S mode level name = Some (Float64Node rows sty)) /\
    K (modeDirOf C mode) (subDirOf S mode level) (seriesOf S mode level name) s5
      = Ok tt ss'.
Proof.
  unfold harmonyPrelude. intros H.
  inv_bind H as S s0 Hstep. apply deref_Ok_inv in Hstep as [HS ->].
  inv_bind H as md s1 Hstep. apply Dir_inv in Hstep as (-> & HdS & Hm & ->).
  inv_bind H as C s2 Hstep. apply deref_Ok_inv in Hstep as [HC ->].
  inv_bind H as cmd s3 Hstep. apply Dir_inv in Hstep as (-> & HdC & Hcm & ->).
  inv_bind H as ld s4 Hstep. apply Dir_inv in Hstep as (-> & Hdm & Hl & ->).
  inv_bind H as sd s5 Hstep. apply Dir_inv in Hstep as (-> & Hdm' & Hsub & ->).
  inv_bind H as tsr' s6 Hstep.
  apply Float64_inv in Hstep as (-> & Hdl & rows & sty & Ht & ->).
  cbn [FS set_FS Stats Current] in *.
  set (fs0 := FS ss) in *.
  set (fs1 := <[S ++ [Modes_String mode] := DirNode]> fs0) in *.
  set (fs2 := <[C ++ [Modes_String mode] := DirNode]> fs1) in *.
  set (fs3 := <[(S ++ [Modes_String mode]) ++ [Levels_String level] := DirNode]> fs2) in *.
  set (fs4 := <[(S ++ [Modes_String mode]) ++
                 [LevelsValue_String (Levels_Int64 level - 1)] := DirNode]> fs3) in *.
  set (tsr := ((S ++ [Modes_String mode]) ++ [Levels_String level]) ++ [name]) in *.
  assert (H01 : fs0 ⊆ fs1) by now apply insert_same_subseteq.
  assert (H12 : fs1 ⊆ fs2) by now apply insert_same_subseteq.
  assert (H23 : fs2 ⊆ fs3) by now apply insert_same_subseteq.
  assert (H34 : fs3 ⊆ fs4) by now apply insert_same_subseteq.
  assert (H45 : fs4 ⊆ <[tsr := Float64Node rows sty]> fs4).
  { apply insert_same_subseteq. destruct Ht as [(? & _)|?]; auto. }
  assert (H02 : fs0 ⊆ fs2) by (etrans; [exact H01 | exact H12]).
  assert (H24 : fs2 ⊆ fs4) by (etrans; [exact H23 | exact H34]).
  assert (H04 : fs0 ⊆ fs4) by (etrans; [exact H02 | exact H24]).
  assert (Hout : forall q, q <> modeDirOf S mode -> q <> modeDirOf C mode ->
               q <> levelDirOf S mode level -> q <> subDirOf S mode level ->
               fs4 !! q = fs0 !! q).
  { intros q ? ? ? ?. unfold fs4, fs3, fs2, fs1.
    now rewrite !lookup_insert_ne by (intros <-; contradiction). }
  exists S, C, (set_FS (<[tsr := Float64Node rows sty]> fs4) ss), rows, sty.
  cbn [FS set_FS].
  split; [done|]. split; [done|]. split; [done|].
  split; [etrans; [exact H04 | exact H45]|].
  split.
  { intros q ? ? ? ? ?. rewrite lookup_insert_ne by (intros <-; contradiction).
    now apply Hout. }
  split; [eapply lookup_weaken; [exact HdS|etrans; [exact H04 | exact H45]]|].
  split.
  { eapply lookup_weaken; [exact HdC|].
    etrans; [exact H12|]. etrans; [exact H24 | exact H45]. }
  split.
  { eapply lookup_weaken; [exact Hdm|]. etrans; [exact H24 | exact H45]. }
  split.
  { eapply lookup_weaken; [|etrans; [exact H24 | exact H45]].
    unfold fs2. apply lookup_insert_eq. }
  split; [eapply lookup_weaken; [exact Hdl|done]|].
  split.
  { eapply lookup_weaken; [|exact H45]. unfold fs4. apply lookup_insert_eq. }
  split; [apply lookup_insert_eq|].
  split; [|exact H].
  change (seriesOf S mode level name) with tsr. change (FS ss) with fs0.
  destruct Ht as [(Hn & -> & ->)|Hs].
  - left. split; [|done].
    destruct (fs0 !! tsr) as [nd|] eqn:E; [|done].
    eapply lookup_weaken in E; [|exact H04]. congruence.
  - destruct (fs0 !! tsr) as [nd|] eqn:E.
    + right. eapply lookup_weaken in E; [|exact H04]. congruence.
    + assert (Hq : fs4 !! tsr = fs0 !! tsr).
      { apply Hout; intros Heq; rewrite Heq in Hs.
        - eapply lookup_weaken in Hdm; [|exact H24]. unfold modeDirOf in Hs. congruence.
        - assert (fs4 !! modeDirOf C mode = Some DirNode).
          { eapply lookup_weaken; [|exact H24].
            unfold fs2. apply lookup_insert_eq. }
          congruence.
        - unfold levelDirOf, modeDirOf in Hs. congruence.
        - unfold subDirOf, modeDirOf, fs4 in Hs. rewrite lookup_insert_eq in Hs. congruence. }
      congruence.
Qed.

End HarmonyPrelude.

Section HarmonyPhases.

Context {F : Type} `{!Collaborators F}.

Implicit Types (ss : Sim F) (fs : gmap Path (Node F)).



Lemma bind_ret_tt (c : M F unit) ss : (c >>> ret tt) ss = c ss.
Proof. unfold bind, ret. now destruct (c ss) as [[] ?|]. Qed.

Lemma HarmonyStat_eq mode level phase ss :
  HarmonyStat mode level phase ss =
  harmonyPrelude mode level "Harmony" (harmonyPhase phase level "Harmony") ss.
Proof.
  unfold HarmonyStat, statNames. cbn [forEach]. rewrite bind_ret_tt.
  reflexivity.
Qed.

Lemma harmonyPrelude_run mode level name K ss S C rows sty :
  Stats ss = Some S -> Current ss = Some C ->
  FS ss !! S = Some DirNode ->
  FS ss !! C = Some DirNode ->
  FS ss !! modeDirOf S mode = Some DirNode ->
  FS ss !! modeDirOf C mode = Some DirNode ->
  FS ss !! levelDirOf S mode level = Some DirNode ->
  FS ss !! subDirOf S mode level = Some DirNode ->
  FS ss !! seriesOf S mode level name = Some (Float64Node rows sty) ->
  harmonyPrelude mode level name K ss =
  K (modeDirOf C mode) (subDirOf S mode level) (seriesOf S mode level name) ss.
Proof.
  intros HS HC HdS HdC Hm Hcm Hl Hsub Ht. unfold harmonyPrelude.
  rewrite (bind_Ok _ _ ss S ss) by (unfold deref; now rewrite HS).
  rewrite (bind_Ok _ _ ss _ ss (Dir_found _ _ _ HdS Hm)).
  rewrite (bind_Ok _ _ ss C ss) by (unfold deref; now rewrite HC).
  rewrite (bind_Ok _ _ ss _ ss (Dir_found _ _ _ HdC Hcm)).
  rewrite (bind_Ok _ _ ss _ ss (Dir_found _ _ _ Hm Hl)).
  rewrite (bind_Ok _ _ ss _ ss (Dir_found _ _ _ Hm Hsub)).
  rewrite (bind_Ok _ _ ss _ ss (Float64_found _ _ _ _ _ _ Hl Ht)).
  reflexivity.
Qed.

Lemma lookup_differ fs (p q : Path) : fs !! p <> fs !! q -> p <> q.
Proof. intros Hne ->. now apply Hne. Qed.

End HarmonyPhases.

Section StartPhase.

Context {F : Type} `{!Collaborators F}.

Implicit Types (ss : Sim F) (fs : gmap Path (Node F)).



Lemma firstStyler_idem sty : firstStyler (firstStyler sty) = firstStyler sty.
Proof. now destruct sty. Qed.

(** The effect of the Start phase on the tree: the prelude, then the
    series of the level emptied and styled. *)
Lemma HarmonyStat_Start_inv mode level ss ss1 :
  HarmonyStat mode level Start ss = Ok tt ss1 ->
  exists S C s5 rows sty,
    Stats ss = Some S /\ Current ss = Some C /\
    s5 = set_FS (FS s5) ss /\
    FS ss ⊆ FS s5 /\
    (forall q, q <> modeDirOf S mode -> q <> modeDirOf C mode ->
               q <> levelDirOf S mode level -> q <> subDirOf S mode level ->
               q <> seriesOf S mode level "Harmony" ->
               FS s5 !! q = FS ss !! q) /\
    FS s5 !! S = Some DirNode /\
    FS s5 !! C = Some DirNode /\
    FS s5 !! modeDirOf S mode = Some DirNode /\
    FS s5 !! modeDirOf C mode = Some DirNode /\
    FS s5 !! levelDirOf S mode level = Some DirNode /\
    FS s5 !! subDirOf S mode level = Some DirNode /\
    FS s5 !! seriesOf S mode level "Harmony" = Some (Float64Node rows sty) /\
    ss1 = set_FS (<[seriesOf S mode level "Harmony" :=
                     Float64Node [] (firstStyler sty)]> (FS s5)) ss.
Proof.
  rewrite HarmonyStat_eq. intros H.
  apply harmonyPrelude_inv in H
    as (S & C & s5 & rows & sty & HS & HC & Hs5 & Hsub & Hout & H1 & H2 & H3
        & H4 & H5 & H6 & Ht & _ & H).
  exists S, C, s5, rows, sty. repeat (split; [assumption|]).
  cbn [harmonyPhase] in H. unfold SetNumRows, SetFirstStyler in H.
  inv_bind H as u s6 Hstep. destruct u.
  apply updFloats_inv in Hstep as (rows0 & sty0 & Ht0 & ->).
  apply updFloats_inv in H as (rows1 & sty1 & Ht1 & ->).
  cbn [FS set_FS fst snd] in *.
  rewrite lookup_insert_eq in Ht1. rewrite Ht in Ht0.
  injection Ht0 as <- <-. injection Ht1 as <- <-.
  rewrite insert_insert_eq. rewrite Hs5. reflexivity.
Qed.

End StartPhase.

Section StartIdempotent.

Context {F : Type} `{!Collaborators F}.

(** C6. The Start phase of the registered stat function is idempotent:
    whatever the tree held before, a Start that returns leaves the series
    of the level with zero rows, and a second Start right after it returns
    too and leaves the whole simulation state exactly as the first one
    did. *)
Theorem HarmonyStat_Start_idempotent (mode : Modes) (level : Levels)
    (ss ss1 : Sim F) :
  HarmonyStat mode level Start ss = Ok tt ss1 ->
  (exists S sty, Stats ss1 = Some S /\
     FS ss1 !! seriesOf S mode level "Harmony" = Some (Float64Node [] sty)) /\
  HarmonyStat mode level Start ss1 = Ok tt ss1.
Proof.
  intros H.
  apply HarmonyStat_Start_inv in H
    as (S & C & s5 & rows & sty & HS & HC & Hs5 & Hsub & Hout & H1 & H2 & H3
        & H4 & H5 & H6 & Ht & ->).
  set (tsr := seriesOf S mode level "Harmony") in *.
  set (nd := Float64Node [] (firstStyler sty)).
  assert (Hdir : forall q, FS s5 !! q = Some DirNode ->
                   <[tsr := nd]> (FS s5) !! q = Some DirNode).
  { intros q Hq. rewrite lookup_insert_ne; [exact Hq|].
    apply (lookup_differ (FS s5)). rewrite Ht, Hq. discriminate. }
  split.
  { exists S, (firstStyler sty). cbn [Stats FS set_FS]. split; [exact HS|].
    apply lookup_insert_eq. }
  rewrite HarmonyStat_eq.
  rewrite (harmonyPrelude_run mode level "Harmony" _ _ S C [] (firstStyler sty));
    cbn [Stats Current FS set_FS]; auto; [|apply lookup_insert_eq].
  cbn [harmonyPhase]. unfold SetNumRows, SetFirstStyler.
  erewrite bind_Ok.
  2:{ apply updFloats_run. cbn [FS set_FS]. apply lookup_insert_eq. }
  erewrite updFloats_run.
  2:{ cbn [FS set_FS]. apply lookup_insert_eq. }
  cbn [FS set_FS fst snd take replicate Nat.sub app].
  rewrite !insert_insert_eq. fold (firstStyler (firstStyler sty)).
  rewrite firstStyler_idem. reflexivity.
Qed.

End StartIdempotent.

Section StepPhase.

Context {F : Type} `{!Collaborators F}.

Implicit Types (ss : Sim F) (fs : gmap Path (Node F)).



Lemma harmonyPrelude_done mode level name K ss ss' :
  harmonyPrelude mode level name K ss = Ok tt ss' ->
  exists S C s5 rows sty,
    PreludeDone mode level name ss S C s5 rows sty /\
    K (modeDirOf C mode) (subDirOf S mode level) (seriesOf S mode level name) s5
      = Ok tt ss'.
Proof.
  intros H.
  apply harmonyPrelude_inv in H
    as (S & C & s5 & rows & sty & HS & HC & Hs5 & Hsub & Hout & H1 & H2 & H3
        & H4 & H5 & H6 & Ht & Hb & H).
  exists S, C, s5, rows, sty. split; [constructor; assumption | exact H].
Qed.

(** The effect of a Step above Cycle: the mean of the series below is
    appended to the series of the level; nothing else changes after the
    prelude. *)
Lemma HarmonyStat_Step_inv mode level ss ss1 :
  level <> Cycle ->
  HarmonyStat mode level Step ss = Ok tt ss1 ->
  exists S C s5 rows sty xs xsty,
    PreludeDone mode level "Harmony" ss S C s5 rows sty /\
    FS s5 !! (subDirOf S mode level ++ ["Harmony"]) = Some (Float64Node xs xsty) /\
    ss1 = set_FS (<[seriesOf S mode level "Harmony" :=
                     Float64Node (rows ++ [StatMean xs]) sty]> (FS s5)) ss.
Proof.
  intros Hl. rewrite HarmonyStat_eq. intros H.
  apply harmonyPrelude_done in H as (S & C & s5 & rows & sty & Hpd & H).
  exists S, C, s5, rows, sty.
  assert (Hstep : (let* src := Value (subDirOf S mode level) "Harmony" in
                   let* stat := StatMeanCall src in
                   AppendRowFloat (seriesOf S mode level "Harmony") stat) s5
                  = Ok tt ss1).
  { destruct level; [contradiction| | | |]; exact H. }
  clear H. inv_bind Hstep as src s6 Hv.
  apply Value_inv in Hv as (-> & -> & _ & nd & Hnd & _).
  unfold StatMeanCall in Hstep.
  inv_bind Hstep as stat s7 Hr. inv_bind Hr as xs s8 Hr'.
  apply readFloats_inv in Hr' as (-> & xsty & Hxs).
  injection Hr as <- <-.
  apply updFloats_inv in Hstep as (rows0 & sty0 & Ht0 & ->).
  rewrite (pd_series _ _ _ _ _ _ _ _ _ Hpd) in Ht0. injection Ht0 as <- <-.
  exists xs, xsty. split; [exact Hpd|]. split; [exact Hxs|].
  cbn [fst snd]. rewrite (pd_frame _ _ _ _ _ _ _ _ _ Hpd). reflexivity.
Qed.

(** The effect of a Step at Cycle: the series reduced is the one under
    the directory named after the value [Cycle - 1], the mean is written
    to the Current cache of the mode and appended to the Cycle series. *)
Lemma HarmonyStat_Cycle_Step_inv mode ss ss1 :
  StatsConfigured ss ->
  HarmonyStat mode Cycle Step ss = Ok tt ss1 ->
  exists s5 rows sty xs xsty crows csty,
    PreludeDone mode Cycle "Harmony" ss ["Stats"] ["Stats"; "Current"] s5 rows sty /\
    FS s5 !! ["Stats"; Modes_String mode; "-1"; "Harmony"]
      = Some (Float64Node xs xsty) /\
    (FS s5 !! ["Stats"; "Current"; Modes_String mode; "Harmony"] = None /\
       crows = [fzero] /\ csty = O \/
     FS s5 !! ["Stats"; "Current"; Modes_String mode; "Harmony"]
       = Some (Float64Node crows csty)) /\
    ss1 = set_FS (<[["Stats"; Modes_String mode; "Cycle"; "Harmony"] :=
                     Float64Node (rows ++ [StatMean xs]) sty]>
                  (<[["Stats"; "Current"; Modes_String mode; "Harmony"] :=
                     Float64Node (<[O := StatMean xs]> crows) csty]> (FS s5))) ss.
Proof.
  intros [HS HC]. rewrite HarmonyStat_eq. intros H.
  apply harmonyPrelude_done in H as (S & C & s5 & rows & sty & Hpd & H).
  pose proof (pd_Stats _ _ _ _ _ _ _ _ _ Hpd) as HS'.
  pose proof (pd_Current _ _ _ _ _ _ _ _ _ Hpd) as HC'.
  rewrite HS in HS'. rewrite HC in HC'. injection HS' as <-. injection HC' as <-.
  exists s5, rows, sty.
  pose proof (pd_series _ _ _ _ _ _ _ _ _ Hpd) as Hser.
  cbn [harmonyPhase] in H. inv_bind H as src s6 Hv.
  apply Value_inv in Hv as (-> & -> & _ & nd & Hnd & _).
  unfold StatMeanCall in H.
  inv_bind H as stat s7 Hr. inv_bind Hr as xs s8 Hr'.
  apply readFloats_inv in Hr' as (-> & xsty & Hxs).
  injection Hr as <- <-.
  inv_bind H as c s9 Hc.
  apply Float64_inv in Hc as (-> & Hcd & crows & csty & Hcb & ->).
  inv_bind H as u s10 Hset. destruct u.
  unfold SetFloat1D in Hset. inv_bind Hset as crows' s11 Hrd.
  apply readFloats_inv in Hrd as (-> & csty' & Hcr).
  cbn [FS set_FS] in Hcr. rewrite lookup_insert_eq in Hcr.
  injection Hcr as <- <-.
  destruct (decide (0 < length crows)%nat) as [Hlen|Hlen]; [|discriminate].
  apply updFloats_inv in Hset as (r1 & y1 & Hr1 & ->).
  cbn [FS set_FS] in Hr1. rewrite lookup_insert_eq in Hr1.
  injection Hr1 as <- <-.
  apply updFloats_inv in H as (r2 & y2 & Hr2 & ->).
  cbn [FS set_FS fst snd] in *.
  unfold seriesOf, levelDirOf, subDirOf, modeDirOf in *. cbn [app] in *.
  change (LevelsValue_String (Levels_Int64 Cycle - 1)) with "-1" in *.
  change (Levels_String Cycle) with "Cycle" in *.
  rewrite !lookup_insert_ne in Hr2 by (destruct mode; discriminate).
  rewrite Hser in Hr2. injection Hr2 as <- <-.
  exists xs, xsty, crows, csty. split; [exact Hpd|]. split; [exact Hxs|].
  split; [exact Hcb|].
  rewrite insert_insert_eq.
  rewrite (pd_frame _ _ _ _ _ _ _ _ _ Hpd). reflexivity.
Qed.

End StepPhase.

Section Series.

Context {F : Type} `{!Collaborators F}.

Implicit Types (ss : Sim F) (fs : gmap Path (Node F)).



Lemma Modes_String_inj m1 m2 : Modes_String m1 = Modes_String m2 -> m1 = m2.
Proof. destruct m1, m2; (reflexivity || discriminate). Qed.

Lemma Levels_String_inj l1 l2 : Levels_String l1 = Levels_String l2 -> l1 = l2.
Proof. destruct l1, l2; (reflexivity || discriminate). Qed.

Lemma Modes_String_not_Current m : Modes_String m <> "Current".
Proof. destruct m; discriminate. Qed.

Lemma seriesPath_inj m1 l1 m2 l2 :
  seriesPath m1 l1 = seriesPath m2 l2 -> m1 = m2 /\ l1 = l2.
Proof.
  unfold seriesPath. intros [= Hm Hl].
  split; [now apply Modes_String_inj | now apply Levels_String_inj].
Qed.

Lemma inner_level level :
  level <> Cycle ->
  exists inner,
    Levels_of_Int64 (Levels_Int64 level - 1) = Some inner /\
    inner <> level /\
    LevelsValue_String (Levels_Int64 level - 1) = Levels_String inner.
Proof.
  destruct level; [contradiction| | | |]; intros _;
    [exists Cycle | exists Trial | exists Epoch | exists Run];
    repeat split; discriminate.
Qed.

(** A successful call changes the tree only, and in the tree only the
    four directories, the series of its mode and level and the Current
    entry of its mode. *)
Lemma HarmonyStat_others mode level phase ss ss1 :
  StatsConfigured ss ->
  HarmonyStat mode level phase ss = Ok tt ss1 ->
  ss1 = set_FS (FS ss1) ss /\
  forall q,
    q <> ["Stats"; Modes_String mode] ->
    q <> ["Stats"; "Current"; Modes_String mode] ->
    q <> ["Stats"; Modes_String mode; Levels_String level] ->
    q <> ["Stats"; Modes_String mode; LevelsValue_String (Levels_Int64 level - 1)] ->
    q <> seriesPath mode level ->
    q <> currentPath mode ->
    FS ss1 !! q = FS ss !! q.
Proof.
  intros Hc H. pose proof Hc as [HS HC].
  destruct phase; [|destruct (decide (level = Cycle)) as [->|Hl]].
  - apply HarmonyStat_Start_inv in H
      as (S & C & s5 & rows & sty & HS' & HC' & Hs5 & Hsub & Hout & H1 & H2 & H3
          & H4 & H5 & H6 & Ht & ->).
    rewrite HS in HS'. rewrite HC in HC'. injection HS' as <-. injection HC' as <-.
    split; [reflexivity|]. intros q ? ? ? ? ? ?. cbn [FS set_FS].
    rewrite lookup_insert_ne by (intros <-; contradiction).
    now apply Hout.
  - apply HarmonyStat_Cycle_Step_inv in H
      as (s5 & rows & sty & xs & xsty & crows & csty & Hpd & Hxs & Hcb & ->);
      [|exact Hc].
    split; [reflexivity|]. intros q ? ? ? ? ? ?. cbn [FS set_FS].
    rewrite !lookup_insert_ne by (intros <-; contradiction).
    now apply (pd_others _ _ _ _ _ _ _ _ _ Hpd).
  - apply HarmonyStat_Step_inv in H
      as (S & C & s5 & rows & sty & xs & xsty & Hpd & Hxs & ->); [|exact Hl].
    pose proof (pd_Stats _ _ _ _ _ _ _ _ _ Hpd) as HS'.
    pose proof (pd_Current _ _ _ _ _ _ _ _ _ Hpd) as HC'.
    rewrite HS in HS'. rewrite HC in HC'. injection HS' as <-. injection HC' as <-.
    split; [reflexivity|]. intros q ? ? ? ? ? ?. cbn [FS set_FS].
    rewrite lookup_insert_ne by (intros <-; contradiction).
    now apply (pd_others _ _ _ _ _ _ _ _ _ Hpd).
Qed.

(** The series of any other mode or level is not touched. *)
Lemma HarmonyStat_other_series mode level phase ss ss1 m l :
  StatsConfigured ss ->
  HarmonyStat mode level phase ss = Ok tt ss1 ->
  (m, l) <> (mode, level) ->
  FS ss1 !! seriesPath m l = FS ss !! seriesPath m l.
Proof.
  intros Hc H Hne.
  apply HarmonyStat_others in H as [_ H]; [|exact Hc].
  apply H; try discriminate.
  - intros Heq. apply seriesPath_inj in Heq as [-> ->]. now apply Hne.
  - unfold seriesPath, currentPath. intros [= Hm _].
    now apply Modes_String_not_Current in Hm.
Qed.

(** Start leaves the series of its level with zero rows. *)
Lemma HarmonyStat_Start_rows mode level ss ss1 :
  StatsConfigured ss ->
  HarmonyStat mode level Start ss = Ok tt ss1 ->
  seriesRows ss1 mode level = Some [].
Proof.
  intros [HS HC] H.
  apply HarmonyStat_Start_inv in H
    as (S & C & s5 & rows & sty & HS' & HC' & Hs5 & Hsub & Hout & H1 & H2 & H3
        & H4 & H5 & H6 & Ht & ->).
  rewrite HS in HS'. injection HS' as <-.
  unfold seriesRows. cbn [FS set_FS].
  change (seriesPath mode level) with (seriesOf ["Stats"] mode level "Harmony").
  now rewrite lookup_insert_eq.
Qed.

Lemma below_level_differs level :
  LevelsValue_String (Levels_Int64 level - 1) <> Levels_String level.
Proof. destruct level; discriminate. Qed.



Lemma PreludeDone_rows_before mode level ss s5 rows sty :
  PreludeDone mode level "Harmony" ss ["Stats"] ["Stats"; "Current"] s5 rows sty ->
  rows = default [] (seriesRows ss mode level).
Proof.
  intros Hpd. unfold seriesRows.
  change (seriesPath mode level) with (seriesOf ["Stats"] mode level "Harmony").
  destruct (pd_before _ _ _ _ _ _ _ _ _ Hpd) as [(-> & -> & _)| ->]; reflexivity.
Qed.

Lemma PreludeDone_reduced mode level ss s5 rows sty :
  PreludeDone mode level "Harmony" ss ["Stats"] ["Stats"; "Current"] s5 rows sty ->
  FS s5 !! reducedPath mode level = FS ss !! reducedPath mode level.
Proof.
  intros Hpd. apply (pd_others _ _ _ _ _ _ _ _ _ Hpd); try discriminate.
  unfold reducedPath, seriesOf, levelDirOf, modeDirOf. cbn [app].
  intros [= Heq]. now apply below_level_differs in Heq.
Qed.

(** A Step appends one row to the series of its level: the mean of the
    series it reduces, as that series was before the call. *)
Lemma HarmonyStat_Step_rows mode level ss ss1 :
  StatsConfigured ss ->
  HarmonyStat mode level Step ss = Ok tt ss1 ->
  exists xs xsty,
    FS ss !! reducedPath mode level = Some (Float64Node xs xsty) /\
    seriesRows ss1 mode level
      = Some (default [] (seriesRows ss mode level) ++ [StatMean xs]).
Proof.
  intros Hc H. pose proof Hc as [HS HC].
  destruct (decide (level = Cycle)) as [->|Hl].
  - apply HarmonyStat_Cycle_Step_inv in H
      as (s5 & rows & sty & xs & xsty & crows & csty & Hpd & Hxs & Hcb & ->);
      [|exact Hc].
    exists xs, xsty. split.
    + rewrite <- (PreludeDone_reduced _ _ _ _ _ _ Hpd). exact Hxs.
    + rewrite <- (PreludeDone_rows_before _ _ _ _ _ _ Hpd).
      unfold seriesRows. cbn [FS set_FS].
      change (seriesPath mode Cycle)
        with ["Stats"; Modes_String mode; "Cycle"; "Harmony"].
      now rewrite lookup_insert_eq.
  - apply HarmonyStat_Step_inv in H
      as (S & C & s5 & rows & sty & xs & xsty & Hpd & Hxs & ->); [|exact Hl].
    pose proof (pd_Stats _ _ _ _ _ _ _ _ _ Hpd) as HS'.
    pose proof (pd_Current _ _ _ _ _ _ _ _ _ Hpd) as HC'.
    rewrite HS in HS'. rewrite HC in HC'. injection HS' as <-. injection HC' as <-.
    exists xs, xsty. split.
    + rewrite <- (PreludeDone_reduced _ _ _ _ _ _ Hpd). exact Hxs.
    + rewrite <- (PreludeDone_rows_before _ _ _ _ _ _ Hpd).
      unfold seriesRows. cbn [FS set_FS].
      change (seriesPath mode level) with (seriesOf ["Stats"] mode level "Harmony").
      now rewrite lookup_insert_eq.
Qed.

End Series.

Section RunStatsRows.

Context {F : Type} `{!Collaborators F}.

Implicit Types (ss : Sim F) (fs : gmap Path (Node F)).



Lemma callLib_inv f ss ss1 :
  callLib f ss = Ok tt ss1 -> exists fs, f ss = Some fs /\ ss1 = set_FS fs ss.
Proof.
  unfold callLib. destruct (f ss) as [fs|]; [|discriminate].
  intros [= <-]. eauto.
Qed.

(** The display part of [RunStats] changes the event trace only. *)
Lemma RunStats_display_inv mode level phase ss ss1 :
  (let* tabs := get GUITabs in
   if bool_decide (phase = Step) && tabs then
     let nm := Modes_String mode +:+ " " +:+ Levels_String level +:+ " Plot" in
     emit (EvGoUpdatePlot nm) >>>
     if bool_decide (level = Run)
     then emit (EvGoUpdatePlot "Train RunAll Plot")
     else ret tt
   else ret tt) ss = Ok tt ss1 ->
  exists ev, ss1 = set_Events ev ss.
Proof.
  unfold bind, get, emit, modify, ret.
  destruct (bool_decide (phase = Step) && GUITabs ss);
    [destruct (bool_decide (level = Run))|]; intros [= <-].
  - eexists. reflexivity.
  - eexists. reflexivity.
  - exists (Events ss). now destruct ss.
Qed.

Lemma seriesPath_last m l : last (seriesPath m l) = Some "Harmony".
Proof. reflexivity. Qed.

(** One [RunStats] call with the configured stat functions: the handles
    and the registry stay, and the row counts move as [rowsAfter] says. *)
Lemma RunStats_rows mode level phase ss ss1 :
  keepsHarmony counterFunc -> keepsHarmony trialNameFunc -> keepsHarmony stateFunc ->
  StatsConfigured ss ->
  StatFuncs ss = configuredStatFuncs ->
  RunStats mode level phase ss = Ok tt ss1 ->
  StatsConfigured ss1 /\
  StatFuncs ss1 = configuredStatFuncs /\
  forall m l,
    (m, l) <> (mode, level) /\ FS ss1 !! seriesPath m l = FS ss !! seriesPath m l \/
    (m, l) = (mode, level) /\
    match phase with
    | Start => seriesRows ss1 m l = Some []
    | Step => exists x,
        seriesRows ss1 m l = Some (default [] (seriesRows ss m l) ++ [x])
    end.
Proof.
  intros Hk1 Hk2 Hk3 Hc Hsf H. unfold RunStats in H.
  inv_bind H as sfs s0 Hg. injection Hg as <- <-. rewrite Hsf in H.
  inv_bind H as u s1 Hrun. destruct u.
  apply RunStats_display_inv in H as [ev ->].
  cbn [forEach configuredStatFuncs callStat] in Hrun.
  inv_bind Hrun as u sa Ha. destruct u. apply callLib_inv in Ha as (fa & Hfa & ->).
  inv_bind Hrun as u sb Hb. destruct u. apply callLib_inv in Hb as (fb & Hfb & ->).
  inv_bind Hrun as u sc Hh. destruct u.
  inv_bind Hrun as u sd Hd. destruct u. apply callLib_inv in Hd as (fd & Hfd & ->).
  injection Hrun as <-.
  assert (Hcb : StatsConfigured (set_FS fb (set_FS fa ss))) by exact Hc.
  pose proof (HarmonyStat_others _ _ _ _ _ Hcb Hh) as [Hfr _].
  assert (Hcc : StatsConfigured sc).
  { rewrite Hfr. exact Hc. }
  assert (Hsc : StatFuncs sc = configuredStatFuncs).
  { rewrite Hfr. exact Hsf. }
  split; [exact Hcc|]. split; [exact Hsc|].
  intros m l. cbn [FS set_FS set_Events].
  assert (Hpre : fb !! seriesPath m l = FS ss !! seriesPath m l).
  { rewrite (Hk2 _ _ _ _ _ _ Hfb (seriesPath_last m l)). cbn [FS set_FS].
    exact (Hk1 _ _ _ _ _ _ Hfa (seriesPath_last m l)). }
  assert (Hpost : fd !! seriesPath m l = FS sc !! seriesPath m l)
    by exact (Hk3 _ _ _ _ _ _ Hfd (seriesPath_last m l)).
  assert (Hrows : seriesRows (set_FS fb (set_FS fa ss)) m l = seriesRows ss m l).
  { unfold seriesRows. cbn [FS set_FS]. now rewrite Hpre. }
  destruct (decide ((m, l) = (mode, level))) as [Heq|Hne].
  - right. split; [exact Heq|]. injection Heq as -> ->.
    assert (Hfin : seriesRows (set_Events ev (set_FS fd sc)) mode level
                   = seriesRows sc mode level).
    { unfold seriesRows. cbn [FS set_FS set_Events]. now rewrite Hpost. }
    destruct phase.
    + rewrite Hfin. exact (HarmonyStat_Start_rows _ _ _ _ Hcb Hh).
    + destruct (HarmonyStat_Step_rows _ _ _ _ Hcb Hh) as (xs & xsty & _ & Hr).
      exists (StatMean xs). rewrite Hfin, Hr, Hrows. reflexivity.
  - left. split; [exact Hne|]. rewrite Hpost.
    rewrite (HarmonyStat_other_series _ _ _ _ _ m l Hcb Hh Hne). exact Hpre.
Qed.

End RunStatsRows.

Section RowCount.

Context {F : Type} `{!Collaborators F}.

Implicit Types (ss : Sim F) (tr : list (Modes * Levels * StatsPhase)).

Hypothesis counters_keep : keepsHarmony counterFunc.
Hypothesis trialName_keep : keepsHarmony trialNameFunc.
Hypothesis state_keep : keepsHarmony stateFunc.

Lemma forEach_app {A} (l1 l2 : list A) (body : A -> M F unit) ss :
  forEach (l1 ++ l2) body ss = (forEach l1 body >>> forEach l2 body) ss.
Proof.
  revert ss. induction l1 as [|a l1 IH]; intros ss; [reflexivity|].
  cbn [app forEach]. unfold bind.
  destruct (body a ss) as [[] s1|]; [|reflexivity].
  rewrite IH. reflexivity.
Qed.

Lemma NumRows_of_rows ss m l rows :
  seriesRows ss m l = Some rows -> NumRows ss m l = length rows.
Proof. unfold NumRows. now intros ->. Qed.

Lemma NumRows_default ss m l :
  NumRows ss m l = length (default [] (seriesRows ss m l)).
Proof. unfold NumRows. now destruct (seriesRows ss m l). Qed.

(** The row count of every series follows [rowsAfter] along a sequence of
    phases, and a series that exists stays. *)
Lemma runPhases_rows tr : forall ss ss1,
  StatsConfigured ss ->
  StatFuncs ss = configuredStatFuncs ->
  runPhases tr ss = Ok tt ss1 ->
  StatsConfigured ss1 /\
  StatFuncs ss1 = configuredStatFuncs /\
  forall m l,
    NumRows ss1 m l = rowsAfter m l tr (NumRows ss m l) /\
    (is_Some (seriesRows ss m l) -> is_Some (seriesRows ss1 m l)).
Proof.
  induction tr as [|[[mode level] phase] tr IH]; intros ss ss1 Hc Hsf H.
  - injection H as <-. auto.
  - unfold runPhases in H. cbn [forEach fst snd] in H.
    inv_bind H as u s1 Hrun. destruct u.
    apply RunStats_rows in Hrun as (Hc1 & Hsf1 & Hrows); auto.
    apply IH in H as (Hc2 & Hsf2 & Hrest); auto.
    split; [exact Hc2|]. split; [exact Hsf2|].
    intros m l. destruct (Hrest m l) as [Hn Hex]. cbn [rowsAfter].
    destruct (Hrows m l) as [[Hne Hsame]|[Heq Hph]].
    + assert (Hr : seriesRows s1 m l = seriesRows ss m l).
      { unfold seriesRows. now rewrite Hsame. }
      rewrite !decide_False by (intros [= -> -> _]; now apply Hne).
      split.
      * rewrite Hn. f_equal. unfold NumRows. now rewrite Hr.
      * intros Hs. apply Hex. now rewrite Hr.
    + injection Heq as -> ->. destruct phase.
      * rewrite decide_True by reflexivity. split.
        -- rewrite Hn. f_equal. now apply NumRows_of_rows in Hph.
        -- intros _. apply Hex. rewrite Hph. eauto.
      * rewrite decide_False by discriminate.
        rewrite decide_True by reflexivity.
        destruct Hph as [x Hx]. split.
        -- rewrite Hn. f_equal. rewrite (NumRows_of_rows _ _ _ _ Hx).
           rewrite length_app, NumRows_default. cbn. lia.
        -- intros _. apply Hex. rewrite Hx. eauto.
Qed.

Lemma rowsAfter_no_Start mode level tr : forall n,
  (mode, level, Start) ∉ tr ->
  rowsAfter mode level tr n = (n + stepsAt mode level tr)%nat.
Proof.
  induction tr as [|e tr IH]; intros n Hnot; cbn [rowsAfter stepsAt]; [lia|].
  apply not_elem_of_cons in Hnot as [Hne Hnot].
  rewrite decide_False by (intros ->; now apply Hne).
  destruct (decide (e = (mode, level, Step))); rewrite IH by exact Hnot; lia.
Qed.

(** C2. After any sequence of Start and Step phases that runs through, the
    series of a mode and level holds as many rows as Step phases were run
    at that mode and level since its last Start phase. *)
Theorem rows_since_last_Start (mode : Modes) (level : Levels)
    (pre suf : list (Modes * Levels * StatsPhase)) (ss ss1 : Sim F) :
  StatsConfigured ss ->
  StatFuncs ss = configuredStatFuncs ->
  (mode, level, Start) ∉ suf ->
  runPhases (pre ++ (mode, level, Start) :: suf) ss = Ok tt ss1 ->
  exists rows,
    seriesRows ss1 mode level = Some rows /\
    length rows = stepsAt mode level suf.
Proof.
  intros Hc Hsf Hnot H. unfold runPhases in H. rewrite forEach_app in H.
  inv_bind H as u s1 Hpre. destruct u.
  apply (runPhases_rows pre) in Hpre as (Hc1 & Hsf1 & _); auto.
  cbn [forEach fst snd] in H. inv_bind H as u s2 Hstart. destruct u.
  apply RunStats_rows in Hstart as (Hc2 & Hsf2 & Hrows); auto.
  destruct (Hrows mode level) as [[Hne _]|[_ Hs]]; [now destruct Hne|].
  apply (runPhases_rows suf) in H as (_ & _ & Hrest); auto.
  destruct (Hrest mode level) as [Hn Hex].
  destruct Hex as [rows Hr]; [rewrite Hs; eauto|].
  exists rows. split; [exact Hr|].
  rewrite <- (NumRows_of_rows _ _ _ _ Hr), Hn.
  rewrite (NumRows_of_rows _ _ _ _ Hs).
  now rewrite rowsAfter_no_Start.
Qed.

End RowCount.

Section StepReduction.

Context {F : Type} `{!Collaborators F}.

Implicit Types (ss : Sim F) (tr : list (Modes * Levels * StatsPhase)).

Hypothesis counters_keep : keepsHarmony counterFunc.
Hypothesis trialName_keep : keepsHarmony trialNameFunc.
Hypothesis state_keep : keepsHarmony stateFunc.

(** A Step above Cycle: the series of the level below is reduced with the
    mean and the result appended to the series of the level; no entry of
    the Current cache changes. *)
Lemma HarmonyStat_Step_above_Cycle mode level inner ss ss1 :
  Levels_of_Int64 (Levels_Int64 level - 1) = Some inner ->
  StatsConfigured ss ->
  HarmonyStat mode level Step ss = Ok tt ss1 ->
  exists xs,
    seriesRows ss mode inner = Some xs /\
    seriesRows ss1 mode level
      = Some (default [] (seriesRows ss mode level) ++ [StatMean xs]) /\
    forall m name,
      FS ss1 !! ["Stats"; "Current"; Modes_String m; name]
      = FS ss !! ["Stats"; "Current"; Modes_String m; name].
Proof.
  intros Hin Hc H.
  assert (Hl : level <> Cycle) by (intros ->; discriminate).
  destruct (inner_level level Hl) as (inner' & Hin' & _ & Hname).
  rewrite Hin in Hin'. injection Hin' as <-.
  destruct (HarmonyStat_Step_rows _ _ _ _ Hc H) as (xs & xsty & Hxs & Hrows).
  exists xs. split; [|split; [exact Hrows|]].
  - unfold seriesRows, seriesPath. unfold reducedPath in Hxs.
    rewrite Hname in Hxs. now rewrite Hxs.
  - intros m name. pose proof Hc as [HS HC].
    apply HarmonyStat_Step_inv in H
      as (S & C & s5 & rows & sty & ys & ysty & Hpd & _ & ->); [|exact Hl].
    pose proof (pd_Stats _ _ _ _ _ _ _ _ _ Hpd) as HS'.
    pose proof (pd_Current _ _ _ _ _ _ _ _ _ Hpd) as HC'.
    rewrite HS in HS'. rewrite HC in HC'. injection HS' as <-. injection HC' as <-.
    cbn [FS set_FS].
    rewrite lookup_insert_ne.
    2:{ unfold seriesOf, levelDirOf, modeDirOf. cbn [app]. intros [= Hm _].
        now apply Modes_String_not_Current in Hm. }
    apply (pd_others _ _ _ _ _ _ _ _ _ Hpd); try discriminate.
    unfold seriesOf, levelDirOf, modeDirOf. cbn [app]. intros [= Hm _].
    symmetry in Hm. now apply Modes_String_not_Current in Hm.
Qed.

(** C1, amended. For every mode and every level above Cycle, a Step of the
    registered stat function reduces, with the mean, the series of the
    level immediately below, which holds one row for each Step of that
    level since its last Start, and appends the result to the series of
    its own level; it writes nothing to the Current cache. *)
Theorem Step_reduces_inner_series (mode : Modes) (level inner : Levels)
    (pre suf : list (Modes * Levels * StatsPhase)) (ss ss1 ss2 : Sim F) :
  (Levels_Int64 Cycle < Levels_Int64 level)%Z ->
  Levels_of_Int64 (Levels_Int64 level - 1) = Some inner ->
  StatsConfigured ss ->
  StatFuncs ss = configuredStatFuncs ->
  (mode, inner, Start) ∉ suf ->
  runPhases (pre ++ (mode, inner, Start) :: suf) ss = Ok tt ss1 ->
  HarmonyStat mode level Step ss1 = Ok tt ss2 ->
  exists xs,
    seriesRows ss1 mode inner = Some xs /\
    length xs = stepsAt mode inner suf /\
    seriesRows ss2 mode level
      = Some (default [] (seriesRows ss1 mode level) ++ [StatMean xs]) /\
    forall m name,
      FS ss2 !! ["Stats"; "Current"; Modes_String m; name]
      = FS ss1 !! ["Stats"; "Current"; Modes_String m; name].
Proof.
  intros _ Hin Hc Hsf Hnot Hrun Hstep.
  assert (Hc1 : StatsConfigured ss1).
  { now apply (runPhases_rows counters_keep trialName_keep state_keep) in Hrun
      as (Hc1 & _). }
  destruct (HarmonyStat_Step_above_Cycle _ _ _ _ _ Hin Hc1 Hstep)
    as (xs & Hxs & Hrows & Hcur).
  exists xs. split; [exact Hxs|]. split; [|split; [exact Hrows | exact Hcur]].
  unfold runPhases in Hrun. rewrite forEach_app in Hrun.
  inv_bind Hrun as u s1 Hpre. destruct u.
  apply (runPhases_rows counters_keep trialName_keep state_keep pre) in Hpre
    as (Hca & Hsfa & _); auto.
  cbn [forEach fst snd] in Hrun. inv_bind Hrun as u s2 Hstart. destruct u.
  apply RunStats_rows in Hstart as (Hcb & Hsfb & Hr); auto.
  destruct (Hr mode inner) as [[Hne _]|[_ Hs]]; [now destruct Hne|].
  apply (runPhases_rows counters_keep trialName_keep state_keep suf) in Hrun
    as (_ & _ & Hrest); auto.
  destruct (Hrest mode inner) as [Hn _].
  rewrite <- (NumRows_of_rows _ _ _ _ Hxs), Hn, (NumRows_of_rows _ _ _ _ Hs).
  now rewrite rowsAfter_no_Start.
Qed.

(** The Start callback returns at once at Cycle; the Step callback has no
    such guard and runs the stat functions at Cycle. *)
Lemma StatsStart_Cycle_returns mode (ss : Sim F) :
  StatsStart (EModes mode) (ELevels Cycle) ss = Ok tt ss.
Proof. reflexivity. Qed.

Lemma StatsStep_Cycle_runs mode (ss : Sim F) :
  StatsStep (EModes mode) (ELevels Cycle) ss =
  (RunStats mode Cycle Step >>>
   let* d := StatsNode mode Cycle in emit (EvWriteToLog d)) ss.
Proof. reflexivity. Qed.

(** C3. A Step at Cycle is not excluded from the reduction: whenever it
    returns, the row it appends to the Cycle series, and writes to the
    Current cache, is the mean of the series stored under the name of the
    value [Cycle - 1]; and when there is no such series the call
    panics. *)
Theorem Cycle_Step_reduces_level_below (mode : Modes) (ss : Sim F) :
  StatsConfigured ss ->
  (forall ss1, HarmonyStat mode Cycle Step ss = Ok tt ss1 ->
     exists xs xsty crows csty,
       FS ss !! ["Stats"; Modes_String mode; "-1"; "Harmony"]
         = Some (Float64Node xs xsty) /\
       seriesRows ss1 mode Cycle
         = Some (default [] (seriesRows ss mode Cycle) ++ [StatMean xs]) /\
       FS ss1 !! currentPath mode
         = Some (Float64Node (<[O := StatMean xs]> crows) csty)) /\
  (FS ss !! ["Stats"; Modes_String mode; "-1"; "Harmony"] = None ->
   exists p, HarmonyStat mode Cycle Step ss = Fail p).
Proof.
  intros Hc.
  assert (Hok : forall ss1, HarmonyStat mode Cycle Step ss = Ok tt ss1 ->
     exists xs xsty crows csty,
       FS ss !! ["Stats"; Modes_String mode; "-1"; "Harmony"]
         = Some (Float64Node xs xsty) /\
       seriesRows ss1 mode Cycle
         = Some (default [] (seriesRows ss mode Cycle) ++ [StatMean xs]) /\
       FS ss1 !! currentPath mode
         = Some (Float64Node (<[O := StatMean xs]> crows) csty)).
  { intros ss1 H.
    destruct (HarmonyStat_Step_rows _ _ _ _ Hc H) as (xs & xsty & Hxs & Hrows).
    apply HarmonyStat_Cycle_Step_inv in H
      as (s5 & rows & sty & ys & ysty & crows & csty & Hpd & Hys & Hcb & ->);
      [|exact Hc].
    rewrite <- (PreludeDone_reduced _ _ _ _ _ _ Hpd) in Hxs.
    change (reducedPath mode Cycle)
      with ["Stats"; Modes_String mode; "-1"; "Harmony"] in Hxs.
    rewrite Hys in Hxs. injection Hxs as -> ->.
    exists xs, xsty, crows, csty. split; [|split].
    - rewrite <- Hys. symmetry. exact (PreludeDone_reduced _ _ _ _ _ _ Hpd).
    - exact Hrows.
    - cbn [FS set_FS]. unfold currentPath.
      rewrite lookup_insert_ne by (destruct mode; discriminate).
      apply lookup_insert_eq. }
  split; [exact Hok|].
  intros Hnone. destruct (HarmonyStat mode Cycle Step ss) as [[] ss1|p] eqn:E.
  - destruct (Hok ss1 eq_refl) as (xs & xsty & _ & _ & Hxs & _). congruence.
  - eauto.
Qed.

End StepReduction.

Section SeedsAndViews.

Context {F : Type} `{!Collaborators F}.

Implicit Types (ss : Sim F).

Lemma Seeds_Init_length n : length (Seeds_Init n) = n.
Proof. unfold Seeds_Init. now rewrite length_map, length_seq. Qed.

Lemma Seeds_Init_lookup n i :
  (i < n)%nat -> Seeds_Init n !! i = Some (seedInit i).
Proof.
  intros Hi. unfold Seeds_Init. rewrite list_lookup_fmap.
  rewrite lookup_seq_lt by exact Hi. reflexivity.
Qed.

Lemma Seeds_at_in_range ss idx :
  RandSeeds ss = Seeds_Init 100 -> (0 <= idx < 100)%Z ->
  Seeds_at idx ss = Ok (seedInit (Z.to_nat idx)) ss.
Proof.
  intros Htab Hi. unfold Seeds_at.
  destruct (Z.ltb_spec idx 0) as [?|_]; [lia|].
  rewrite Htab, Seeds_Init_lookup by lia. reflexivity.
Qed.

Lemma Seeds_at_exhausted ss idx :
  RandSeeds ss = Seeds_Init 100 -> (100 <= idx)%Z ->
  Seeds_at idx ss = Fail (IndexOutOfRange idx 100).
Proof.
  intros Htab Hi. unfold Seeds_at.
  destruct (Z.ltb_spec idx 0) as [?|_]; [lia|].
  rewrite Htab. rewrite lookup_ge_None_2 by (rewrite Seeds_Init_length; lia).
  now rewrite Seeds_Init_length.
Qed.

Lemma Seeds_at_negative ss idx :
  RandSeeds ss = Seeds_Init 100 -> (idx < 0)%Z ->
  Seeds_at idx ss = Fail (IndexOutOfRange idx 100).
Proof.
  intros Htab Hi. unfold Seeds_at.
  destruct (Z.ltb_spec idx 0) as [_|?]; [|lia].
  now rewrite Htab, Seeds_Init_length.
Qed.

(** C5. With the table of 100 seeds that [ConfigSim] allocates,
    [InitRandSeed] is a function of the run index: at an index within the
    table it gives the global source and the source of the network the
    seed of that index and changes nothing else; at an index of 100 or
    more (or below 0) it panics on the table access, and no seed is
    set. *)
Theorem InitRandSeed_by_index (ss : Sim F) (net : Network) (run : Z) :
  RandSeeds ss = Seeds_Init 100 ->
  Net ss = Some net ->
  InitRandSeed run ss =
    if bool_decide (0 <= run < 100)%Z then
      let seed := seedInit (Z.to_nat run) in
      Ok tt (set_Net (Some (mkNetwork (NetName net) (NetLayers net) (Some seed)))
               (set_GlobalRand (Some seed) ss))
    else Fail (IndexOutOfRange run 100).
Proof.
  intros Htab Hnet. unfold InitRandSeed. case_bool_decide as Hrun.
  - erewrite bind_Ok by (apply Seeds_at_in_range; [exact Htab | exact Hrun]).
    unfold bind, modify, deref. cbn [Net set_GlobalRand]. rewrite Hnet.
    rewrite Seeds_at_in_range; [|exact Htab | exact Hrun].
    reflexivity.
  - apply bind_Fail.
    destruct (Z.lt_ge_cases run 0) as [Hneg|Hpos].
    + now apply Seeds_at_negative.
    + apply Seeds_at_exhausted; [exact Htab | lia].
Qed.

(** C10. [NetViewUpdater] returns the address of the [TestUpdate] field
    for every mode argument, [Train] included. *)
Theorem NetViewUpdater_always_TestUpdate (mode mode' : Enum) :
  NetViewUpdater mode = FTestUpdate /\
  NetViewUpdater (EModes Train) = FTestUpdate /\
  NetViewUpdater mode = NetViewUpdater mode'.
Proof.
  unfold NetViewUpdater.
  repeat split; repeat match goal with |- context [if ?b then _ else _] =>
    destruct b end; reflexivity.
Qed.

End SeedsAndViews.

Section RunNames.

Context {F : Type} `{!Collaborators F}.

Implicit Types (ss : Sim F).

Lemma StringValue_inv d name n ss p ss' :
  StringValue d name n ss = Ok p ss' ->
  p = d ++ [name] /\
  FS ss !! d = Some DirNode /\
  exists vals,
    (FS ss !! p = None /\ vals = replicate n EmptyString \/
     FS ss !! p = Some (StringNode vals)) /\
    ss' = set_FS (<[p := StringNode vals]> (FS ss)) ss.
Proof.
  unfold StringValue. destruct (FS ss !! d) as [[]|] eqn:Hd; try discriminate.
  destruct (FS ss !! (d ++ [name])) as [[| |vals]|] eqn:Hp; try discriminate;
    intros [= <- <-]; repeat split; auto.
  - exists vals. split; [now right|].
    now rewrite insert_id, set_FS_same.
  - eexists. split; [left; eauto | reflexivity].
Qed.

Lemma StringValue_found d name n ss vals :
  FS ss !! d = Some DirNode ->
  FS ss !! (d ++ [name]) = Some (StringNode vals) ->
  StringValue d name n ss = Ok (d ++ [name]) ss.
Proof. unfold StringValue. now intros -> ->. Qed.

Lemma readStrings_inv t ss vals ss' :
  readStrings t ss = Ok vals ss' ->
  ss' = ss /\ FS ss !! t = Some (StringNode vals).
Proof.
  unfold readStrings. destruct (FS ss !! t) as [[| |v]|]; try discriminate.
  intros [= <- <-]. auto.
Qed.

Lemma path_snoc_ne (d : Path) (name : string) : d <> d ++ [name].
Proof.
  intros Heq. apply (f_equal length) in Heq. rewrite length_app in Heq.
  cbn in Heq. lia.
Qed.

(** C9. [RunName] right after [SetRunName] returns exactly the string that
    [SetRunName] computed from the configuration, stored under "RunName"
    in the Current cache and returned; the read leaves the state as it
    is. *)
Theorem RunName_after_SetRunName (ss ss1 : Sim F) (name : string) :
  SetRunName ss = Ok name ss1 ->
  name = Params_RunName (Params ss) (CfgRunRun (Config ss)) /\
  (exists cur vals,
     Current ss1 = Some cur /\
     FS ss1 !! (cur ++ ["RunName"]) = Some (StringNode vals) /\
     vals !! O = Some name) /\
  RunName ss1 = Ok name ss1.
Proof.
  unfold SetRunName. intros H.
  inv_bind H as params s0 Hg. injection Hg as <- <-.
  inv_bind H as cfg s0 Hg. injection Hg as <- <-.
  inv_bind H as cur s0 Hd. apply deref_Ok_inv in Hd as [Hcur ->].
  inv_bind H as t s1 Hsv.
  apply StringValue_inv in Hsv as (-> & Hdir & vals & Hbefore & ->).
  inv_bind H as u s2 Hset. destruct u. injection H as <- <-.
  unfold SetString1D in Hset. inv_bind Hset as vals' s3 Hrd.
  apply readStrings_inv in Hrd as (-> & Hrd).
  cbn [FS set_FS] in Hrd. rewrite lookup_insert_eq in Hrd. injection Hrd as <-.
  destruct (decide (0 < length vals)%nat) as [Hlen|]; [|discriminate].
  injection Hset as <-. cbn [FS set_FS Params Config Current].
  rewrite insert_insert_eq.
  set (name := Params_RunName (Params ss) (CfgRunRun (Config ss))).
  set (nd := StringNode (<[O := name]> vals)).
  assert (Hv : <[O := name]> vals !! O = Some name)
    by now apply list_lookup_insert_eq.
  split; [reflexivity|]. split.
  { exists cur, (<[O := name]> vals). split; [exact Hcur|].
    split; [apply lookup_insert_eq | exact Hv]. }
  unfold RunName.
  erewrite bind_Ok by (unfold deref; cbn [Current set_FS]; now rewrite Hcur).
  erewrite bind_Ok.
  2:{ eapply StringValue_found; cbn [FS set_FS].
      - rewrite lookup_insert_ne by (symmetry; apply path_snoc_ne). exact Hdir.
      - apply lookup_insert_eq. }
  unfold String1D.
  erewrite bind_Ok.
  2:{ unfold readStrings. cbn [FS set_FS]. rewrite lookup_insert_eq.
      reflexivity. }
  rewrite Hv. reflexivity.
Qed.

End RunNames.

Section PatternTables.

Context {F : Type} `{!Collaborators F}.

Implicit Types (ss : Sim F).

Lemma updTable_run (a : nat) f ss t :
  Tables ss !! a = Some t ->
  updTable (Some a) f ss = Ok tt (set_Tables (<[a := f t]> (Tables ss)) ss).
Proof. unfold updTable. now intros ->. Qed.

Lemma fresh_table_free ss : Tables ss !! fresh (dom (Tables ss)) = None.
Proof. apply not_elem_of_dom. apply is_fresh. Qed.

(** C8. [OpenPatterns] leaves [Patterns] and [PartialPatterns] pointing to
    one and the same table object, the one [PartialPatterns] pointed to
    before, now named "FacesPartial" and holding what partial_faces.tsv
    loaded; the new table that faces.tsv was loaded into is on the heap but
    neither field points to it. *)
Theorem OpenPatterns_aliases_PartialPatterns (ss : Sim F) (b : nat) (tb : Table) :
  PartialPatterns ss = Some b ->
  Tables ss !! b = Some tb ->
  let a := fresh (dom (Tables ss)) in
  exists ss1,
    OpenPatterns ss = Ok tt ss1 /\
    Patterns ss1 = Some b /\
    PartialPatterns ss1 = Some b /\
    Tables ss1 !! b = Some (mkTable "FacesPartial" "Partial face testing patterns"
                              (default (TRows tb) (embedfs "partial_faces.tsv"))) /\
    a <> b /\
    Tables ss1 !! a = Some (mkTable "Faces" "Face testing patterns"
                              (default [] (embedfs "faces.tsv"))) /\
    Patterns ss1 <> Some a /\
    PartialPatterns ss1 <> Some a.
Proof.
  intros Hpp Hb a.
  assert (Ha : Tables ss !! a = None) by apply fresh_table_free.
  assert (Hab : a <> b) by (intros ->; congruence).
  unfold OpenPatterns, newTable, SetName, SetDoc, OpenFS, logAndPrint,
    updTable, bind, get, emit, modify, ret.
  fold a.
  destruct (embedfs "faces.tsv") as [rows1|];
    destruct (embedfs "partial_faces.tsv") as [rows2|];
    repeat first
      [ progress cbn [Tables set_Tables set_Events set_Patterns Patterns
                      PartialPatterns Events TName TDoc TRows default]
      | rewrite lookup_insert_eq
      | rewrite lookup_insert_ne by exact Hab
      | rewrite Hpp | rewrite Hb | rewrite insert_insert_eq ];
    (eexists; split; [reflexivity|];
     cbn [Tables set_Tables set_Events set_Patterns Patterns PartialPatterns];
     rewrite ?Hpp, ?lookup_insert_eq, ?(lookup_insert_ne _ b a) by congruence;
     rewrite ?lookup_insert_eq;
     repeat split; try reflexivity; try exact Hab; congruence).
Qed.

End PatternTables.

Section InputDirection.

Context {F : Type} `{!Collaborators F}.

Implicit Types (ss : Sim F).



Lemma sameButType_refl a : sameButType a a.
Proof. repeat split; auto. Qed.

Lemma netSameButTypes_refl n : netSameButTypes n n.
Proof.
  repeat split. apply Forall_Forall2_diag, Forall_forall.
  intros. apply sameButType_refl.
Qed.

Lemma LayerByName_Some ls name i :
  LayerByName ls name = Some i ->
  exists ly, ls !! i = Some ly /\ LayName ly = name.
Proof.
  revert i. induction ls as [|ly ls IH]; intros i; cbn [LayerByName];
    [discriminate|].
  destruct (decide (LayName ly = name)) as [Heq|Hne].
  - intros [= <-]. eauto.
  - destruct (LayerByName ls name) as [j|]; [|discriminate].
    intros [= <-]. destruct (IH j eq_refl) as (ly' & Hl & Hn). eauto.
Qed.

Lemma setLayerType_step net0 name ty ss net ss' :
  name ∈ inputLayerNames ->
  Net ss = Some net ->
  netSameButTypes net0 net ->
  setLayerType (LayerByName (NetLayers net0) name) ty ss = Ok tt ss' ->
  exists net',
    Net ss' = Some net' /\ netSameButTypes net0 net' /\
    ss' = set_Net (Some net') ss.
Proof.
  intros Hin Hnet (Hn & Hr & Hls) H. unfold setLayerType in H.
  inv_bind H as net1 s0 Hd. apply deref_Ok_inv in Hd as [Hnet1 ->].
  rewrite Hnet in Hnet1. injection Hnet1 as <-.
  destruct (LayerByName (NetLayers net0) name) as [i|] eqn:Hi; [|discriminate].
  injection H as <-. eexists. split; [reflexivity|]. split; [|reflexivity].
  repeat split; cbn [NetName NetRand NetLayers]; auto.
  apply Forall2_alter_r; [exact Hls|].
  intros x y Hx Hy (H1 & H2 & H3 & H4).
  apply LayerByName_Some in Hi as (ly & Hly & Hname).
  rewrite Hx in Hly. injection Hly as ->.
  repeat split; cbn [withType LayName LayShape LayDoc]; auto.
  intros Hnot. rewrite Hname in Hnot. contradiction.
Qed.

(** C7. [SetInput], with either value of [topDown], changes nothing of the
    simulation but the network, and nothing of the network but the type of
    the layers Input, Emotion, Gender and Identity: the loop stacks with
    their counters and the Stats tree with its paths are as before. *)
Theorem SetInput_changes_layer_types_only (topDown : bool) (ss ss1 : Sim F) :
  SetInput topDown ss = Ok tt ss1 ->
  Loops ss1 = Loops ss /\
  FS ss1 = FS ss /\
  dom (FS ss1) = dom (FS ss) /\
  Stats ss1 = Stats ss /\
  Current ss1 = Current ss /\
  ss1 = set_Net (Net ss1) ss /\
  exists net net1,
    Net ss = Some net /\ Net ss1 = Some net1 /\ netSameButTypes net net1.
Proof.
  unfold SetInput. intros H.
  inv_bind H as net s0 Hd. apply deref_Ok_inv in Hd as [Hnet ->].
  assert (Hall : exists net1,
            Net ss1 = Some net1 /\ netSameButTypes net net1 /\
            ss1 = set_Net (Some net1) ss).
  { destruct topDown.
    - inv_bind H as u s1 H1. destruct u.
      eapply setLayerType_step in H1 as (n1 & Hn1 & Hr1 & ->);
        [|set_solver|exact Hnet|apply netSameButTypes_refl].
      inv_bind H as u s2 H2. destruct u.
      eapply setLayerType_step in H2 as (n2 & Hn2 & Hr2 & ->);
        [|set_solver|exact Hn1|exact Hr1].
      inv_bind H as u s3 H3. destruct u.
      eapply setLayerType_step in H3 as (n3 & Hn3 & Hr3 & ->);
        [|set_solver|exact Hn2|exact Hr2].
      eapply setLayerType_step in H as (n4 & Hn4 & Hr4 & ->);
        [|set_solver|exact Hn3|exact Hr3].
      exists n4. auto.
    - inv_bind H as u s1 H1. destruct u.
      eapply setLayerType_step in H1 as (n1 & Hn1 & Hr1 & ->);
        [|set_solver|exact Hnet|apply netSameButTypes_refl].
      inv_bind H as u s2 H2. destruct u.
      eapply setLayerType_step in H2 as (n2 & Hn2 & Hr2 & ->);
        [|set_solver|exact Hn1|exact Hr1].
      inv_bind H as u s3 H3. destruct u.
      eapply setLayerType_step in H3 as (n3 & Hn3 & Hr3 & ->);
        [|set_solver|exact Hn2|exact Hr2].
      eapply setLayerType_step in H as (n4 & Hn4 & Hr4 & ->);
        [|set_solver|exact Hn3|exact Hr3].
      exists n4. auto. }
  destruct Hall as (net1 & Hn1 & Hr & ->).
  cbn [Loops FS Stats Current Net set_Net].
  repeat split; eauto.
Qed.

End InputDirection.

Section Stepless.

Context {F : Type} `{!Collaborators F}.

Implicit Types (ss : Sim F).

Lemma stepless_none {A} (c : M F A) :
  (forall ss a ss1, c ss = Ok a ss1 -> Events ss1 = Events ss) -> stepless c.
Proof.
  intros Hc ss a ss1 H. exists []. rewrite app_nil_r. split; [eauto|constructor].
Qed.

Lemma stepless_ret {A} (a : A) : stepless (ret a : M F A).
Proof. apply stepless_none. now intros ss b ss1 [= _ <-]. Qed.

Lemma stepless_bind {A B} (c : M F A) (k : A -> M F B) :
  stepless c -> (forall a, stepless (k a)) -> stepless (bind c k).
Proof.
  intros Hc Hk ss b ss2 H. inv_bind H as a s1 H1.
  destruct (Hc _ _ _ H1) as (e1 & He1 & Hf1).
  destruct (Hk a _ _ _ H) as (e2 & He2 & Hf2).
  exists (e1 ++ e2). rewrite He2, He1, app_assoc. split; [reflexivity|].
  now apply Forall_app.
Qed.

Lemma stepless_forEach {A} (l : list A) (body : A -> M F unit) :
  (forall a, stepless (body a)) -> stepless (forEach l body).
Proof.
  intros Hb. induction l as [|a l IH]; cbn [forEach].
  - apply stepless_ret.
  - apply stepless_bind; auto.
Qed.

Lemma stepless_emit e : isStepEvent e = false -> stepless (emit e : M F unit).
Proof.
  intros He ss [] ss1 [= <-]. exists [e]. split; [reflexivity|].
  now constructor.
Qed.

Lemma stepless_get {A} (f : Sim F -> A) : stepless (get f).
Proof. apply stepless_none. now intros ss a ss1 [= _ <-]. Qed.

Lemma stepless_deref {A} (f : Sim F -> option A) : stepless (deref f).
Proof.
  apply stepless_none. intros ss a ss1 H.
  now apply deref_Ok_inv in H as [_ ->].
Qed.

Lemma stepless_panic {A} p : stepless (panic p : M F A).
Proof. now intros ss a ss1 H. Qed.

Lemma stepless_modify (f : Sim F -> Sim F) :
  (forall ss, Events (f ss) = Events ss) -> stepless (modify f).
Proof. intros Hf. apply stepless_none. intros ss [] ss1 [= <-]. apply Hf. Qed.

(** The operations on the tree leave the event trace as it is. *)
Ltac tree_op_events :=
  apply stepless_none; intros ss a ss1 H;
  repeat match type of H with
         | context [match ?x with _ => _ end] => destruct x; try discriminate
         end;
  injection H as <- <-; reflexivity.

Lemma stepless_Dir d name : stepless (Dir d name : M F Path).
Proof. unfold Dir. tree_op_events. Qed.

Lemma stepless_Float64 d name n : stepless (Float64 d name n).
Proof. unfold Float64. tree_op_events. Qed.

Lemma stepless_StringValue d name n : stepless (StringValue d name n : M F Path).
Proof. unfold StringValue. tree_op_events. Qed.

Lemma stepless_Value d name : stepless (Value d name : M F Path).
Proof. unfold Value. tree_op_events. Qed.

Lemma stepless_readFloats t : stepless (readFloats t : M F (list F)).
Proof. unfold readFloats. tree_op_events. Qed.

Lemma stepless_readStrings t : stepless (readStrings t : M F (list string)).
Proof. unfold readStrings. tree_op_events. Qed.

Lemma stepless_updFloats t f : stepless (updFloats t f : M F unit).
Proof.
  apply stepless_none. intros ss [] ss1 H.
  now apply updFloats_inv in H as (rows & sty & _ & ->).
Qed.

Lemma stepless_callLib (f : Sim F -> option (gmap Path (Node F))) :
  stepless (callLib f).
Proof.
  apply stepless_none. intros ss [] ss1 H.
  now apply callLib_inv in H as (fs & _ & ->).
Qed.

End Stepless.

Section HeadlessRun.

Context {F : Type} `{!Collaborators F}.

Implicit Types (ss : Sim F).

(** Proves [stepless] for a computation built from the operations above. *)
Ltac stepless_tac :=
  repeat first
    [ apply stepless_ret | apply stepless_get | apply stepless_deref
    | apply stepless_panic | apply stepless_Dir | apply stepless_Float64
    | apply stepless_StringValue | apply stepless_Value
    | apply stepless_readFloats | apply stepless_readStrings
    | apply stepless_updFloats | apply stepless_callLib
    | apply stepless_emit; reflexivity
    | apply stepless_modify; reflexivity
    | apply stepless_bind; [|intros ?]
    | apply stepless_forEach; intros ?
    | match goal with
      | |- stepless (match ?x with _ => _ end) => destruct x
      end ].

Lemma stepless_HarmonyStat mode level phase : stepless (HarmonyStat mode level phase).
Proof.
  unfold HarmonyStat, SetNumRows, SetFirstStyler, StatMeanCall, SetFloat1D,
    AppendRowFloat.
  stepless_tac.
Qed.

Lemma stepless_RunStats_Start mode level : stepless (RunStats mode level Start).
Proof.
  unfold RunStats. apply stepless_bind; [stepless_tac|intros sfs].
  apply stepless_bind.
  - apply stepless_forEach. intros sf. destruct sf; cbn [callStat].
    + apply stepless_callLib.
    + apply stepless_callLib.
    + apply stepless_HarmonyStat.
    + apply stepless_callLib.
  - intros _. cbn. stepless_tac.
Qed.

Lemma stepless_StatsNode mode level : stepless (StatsNode mode level : M F Path).
Proof. unfold StatsNode. stepless_tac. Qed.

Lemma stepless_StatsInit : stepless (StatsInit : M F unit).
Proof.
  unfold StatsInit. apply stepless_bind; [stepless_tac|intros ls].
  apply stepless_bind.
  - apply stepless_forEach. intros st. apply stepless_forEach. intros level.
    apply stepless_RunStats_Start.
  - intros _. apply stepless_bind; [stepless_tac|intros tabs].
    destruct tabs; [|apply stepless_ret].
    apply stepless_bind; [apply stepless_StatsNode|intros d1].
    apply stepless_bind; [apply stepless_emit; reflexivity|intros _].
    apply stepless_bind; [apply stepless_StatsNode|intros d2].
    apply stepless_emit; reflexivity.
Qed.

Lemma stepless_SetRunName : stepless (SetRunName : M F string).
Proof. unfold SetRunName, SetString1D. stepless_tac. Qed.

Lemma stepless_Seeds_at idx : stepless (Seeds_at idx : M F Z).
Proof.
  apply stepless_none. intros ss seed ss1. unfold Seeds_at.
  destruct (if (idx <? 0)%Z then None else RandSeeds ss !! Z.to_nat idx);
    [|discriminate].
  now intros [= _ <-].
Qed.

Lemma stepless_Init : stepless (Init : M F unit).
Proof.
  unfold Init. apply stepless_bind; [|intros _].
  { unfold ResetCounters. stepless_tac. }
  apply stepless_bind; [|intros _].
  { unfold InitRandSeed.
    repeat first [ apply stepless_Seeds_at | apply stepless_deref
                 | apply stepless_modify; reflexivity
                 | apply stepless_bind; [|intros ?] ]. }
  apply stepless_bind; [|intros _].
  { unfold ApplyParams. stepless_tac. }
  apply stepless_bind; [apply stepless_StatsInit|intros _].
  unfold NewRun, InitWeights. stepless_tac.
Qed.

Lemma setCounter_assoc level c lps lps' :
  setCounter level c lps = Some lps' -> assoc level lps' = Some c.
Proof.
  revert lps'. induction lps as [|lp lps IH]; intros lps'; cbn [setCounter];
    [discriminate|].
  destruct (decide (lp.1 = level)) as [Heq|Hne].
  - intros [= <-]. cbn. now rewrite decide_True.
  - destruct (setCounter level c lps) as [r|]; [|discriminate].
    intros [= <-]. cbn. rewrite decide_False by exact Hne. now apply IH.
Qed.

Lemma setStackCounter_counterOf mode level c ls ls' :
  setStackCounter mode level c ls = Some ls' ->
  counterOf ls' mode level = Some c.
Proof.
  unfold counterOf. revert ls'.
  induction ls as [|st ls IH]; intros ls'; cbn [setStackCounter];
    [discriminate|].
  destruct (decide (st.1 = mode)) as [Heq|Hne].
  - destruct (setCounter level c (StackLoops st.2)) as [lps|] eqn:E;
      [|discriminate].
    intros [= <-]. cbn. rewrite decide_True by reflexivity. cbn.
    now apply setCounter_assoc in E.
  - destruct (setStackCounter mode level c ls) as [r|]; [|discriminate].
    intros [= <-]. cbn. rewrite decide_False by exact Hne. now apply IH.
Qed.

End HeadlessRun.

Section HeadlessRunDriver.

Context {F : Type} `{!Collaborators F}.

Implicit Types (ss : Sim F).

Lemma SetRunName_frame ss name ss1 :
  SetRunName ss = Ok name ss1 -> ss1 = set_FS (FS ss1) ss.
Proof.
  unfold SetRunName. intros H.
  inv_bind H as params s0 Hg. injection Hg as <- <-.
  inv_bind H as cfg s0 Hg. injection Hg as <- <-.
  inv_bind H as cur s0 Hd. apply deref_Ok_inv in Hd as [Hcur ->].
  inv_bind H as t s1 Hsv.
  apply StringValue_inv in Hsv as (-> & Hdir & vals & Hbefore & ->).
  inv_bind H as u s2 Hset. destruct u. injection H as <- <-.
  unfold SetString1D in Hset. inv_bind Hset as vals' s3 Hrd.
  apply readStrings_inv in Hrd as (-> & Hrd).
  destruct (decide (0 < length vals')%nat); [|discriminate].
  injection Hset as <-. reflexivity.
Qed.

(** C4. Whenever [RunNoGUI] returns, it has run no Step phase at all: the
    events it added to the trace contain neither a log line of [StatsStep]
    nor a plot update of a Step, the last of them is the closing of the
    log files, and all that happened to the Trial loop of the Test stack
    is that its counter was set to start at the configured start run and
    to stop the configured number of runs later. *)
Theorem RunNoGUI_never_steps (ss ss1 : Sim F) :
  RunNoGUI ss = Ok tt ss1 ->
  exists evs ls,
    Events ss1 = Events ss ++ evs /\
    Forall (fun e => isStepEvent e = false) evs /\
    last evs = Some (EvCloseLogFiles Cycle) /\
    Loops ss1 = Some ls /\
    counterOf ls Test Trial
      = Some (mkCounter (CfgRunRun (Config ss1))
                        (CfgRunRun (Config ss1) + CfgRunRuns (Config ss1))).
Proof.
  unfold RunNoGUI. intros H.
  inv_bind H as u s1 Hinit. destruct u.
  destruct (stepless_Init _ _ _ Hinit) as (e1 & He1 & Hf1).
  inv_bind H as cfg s0 Hg. injection Hg as <- <-.
  inv_bind H as u s2 Hnote. destruct u.
  assert (Hn : exists e2, s2 = set_Events (Events s1 ++ e2) s1 /\
                          Forall (fun e => isStepEvent e = false) e2).
  { destruct (decide (CfgParamsNote (Config s1) = EmptyString)).
    - injection Hnote as <-. exists []. rewrite app_nil_r.
      split; [now destruct s1 | constructor].
    - injection Hnote as <-. eexists [_]. split; [reflexivity|].
      now constructor. }
  destruct Hn as (e2 & -> & Hf2).
  inv_bind H as runName s3 Hrn. apply SetRunName_frame in Hrn as Hfr.
  inv_bind H as net s4 Hd. apply deref_Ok_inv in Hd as [Hnet ->].
  inv_bind H as u s5 Ho. destruct u. injection Ho as <-.
  inv_bind H as u s6 Hp. destruct u. injection Hp as <-.
  inv_bind H as u s7 Hset. destruct u. injection H as <-.
  unfold SetCurMaxPlusN in Hset.
  inv_bind Hset as ls s8 Hl. apply deref_Ok_inv in Hl as [Hls ->].
  destruct (setStackCounter Test Trial _ ls) as [ls'|] eqn:Hsc; [|discriminate].
  injection Hset as <-.
  rewrite Hfr. cbn [Events Loops Config set_Events set_Loops set_FS].
  eexists _, ls'. split.
  { rewrite He1. rewrite <- !app_assoc. reflexivity. }
  split.
  { repeat (apply Forall_app; split); auto; repeat constructor. }
  split.
  { rewrite !app_assoc. apply last_snoc. }
  split; [reflexivity|].
  now apply setStackCounter_counterOf in Hsc.
Qed.

End HeadlessRunDriver.


(** * Further properties *)

Section TreeAndEvents.

Context {F : Type} `{!Collaborators F}.

Implicit Types (ss : Sim F).

Lemma te_same {A} (c : M F A) :
  (forall ss a ss1, c ss = Ok a ss1 -> ss1 = ss) -> treeAndEventsOnly c.
Proof. intros Hc ss a ss1 H. rewrite (Hc _ _ _ H). now destruct ss. Qed.

Lemma te_tree {A} (c : M F A) :
  (forall ss a ss1, c ss = Ok a ss1 -> exists fs, ss1 = set_FS fs ss) ->
  treeAndEventsOnly c.
Proof. intros Hc ss a ss1 H. destruct (Hc _ _ _ H) as [fs ->]. now destruct ss. Qed.

Lemma te_ret {A} (a : A) : treeAndEventsOnly (ret a : M F A).
Proof. apply te_same. now intros ss b ss1 [= _ <-]. Qed.

Lemma te_bind {A B} (c : M F A) (k : A -> M F B) :
  treeAndEventsOnly c -> (forall a, treeAndEventsOnly (k a)) ->
  treeAndEventsOnly (bind c k).
Proof.
  intros Hc Hk ss b ss2 H. inv_bind H as a s1 H1.
  rewrite (Hk a _ _ _ H). rewrite (Hc _ _ _ H1). reflexivity.
Qed.

Lemma te_forEach {A} (l : list A) (body : A -> M F unit) :
  (forall a, treeAndEventsOnly (body a)) -> treeAndEventsOnly (forEach l body).
Proof.
  intros Hb. induction l as [|a l IH]; cbn [forEach].
  - apply te_ret.
  - apply te_bind; auto.
Qed.

Lemma te_emit e : treeAndEventsOnly (emit e : M F unit).
Proof. intros ss [] ss1 [= <-]. now destruct ss. Qed.

Lemma te_get {A} (f : Sim F -> A) : treeAndEventsOnly (get f).
Proof. apply te_same. now intros ss a ss1 [= _ <-]. Qed.

Lemma te_deref {A} (f : Sim F -> option A) : treeAndEventsOnly (deref f).
Proof. apply te_same. intros ss a ss1 H. now apply deref_Ok_inv in H as [_ ->]. Qed.

Lemma te_panic {A} p : treeAndEventsOnly (panic p : M F A).
Proof. now intros ss a ss1 H. Qed.

(** The operations on the tree change the tree only. *)
Ltac tree_op_frame :=
  apply te_tree; intros ss a ss1 H;
  repeat match type of H with
         | context [match ?x with _ => _ end] => destruct x; try discriminate
         end;
  injection H as <- <-; first [ now eexists | exists (FS ss); now destruct ss ].

Lemma te_Dir d name : treeAndEventsOnly (Dir d name : M F Path).
Proof. unfold Dir. tree_op_frame. Qed.

Lemma te_Float64 d name n : treeAndEventsOnly (Float64 d name n).
Proof. unfold Float64. tree_op_frame. Qed.

Lemma te_StringValue d name n : treeAndEventsOnly (StringValue d name n : M F Path).
Proof. unfold StringValue. tree_op_frame. Qed.

Lemma te_Value d name : treeAndEventsOnly (Value d name : M F Path).
Proof. unfold Value. tree_op_frame. Qed.

Lemma te_readFloats t : treeAndEventsOnly (readFloats t : M F (list F)).
Proof. unfold readFloats. tree_op_frame. Qed.

Lemma te_readStrings t : treeAndEventsOnly (readStrings t : M F (list string)).
Proof. unfold readStrings. tree_op_frame. Qed.

Lemma te_updFloats t f : treeAndEventsOnly (updFloats t f : M F unit).
Proof.
  apply te_tree. intros ss [] ss1 H.
  apply updFloats_inv in H as (rows & sty & _ & ->). eauto.
Qed.

Lemma te_callLib (f : Sim F -> option (gmap Path (Node F))) :
  treeAndEventsOnly (callLib f).
Proof.
  apply te_tree. intros ss [] ss1 H.
  apply callLib_inv in H as (fs & _ & ->). eauto.
Qed.

Lemma te_modify_FS (g : Sim F -> gmap Path (Node F)) :
  treeAndEventsOnly (modify (fun ss => set_FS (g ss) ss)).
Proof. apply te_tree. intros ss [] ss1 [= <-]. eauto. Qed.

End TreeAndEvents.

(** Proves [treeAndEventsOnly] for a computation built from the operations
    above. *)
Ltac te_tac :=
  repeat first
    [ apply te_ret | apply te_get | apply te_deref | apply te_panic
    | apply te_Dir | apply te_Float64 | apply te_StringValue | apply te_Value
    | apply te_readFloats | apply te_readStrings | apply te_updFloats
    | apply te_callLib | apply te_emit | apply te_modify_FS
    | apply te_bind; [|intros ?]
    | apply te_forEach; intros ?
    | match goal with
      | |- treeAndEventsOnly (match ?x with _ => _ end) => destruct x
      end ].

Section StatsFrame.

Context {F : Type} `{!Collaborators F}.

Implicit Types (ss : Sim F).

Lemma te_HarmonyStat mode level phase :
  treeAndEventsOnly (HarmonyStat mode level phase).
Proof.
  unfold HarmonyStat, SetNumRows, SetFirstStyler, StatMeanCall, SetFloat1D,
    AppendRowFloat.
  te_tac.
Qed.

Lemma te_callStat sf mode level phase :
  treeAndEventsOnly (callStat sf mode level phase).
Proof.
  destruct sf; cbn [callStat]; first [apply te_callLib | apply te_HarmonyStat].
Qed.

Lemma te_RunStats mode level phase : treeAndEventsOnly (RunStats mode level phase).
Proof.
  unfold RunStats. apply te_bind; [apply te_get|intros sfs].
  apply te_bind; [apply te_forEach; intros sf; apply te_callStat|intros _].
  te_tac.
Qed.

Lemma te_StatsNode mode level : treeAndEventsOnly (StatsNode mode level : M F Path).
Proof. unfold StatsNode. te_tac. Qed.



Lemma te_StatsInit : treeAndEventsOnly (StatsInit : M F unit).
Proof.
  unfold StatsInit. apply te_bind; [apply te_deref|intros ls].
  apply te_bind.
  - apply te_forEach. intros st. apply te_forEach. intros level.
    apply te_RunStats.
  - intros _. apply te_bind; [apply te_get|intros tabs].
    destruct tabs; [|apply te_ret].
    apply te_bind; [apply te_StatsNode|intros d1].
    apply te_bind; [apply te_emit|intros _].
    apply te_bind; [apply te_StatsNode|intros d2]. apply te_emit.
Qed.


End StatsFrame.


Section TreeOnly.

Context {F : Type} `{!Collaborators F}.

Implicit Types (ss : Sim F).

Lemma to_same {A} (c : M F A) :
  (forall ss a ss1, c ss = Ok a ss1 -> ss1 = ss) -> treeOnly c.
Proof.
  intros Hc ss a ss1 H. rewrite (Hc _ _ _ H). exists (FS ss). now destruct ss.
Qed.

Lemma to_ret {A} (a : A) : treeOnly (ret a : M F A).
Proof. apply to_same. now intros ss b ss1 [= _ <-]. Qed.

Lemma to_bind {A B} (c : M F A) (k : A -> M F B) :
  treeOnly c -> (forall a, treeOnly (k a)) -> treeOnly (bind c k).
Proof.
  intros Hc Hk ss b ss2 H. inv_bind H as a s1 H1.
  destruct (Hc _ _ _ H1) as [fs1 ->]. destruct (Hk a _ _ _ H) as [fs2 ->].
  now exists fs2.
Qed.

Lemma to_forEach {A} (l : list A) (body : A -> M F unit) :
  (forall a, treeOnly (body a)) -> treeOnly (forEach l body).
Proof.
  intros Hb. induction l as [|a l IH]; cbn [forEach].
  - apply to_ret.
  - apply to_bind; auto.
Qed.

Lemma to_get {A} (f : Sim F -> A) : treeOnly (get f).
Proof. apply to_same. now intros ss a ss1 [= _ <-]. Qed.

Lemma to_deref {A} (f : Sim F -> option A) : treeOnly (deref f).
Proof. apply to_same. intros ss a ss1 H. now apply deref_Ok_inv in H as [_ ->]. Qed.

Lemma to_panic {A} p : treeOnly (panic p : M F A).
Proof. now intros ss a ss1 H. Qed.

Ltac tree_op_only :=
  intros ss a ss1 H;
  repeat match type of H with
         | context [match ?x with _ => _ end] => destruct x; try discriminate
         end;
  injection H as <- <-; first [ now eexists | exists (FS ss); now destruct ss ].

Lemma to_Dir d name : treeOnly (Dir d name : M F Path).
Proof. unfold Dir. tree_op_only. Qed.

Lemma to_Float64 d name n : treeOnly (Float64 d name n).
Proof. unfold Float64. tree_op_only. Qed.

Lemma to_StringValue d name n : treeOnly (StringValue d name n : M F Path).
Proof. unfold StringValue. tree_op_only. Qed.

Lemma to_Value d name : treeOnly (Value d name : M F Path).
Proof. unfold Value. tree_op_only. Qed.

Lemma to_readFloats t : treeOnly (readFloats t : M F (list F)).
Proof. unfold readFloats. tree_op_only. Qed.

Lemma to_readStrings t : treeOnly (readStrings t : M F (list string)).
Proof. unfold readStrings. tree_op_only. Qed.

Lemma to_updFloats t f : treeOnly (updFloats t f : M F unit).
Proof.
  intros ss [] ss1 H. apply updFloats_inv in H as (rows & sty & _ & ->). eauto.
Qed.

Lemma to_callLib (f : Sim F -> option (gmap Path (Node F))) : treeOnly (callLib f).
Proof. intros ss [] ss1 H. apply callLib_inv in H as (fs & _ & ->). eauto. Qed.

Lemma to_modify_FS (g : Sim F -> gmap Path (Node F)) :
  treeOnly (modify (fun ss => set_FS (g ss) ss)).
Proof. intros ss [] ss1 [= <-]. eauto. Qed.

End TreeOnly.

(** Proves [treeOnly] for a computation built from the operations above. *)
Ltac to_tac :=
  repeat first
    [ apply to_ret | apply to_get | apply to_deref | apply to_panic
    | apply to_Dir | apply to_Float64 | apply to_StringValue | apply to_Value
    | apply to_readFloats | apply to_readStrings | apply to_updFloats
    | apply to_callLib | apply to_modify_FS
    | apply to_bind; [|intros ?]
    | apply to_forEach; intros ?
    | match goal with
      | |- treeOnly (match ?x with _ => _ end) => destruct x
      end ].

Section PlotUpdates.

Context {F : Type} `{!Collaborators F}.

Implicit Types (ss : Sim F).

Lemma to_HarmonyStat mode level phase : treeOnly (HarmonyStat mode level phase).
Proof.
  unfold HarmonyStat, SetNumRows, SetFirstStyler, StatMeanCall, SetFloat1D,
    AppendRowFloat.
  to_tac.
Qed.

Lemma to_callStat sf mode level phase : treeOnly (callStat sf mode level phase).
Proof.
  destruct sf; cbn [callStat]; first [apply to_callLib | apply to_HarmonyStat].
Qed.

Lemma to_SetRunName : treeOnly (SetRunName : M F string).
Proof. unfold SetRunName, SetString1D. to_tac. Qed.

Lemma to_RunName : treeOnly (RunName : M F string).
Proof. unfold RunName, String1D. to_tac. Qed.

(** The events of one [RunStats] call. *)
Lemma RunStats_events mode level phase ss ss1 :
  RunStats mode level phase ss = Ok tt ss1 ->
  Events ss1 = Events ss ++
    (if GUITabs ss then plotUpdates mode level phase else []).
Proof.
  unfold RunStats. intros H.
  inv_bind H as sfs s0 Hg. injection Hg as <- <-.
  inv_bind H as u s1 Hrun. destruct u.
  assert (Hto : exists fs, s1 = set_FS fs ss).
  { revert Hrun. apply to_forEach. intros sf. apply to_callStat. }
  destruct Hto as [fs ->]. clear Hrun.
  inv_bind H as tabs s2 Hg. injection Hg as <- <-.
  cbn [GUITabs set_FS] in H. unfold plotUpdates.
  destruct phase; cbn [bool_decide andb] in H.
  - rewrite bool_decide_false in H by discriminate. cbn [andb] in H.
    injection H as <-. cbn [Events set_FS].
    destruct (GUITabs ss); now rewrite app_nil_r.
  - rewrite bool_decide_true in H by reflexivity. cbn [andb] in H.
    destruct (GUITabs ss).
    + inv_bind H as u s3 He. destruct u. injection He as <-.
      destruct (decide (level = Run)) as [->|Hne].
      * rewrite bool_decide_true in H by reflexivity. injection H as <-.
        cbn [Events set_FS set_Events]. now rewrite <- app_assoc.
      * rewrite bool_decide_false in H by exact Hne. injection H as <-.
        reflexivity.
    + injection H as <-. cbn [Events set_FS]. now rewrite app_nil_r.
Qed.


End PlotUpdates.


Section StepsAndStarts.

Context {F : Type} `{!Collaborators F}.

Implicit Types (ss : Sim F) (tr : list (Modes * Levels * StatsPhase)).

Hypothesis counters_keep : keepsHarmony counterFunc.
Hypothesis trialName_keep : keepsHarmony trialNameFunc.
Hypothesis state_keep : keepsHarmony stateFunc.

Lemma seriesRows_lookup ss ss' m l :
  FS ss' !! seriesPath m l = FS ss !! seriesPath m l ->
  seriesRows ss' m l = seriesRows ss m l.
Proof. unfold seriesRows. now intros ->. Qed.

(** X3. A Step above Cycle never creates the series it reduces: when the
    level below has no series yet (it was never started nor stepped), the
    Step callback panics instead of recording a default value. *)
Theorem StatsStep_without_inner_series_panics (mode : Modes)
    (level inner : Levels) (ss : Sim F) :
  Levels_of_Int64 (Levels_Int64 level - 1) = Some inner ->
  StatsConfigured ss ->
  StatFuncs ss = configuredStatFuncs ->
  seriesRows ss mode inner = None ->
  exists p, StatsStep (EModes mode) (ELevels level) ss = Fail p.
Proof.
  intros Hin Hc Hsf Hnone.
  destruct (StatsStep (EModes mode) (ELevels level) ss) as [[] ss1|p] eqn:E;
    [|eauto].
  exfalso. unfold StatsStep in E. cbn [assertModes assertLevels] in E.
  inv_bind E as m s0 Hm. injection Hm as <- <-.
  inv_bind E as l s0 Hl. injection Hl as <- <-.
  inv_bind E as u s1 Hrun. destruct u. clear E.
  unfold RunStats in Hrun.
  inv_bind Hrun as sfs s0 Hg. injection Hg as <- <-. rewrite Hsf in Hrun.
  inv_bind Hrun as u s2 Hfor. destruct u. clear Hrun.
  cbn [forEach configuredStatFuncs callStat] in Hfor.
  inv_bind Hfor as u sa Ha. destruct u. apply callLib_inv in Ha as (fa & Hfa & ->).
  inv_bind Hfor as u sb Hb. destruct u. apply callLib_inv in Hb as (fb & Hfb & ->).
  inv_bind Hfor as u sc Hh. destruct u. clear Hfor.
  assert (Hcb : StatsConfigured (set_FS fb (set_FS fa ss))) by exact Hc.
  destruct (HarmonyStat_Step_above_Cycle _ _ _ _ _ Hin Hcb Hh) as (xs & Hxs & _).
  unfold seriesRows in Hxs, Hnone. cbn [FS set_FS] in Hxs.
  rewrite (trialName_keep _ _ _ _ _ _ Hfb (seriesPath_last mode inner)) in Hxs.
  cbn [FS set_FS] in Hxs.
  rewrite (counters_keep _ _ _ _ _ _ Hfa (seriesPath_last mode inner)) in Hxs.
  congruence.
Qed.

(** The rows of a series along a sequence of phases with no Start of its
    mode and level: what was there stays, one row is added per Step. *)
Lemma runPhases_appends mode level tr : forall ss ss1,
  StatsConfigured ss ->
  StatFuncs ss = configuredStatFuncs ->
  (mode, level, Start) ∉ tr ->
  runPhases tr ss = Ok tt ss1 ->
  exists ext,
    default [] (seriesRows ss1 mode level)
      = default [] (seriesRows ss mode level) ++ ext /\
    length ext = stepsAt mode level tr.
Proof.
  induction tr as [|[[m l] ph] tr IH]; intros ss ss1 Hc Hsf Hnot H.
  - injection H as <-. exists []. now rewrite app_nil_r.
  - apply not_elem_of_cons in Hnot as [Hne Hnot].
    unfold runPhases in H. cbn [forEach fst snd] in H.
    inv_bind H as u s1 Hrun. destruct u.
    apply RunStats_rows in Hrun as (Hc1 & Hsf1 & Hrows); auto.
    destruct (IH _ _ Hc1 Hsf1 Hnot H) as (ext & Hext & Hlen).
    cbn [stepsAt].
    destruct (Hrows mode level) as [[Hneq Hsame]|[Heq Hph]].
    + rewrite decide_False by (intros [= -> -> _]; now apply Hneq).
      exists ext. split; [|exact Hlen].
      now rewrite Hext, (seriesRows_lookup _ _ _ _ Hsame).
    + injection Heq as <- <-. destruct ph; [now destruct Hne|].
      rewrite decide_True by reflexivity.
      destruct Hph as [x Hx]. exists (x :: ext). split; [|cbn; now rewrite Hlen].
      rewrite Hext, Hx. unfold default at 1. cbn [from_option id].
      now rewrite <- app_assoc.
Qed.

(** X4. Between two Starts a series is append-only: along any sequence of
    phases that runs through and has no Start of the mode and level, the
    rows the series held before are still there, in order, followed by one
    new row for each Step of that mode and level. *)
Theorem series_append_only (mode : Modes) (level : Levels)
    (tr : list (Modes * Levels * StatsPhase)) (ss ss1 : Sim F) :
  StatsConfigured ss ->
  StatFuncs ss = configuredStatFuncs ->
  (mode, level, Start) ∉ tr ->
  runPhases tr ss = Ok tt ss1 ->
  exists ext,
    default [] (seriesRows ss1 mode level)
      = default [] (seriesRows ss mode level) ++ ext /\
    length ext = stepsAt mode level tr.
Proof. intros. now apply runPhases_appends. Qed.

Lemma inner_not_Cycle level inner :
  Levels_of_Int64 (Levels_Int64 level - 1) = Some inner ->
  bool_decide (Levels_Int64 level <= Levels_Int64 Cycle)%Z = false.
Proof. destruct level; [discriminate| | | |]; reflexivity. Qed.

(** X5. The Start callback of a level above Cycle empties the series of
    the level immediately below and of no other: the series of the level
    itself, and of every other mode and level, is left as it is. *)
Theorem StatsStart_resets_level_below (mode : Modes) (level inner : Levels)
    (ss ss1 : Sim F) :
  Levels_of_Int64 (Levels_Int64 level - 1) = Some inner ->
  StatsConfigured ss ->
  StatFuncs ss = configuredStatFuncs ->
  StatsStart (EModes mode) (ELevels level) ss = Ok tt ss1 ->
  seriesRows ss1 mode inner = Some [] /\
  forall m l, (m, l) <> (mode, inner) ->
    FS ss1 !! seriesPath m l = FS ss !! seriesPath m l.
Proof.
  intros Hin Hc Hsf H. unfold StatsStart in H.
  cbn [assertModes assertLevels] in H.
  inv_bind H as m s0 Hm. injection Hm as <- <-.
  inv_bind H as l s0 Hl. injection Hl as <- <-.
  rewrite (inner_not_Cycle _ _ Hin), Hin in H.
  apply RunStats_rows in H as (_ & _ & Hrows); auto.
  split.
  - destruct (Hrows mode inner) as [[Hne _]|[_ Hs]]; [now destruct Hne|exact Hs].
  - intros m l Hne.
    destruct (Hrows m l) as [[_ Hsame]|[Heq _]]; [exact Hsame|contradiction].
Qed.

Lemma StatsNode_inv mode level ss d ss1 :
  StatsConfigured ss ->
  StatsNode mode level ss = Ok d ss1 ->
  d = ["Stats"; Modes_String mode; Levels_String level] /\
  Events ss1 = Events ss /\
  forall q, length q = 4%nat -> FS ss1 !! q = FS ss !! q.
Proof.
  intros [HS _] H. unfold StatsNode in H.
  inv_bind H as S s0 Hd. apply deref_Ok_inv in Hd as [HS' ->].
  rewrite HS in HS'. injection HS' as <-.
  inv_bind H as md s1 Hm. apply Dir_inv in Hm as (-> & _ & _ & ->).
  apply Dir_inv in H as (-> & _ & _ & ->).
  split; [reflexivity|]. split; [reflexivity|].
  intros q Hq. cbn [FS set_FS].
  rewrite !lookup_insert_ne by (intros <-; discriminate Hq). reflexivity.
Qed.

(** X6. The Step callback appends exactly one row to the series of its
    mode and level, leaves every other series as it is, and ends with the
    log line of the directory of that mode and level, after the plot
    updates of the Step. *)
Theorem StatsStep_appends_and_logs (mode : Modes) (level : Levels)
    (ss ss1 : Sim F) :
  StatsConfigured ss ->
  StatFuncs ss = configuredStatFuncs ->
  StatsStep (EModes mode) (ELevels level) ss = Ok tt ss1 ->
  (exists x, seriesRows ss1 mode level
             = Some (default [] (seriesRows ss mode level) ++ [x])) /\
  (forall m l, (m, l) <> (mode, level) ->
     FS ss1 !! seriesPath m l = FS ss !! seriesPath m l) /\
  Events ss1 = Events ss ++
    (if GUITabs ss then plotUpdates mode level Step else []) ++
    [EvWriteToLog ["Stats"; Modes_String mode; Levels_String level]].
Proof.
  intros Hc Hsf H. unfold StatsStep in H.
  cbn [assertModes assertLevels] in H.
  inv_bind H as m s0 Hm. injection Hm as <- <-.
  inv_bind H as l s0 Hl. injection Hl as <- <-.
  inv_bind H as u s1 Hrun. destruct u.
  pose proof (RunStats_events _ _ _ _ _ Hrun) as Hev.
  apply RunStats_rows in Hrun as (Hc1 & _ & Hrows); auto.
  inv_bind H as d s2 Hnode.
  apply (StatsNode_inv _ _ _ _ _ Hc1) in Hnode as (-> & Hev2 & Hsame).
  injection H as <-. cbn [FS Events set_Events].
  assert (Hser : forall m l, FS s2 !! seriesPath m l = FS s1 !! seriesPath m l)
    by (intros; now apply Hsame).
  split; [|split].
  - destruct (Hrows mode level) as [[Hne _]|[_ [x Hx]]]; [now destruct Hne|].
    exists x. rewrite <- Hx. unfold seriesRows. cbn [FS]. now rewrite Hser.
  - intros m l Hne. rewrite Hser.
    destruct (Hrows m l) as [[_ Hs]|[Heq _]]; [exact Hs|contradiction].
  - rewrite Hev2, Hev. now rewrite <- app_assoc.
Qed.

End StepsAndStarts.


Section InitStats.

Context {F : Type} `{!Collaborators F}.

Implicit Types (ss : Sim F) (tr : list (Modes * Levels * StatsPhase)).

Hypothesis counters_keep : keepsHarmony counterFunc.
Hypothesis trialName_keep : keepsHarmony trialNameFunc.
Hypothesis state_keep : keepsHarmony stateFunc.









End InitStats.

Section InitFrame.

Context {F : Type} `{!Collaborators F}.

Implicit Types (ss : Sim F).

Lemma Seeds_at_zero_inv ss seed ss' :
  Seeds_at 0 ss = Ok seed ss' -> ss' = ss /\ RandSeeds ss !! O = Some seed.
Proof.
  unfold Seeds_at. change (0 <? 0)%Z with false. change (Z.to_nat 0) with O.
  destruct (RandSeeds ss !! O); [|discriminate]. now intros [= <- <-].
Qed.

Lemma te_NewRun : treeAndEventsOnly (NewRun : M F unit).
Proof. unfold NewRun, InitWeights. te_tac. Qed.

(** X8. [Init] needs the loop stacks, the network and a first seed, and
    changes exactly this: every loop counter is back at 0 with its
    maximum kept, the global random source and the one of the network are
    seeded with the first seed of the table, and the tree and the event
    trace move; the layers, the tables, the seed table, the handles and
    the registry of stat functions are as before. *)
Theorem Init_resets_counters_and_seeds (ss ss1 : Sim F) :
  Init ss = Ok tt ss1 ->
  exists ls net seed,
    Loops ss = Some ls /\ Net ss = Some net /\ RandSeeds ss !! O = Some seed /\
    ss1 = set_Events (Events ss1) (set_FS (FS ss1)
            (set_Net (Some (mkNetwork (NetName net) (NetLayers net) (Some seed)))
               (set_GlobalRand (Some seed)
                  (set_Loops (Some (resetStacks ls)) ss)))).
Proof.
  unfold Init. intros H.
  inv_bind H as u s1 Hreset. destruct u. unfold ResetCounters in Hreset.
  inv_bind Hreset as ls s0 Hd. apply deref_Ok_inv in Hd as [Hls ->].
  injection Hreset as <-.
  inv_bind H as u s2 Hseed. destruct u. unfold InitRandSeed in Hseed.
  inv_bind Hseed as seed s0 Hs. apply Seeds_at_zero_inv in Hs as [-> Hsd].
  cbn [RandSeeds set_Loops] in Hsd.
  inv_bind Hseed as u s0 Hm. destruct u. injection Hm as <-.
  inv_bind Hseed as net s0 Hd. apply deref_Ok_inv in Hd as [Hnet ->].
  cbn [Net set_GlobalRand set_Loops] in Hnet.
  inv_bind Hseed as seed' s0 Hs. apply Seeds_at_zero_inv in Hs as [-> Hsd'].
  cbn [RandSeeds set_GlobalRand set_Loops] in Hsd'. rewrite Hsd in Hsd'.
  injection Hsd' as <-. injection Hseed as <-.
  inv_bind H as u s3 Hap. destruct u. pose proof (te_bind _ _ (te_deref Net)
    (fun _ => te_emit EvApplyParams) _ _ _ Hap) as Hfr3.
  inv_bind H as u s4 Hsi. destruct u. pose proof (te_StatsInit _ _ _ Hsi) as Hfr4.
  pose proof (te_NewRun _ _ _ H) as Hfr5.
  exists ls, net, seed. repeat (split; [assumption|]).
  rewrite Hfr5, Hfr4, Hfr3. reflexivity.
Qed.

End InitFrame.


Section ConfigStatsProps.

Context {F : Type} `{!Collaborators F}.

Implicit Types (ss : Sim F).

(** What [SetRunName] leaves: the tree is the only thing changed, and the
    entry "RunName" of the Current directory holds the name at index 0. *)
Lemma SetRunName_inv ss name ss1 :
  SetRunName ss = Ok name ss1 ->
  name = Params_RunName (Params ss) (CfgRunRun (Config ss)) /\
  exists cur vals,
    Current ss = Some cur /\
    FS ss !! cur = Some DirNode /\
    FS ss1 !! cur = Some DirNode /\
    FS ss1 !! (cur ++ ["RunName"]) = Some (StringNode vals) /\
    vals !! O = Some name /\
    ss1 = set_FS (FS ss1) ss /\
    forall q, q <> cur ++ ["RunName"] -> FS ss1 !! q = FS ss !! q.
Proof.
  unfold SetRunName. intros H.
  inv_bind H as params s0 Hg. injection Hg as <- <-.
  inv_bind H as cfg s0 Hg. injection Hg as <- <-.
  inv_bind H as cur s0 Hd. apply deref_Ok_inv in Hd as [Hcur ->].
  inv_bind H as t s1 Hsv.
  apply StringValue_inv in Hsv as (-> & Hdir & vals & Hbefore & ->).
  inv_bind H as u s2 Hset. destruct u. injection H as <- <-.
  unfold SetString1D in Hset. inv_bind Hset as vals' s3 Hrd.
  apply readStrings_inv in Hrd as (-> & Hrd).
  cbn [FS set_FS] in Hrd. rewrite lookup_insert_eq in Hrd. injection Hrd as <-.
  destruct (decide (0 < length vals)%nat) as [Hlen|]; [|discriminate].
  injection Hset as <-. cbn [FS set_FS]. rewrite insert_insert_eq.
  split; [reflexivity|]. eexists cur, _.
  split; [exact Hcur|]. split; [exact Hdir|]. split.
  { rewrite lookup_insert_ne by (symmetry; apply path_snoc_ne). exact Hdir. }
  split; [apply lookup_insert_eq|].
  split; [now apply list_lookup_insert_eq|]. split; [reflexivity|].
  intros q Hq. now rewrite lookup_insert_ne by (intros <-; now apply Hq).
Qed.

(** [RunName] reads the entry and leaves the state as it is. *)
Lemma RunName_run ss cur vals name :
  Current ss = Some cur ->
  FS ss !! cur = Some DirNode ->
  FS ss !! (cur ++ ["RunName"]) = Some (StringNode vals) ->
  vals !! O = Some name ->
  RunName ss = Ok name ss.
Proof.
  intros Hcur Hdir Hnode Hv. unfold RunName.
  erewrite bind_Ok by (unfold deref; now rewrite Hcur).
  erewrite bind_Ok by (eapply StringValue_found; eassumption).
  unfold String1D.
  erewrite bind_Ok by (unfold readStrings; now rewrite Hnode).
  now rewrite Hv.
Qed.

(** X9. [ConfigStats] needs the root handle; it makes [Stats] the
    directory "Stats" of the root and [Current] the directory "Current"
    of [Stats], stores the run name so that [RunName] returns it, and
    appends its four stat functions, in order, to whatever the registry
    already held: it does not reset the registry. *)
Theorem ConfigStats_sets_handles_and_registry (ss ss1 : Sim F) :
  ConfigStats ss = Ok tt ss1 ->
  exists root,
    Root ss = Some root /\
    Stats ss1 = Some (root ++ ["Stats"]) /\
    Current ss1 = Some ((root ++ ["Stats"]) ++ ["Current"]) /\
    FS ss1 !! (root ++ ["Stats"]) = Some DirNode /\
    FS ss1 !! ((root ++ ["Stats"]) ++ ["Current"]) = Some DirNode /\
    StatFuncs ss1 = StatFuncs ss ++ configuredStatFuncs /\
    RunName ss1 = Ok (Params_RunName (Params ss) (CfgRunRun (Config ss))) ss1.
Proof.
  unfold ConfigStats. intros H.
  inv_bind H as root s0 Hd. apply deref_Ok_inv in Hd as [Hroot ->].
  inv_bind H as st s1 Hst. apply Dir_inv in Hst as (-> & Hrd & _ & ->).
  inv_bind H as u s2 Hm. destruct u. injection Hm as <-.
  inv_bind H as cur s3 Hc. apply Dir_inv in Hc as (-> & Hsd & _ & ->).
  inv_bind H as u s4 Hm. destruct u. injection Hm as <-.
  inv_bind H as name s5 Hrn.
  apply SetRunName_inv in Hrn
    as (-> & cur & vals & Hcur & Hcd & Hcd1 & Hnode & Hv & Hfr & Hother).
  cbn [Current set_Current] in Hcur. injection Hcur as <-.
  unfold AddStat in H.
  inv_bind H as u s6 Hm. destruct u. injection Hm as <-.
  inv_bind H as u s7 Hm. destruct u. injection Hm as <-.
  inv_bind H as u s8 Hm. destruct u. injection Hm as <-.
  injection H as <-. rewrite Hfr.
  cbn [Stats Current FS StatFuncs Params Config set_FS set_Stats set_Current
       set_StatFuncs] in *.
  exists root. split; [exact Hroot|]. split; [reflexivity|].
  split; [reflexivity|]. split.
  { rewrite Hother by (intros Heq; apply (f_equal length) in Heq;
      rewrite !length_app in Heq; cbn in Heq; lia).
    rewrite lookup_insert_ne
      by (intros Heq; symmetry in Heq; revert Heq; apply path_snoc_ne).
    apply lookup_insert_eq. }
  split; [exact Hcd1|]. split.
  { rewrite <- !app_assoc. reflexivity. }
  eapply RunName_run; cbn [Current FS]; eauto.
Qed.


End ConfigStatsProps.


Section InputTypes.

Context {F : Type} `{!Collaborators F}.

Implicit Types (ss : Sim F).

Lemma setLayerType_inv ly ty ss ss1 :
  setLayerType ly ty ss = Ok tt ss1 ->
  exists net i,
    Net ss = Some net /\ ly = Some i /\
    ss1 = set_Net (Some (mkNetwork (NetName net)
                           (alter (withType ty) i (NetLayers net)) (NetRand net))) ss.
Proof.
  unfold setLayerType. intros H.
  inv_bind H as net s0 Hd. apply deref_Ok_inv in Hd as [Hnet ->].
  destruct ly as [i|]; [|discriminate]. injection H as <-. eauto.
Qed.

Lemma setLayerType_run i ty ss net :
  Net ss = Some net ->
  setLayerType (Some i) ty ss =
    Ok tt (set_Net (Some (mkNetwork (NetName net)
                            (alter (withType ty) i (NetLayers net)) (NetRand net))) ss).
Proof. intros Hnet. unfold setLayerType, bind, deref. now rewrite Hnet. Qed.

(** The result of [SetInput] when the network and the four layers are
    there. *)
Lemma SetInput_run topDown ss net inp emo gend iden :
  Net ss = Some net ->
  LayerByName (NetLayers net) "Input" = Some inp ->
  LayerByName (NetLayers net) "Emotion" = Some emo ->
  LayerByName (NetLayers net) "Gender" = Some gend ->
  LayerByName (NetLayers net) "Identity" = Some iden ->
  SetInput topDown ss =
    Ok tt (set_Net (Some (mkNetwork (NetName net)
                            (retyped topDown inp emo gend iden (NetLayers net))
                            (NetRand net))) ss).
Proof.
  intros Hnet H1 H2 H3 H4. unfold SetInput.
  erewrite bind_Ok by (unfold deref; now rewrite Hnet).
  rewrite H1, H2, H3, H4.
  unfold setLayerType, bind, deref, modify.
  destruct topDown; cbn [Net set_Net]; rewrite Hnet; reflexivity.
Qed.

Lemma SetInput_inv topDown ss ss1 :
  SetInput topDown ss = Ok tt ss1 ->
  exists net inp emo gend iden,
    Net ss = Some net /\
    LayerByName (NetLayers net) "Input" = Some inp /\
    LayerByName (NetLayers net) "Emotion" = Some emo /\
    LayerByName (NetLayers net) "Gender" = Some gend /\
    LayerByName (NetLayers net) "Identity" = Some iden /\
    ss1 = set_Net (Some (mkNetwork (NetName net)
                           (retyped topDown inp emo gend iden (NetLayers net))
                           (NetRand net))) ss.
Proof.
  intros H. pose proof H as H0. unfold SetInput in H.
  inv_bind H as net s0 Hd. apply deref_Ok_inv in Hd as [Hnet ->].
  assert (Hall : exists inp emo gend iden,
            LayerByName (NetLayers net) "Input" = Some inp /\
            LayerByName (NetLayers net) "Emotion" = Some emo /\
            LayerByName (NetLayers net) "Gender" = Some gend /\
            LayerByName (NetLayers net) "Identity" = Some iden).
  { destruct topDown.
    - inv_bind H as u s1 H1. destruct u.
      apply setLayerType_inv in H1 as (n1 & i1 & _ & Hi1 & ->).
      inv_bind H as u s2 H2. destruct u.
      apply setLayerType_inv in H2 as (n2 & i2 & _ & Hi2 & ->).
      inv_bind H as u s3 H3. destruct u.
      apply setLayerType_inv in H3 as (n3 & i3 & _ & Hi3 & ->).
      apply setLayerType_inv in H as (n4 & i4 & _ & Hi4 & ->).
      eauto 10.
    - inv_bind H as u s1 H1. destruct u.
      apply setLayerType_inv in H1 as (n1 & i1 & _ & Hi1 & ->).
      inv_bind H as u s2 H2. destruct u.
      apply setLayerType_inv in H2 as (n2 & i2 & _ & Hi2 & ->).
      inv_bind H as u s3 H3. destruct u.
      apply setLayerType_inv in H3 as (n3 & i3 & _ & Hi3 & ->).
      apply setLayerType_inv in H as (n4 & i4 & _ & Hi4 & ->).
      eauto 10. }
  destruct Hall as (inp & emo & gend & iden & H1 & H2 & H3 & H4).
  exists net, inp, emo, gend, iden. repeat (split; [assumption|]).
  rewrite (SetInput_run topDown ss net inp emo gend iden Hnet H1 H2 H3 H4) in H0.
  now injection H0 as <-.
Qed.

Lemma LayerByName_distinct ls n1 n2 i1 i2 :
  n1 <> n2 -> LayerByName ls n1 = Some i1 -> LayerByName ls n2 = Some i2 ->
  i1 <> i2.
Proof.
  intros Hne H1 H2 ->.
  apply LayerByName_Some in H1 as (l1 & Hl1 & <-).
  apply LayerByName_Some in H2 as (l2 & Hl2 & <-).
  congruence.
Qed.

Lemma retyped_lookup topDown inp emo gend iden ls name i :
  LayerByName ls "Input" = Some inp ->
  LayerByName ls "Emotion" = Some emo ->
  LayerByName ls "Gender" = Some gend ->
  LayerByName ls "Identity" = Some iden ->
  name ∈ inputLayerNames ->
  LayerByName ls name = Some i ->
  retyped topDown inp emo gend iden ls !! i
  = withType (inputType topDown name) <$> ls !! i.
Proof.
  intros H1 H2 H3 H4 Hin Hi. unfold retyped.
  assert (D12 := LayerByName_distinct ls "Input" "Emotion" _ _ ltac:(discriminate) H1 H2).
  assert (D13 := LayerByName_distinct ls "Input" "Gender" _ _ ltac:(discriminate) H1 H3).
  assert (D14 := LayerByName_distinct ls "Input" "Identity" _ _ ltac:(discriminate) H1 H4).
  assert (D23 := LayerByName_distinct ls "Emotion" "Gender" _ _ ltac:(discriminate) H2 H3).
  assert (D24 := LayerByName_distinct ls "Emotion" "Identity" _ _ ltac:(discriminate) H2 H4).
  assert (D34 := LayerByName_distinct ls "Gender" "Identity" _ _ ltac:(discriminate) H3 H4).
  unfold inputLayerNames in Hin.
  repeat (apply elem_of_cons in Hin as [->|Hin]);
    [ | | | | now apply elem_of_nil in Hin ];
    rewrite Hi in *;
    match goal with
    | H : Some _ = Some ?j |- _ => injection H as ->
    end;
    repeat first
      [ rewrite list_lookup_alter_ne by congruence
      | rewrite list_lookup_alter_eq ];
    reflexivity.
Qed.

(** X11. After [SetInput] each of the layers Input, Emotion, Gender and
    Identity (the first layer of that name) has the type of the chosen
    direction: top-down makes Input a comparison layer and the three
    category layers drivers, bottom-up the reverse. *)
Theorem SetInput_assigns_direction (topDown : bool) (ss ss1 : Sim F) :
  SetInput topDown ss = Ok tt ss1 ->
  exists net net1,
    Net ss = Some net /\ Net ss1 = Some net1 /\
    forall name, name ∈ inputLayerNames ->
      exists i ly,
        LayerByName (NetLayers net) name = Some i /\
        NetLayers net1 !! i = Some ly /\
        LayName ly = name /\
        LayType ly = inputType topDown name.
Proof.
  intros H.
  apply SetInput_inv in H
    as (net & inp & emo & gend & iden & Hnet & H1 & H2 & H3 & H4 & ->).
  eexists net, _. split; [exact Hnet|]. split; [reflexivity|].
  intros name Hin. cbn [NetLayers].
  assert (Hi : exists i, LayerByName (NetLayers net) name = Some i).
  { unfold inputLayerNames in Hin.
    repeat (apply elem_of_cons in Hin as [->|Hin]); eauto.
    now apply elem_of_nil in Hin. }
  destruct Hi as [i Hi]. pose proof Hi as Hi'.
  apply LayerByName_Some in Hi' as (ly & Hly & Hname).
  exists i, (withType (inputType topDown name) ly).
  split; [exact Hi|]. split; [|split; [exact Hname | reflexivity]].
  rewrite (retyped_lookup topDown inp emo gend iden _ name i) by assumption.
  now rewrite Hly.
Qed.

(** X12. [SetInput] returns, for either direction, whenever the network
    is there and has a layer of each of the four names Input, Emotion,
    Gender and Identity. *)
Theorem SetInput_needs_the_four_layers (topDown : bool) (ss : Sim F) :
  (exists net, Net ss = Some net /\
     forall name, name ∈ inputLayerNames ->
       is_Some (LayerByName (NetLayers net) name)) ->
  exists ss1, SetInput topDown ss = Ok tt ss1.
Proof.
  intros (net & Hnet & Hall).
  destruct (Hall "Input") as [inp H1]; [set_solver|].
  destruct (Hall "Emotion") as [emo H2]; [set_solver|].
  destruct (Hall "Gender") as [gend H3]; [set_solver|].
  destruct (Hall "Identity") as [iden H4]; [set_solver|].
  eexists. exact (SetInput_run topDown ss net inp emo gend iden Hnet H1 H2 H3 H4).
Qed.

(** X13. [SetInput] checks nothing: with a nil network, or a network
    that lacks a layer of one of the four names, it panics on the nil
    pointer, for either direction. *)
Theorem SetInput_missing_layer_panics (topDown : bool) (ss : Sim F) :
  (forall net, Net ss = Some net ->
     exists name, name ∈ inputLayerNames /\
       LayerByName (NetLayers net) name = None) ->
  SetInput topDown ss = Fail NilPointer.
Proof.
  intros Hmiss. unfold SetInput, bind at 1, deref at 1.
  destruct (Net ss) as [net|] eqn:Hnet; [|reflexivity].
  destruct (Hmiss net eq_refl) as (name & Hin & Hnone).
  assert (Hcase : LayerByName (NetLayers net) "Input" = None \/
                  LayerByName (NetLayers net) "Emotion" = None \/
                  LayerByName (NetLayers net) "Gender" = None \/
                  LayerByName (NetLayers net) "Identity" = None).
  { unfold inputLayerNames in Hin.
    repeat (apply elem_of_cons in Hin as [->|Hin]); auto.
    now apply elem_of_nil in Hin. }
  clear Hin Hnone.
  destruct topDown; unfold setLayerType, bind, deref, modify, panic;
    rewrite Hnet;
    destruct (LayerByName (NetLayers net) "Input"); [|reflexivity| |reflexivity];
    cbn [Net set_Net];
    destruct (LayerByName (NetLayers net) "Emotion"); [|reflexivity| |reflexivity];
    cbn [Net set_Net];
    destruct (LayerByName (NetLayers net) "Gender"); [|reflexivity| |reflexivity];
    cbn [Net set_Net];
    destruct (LayerByName (NetLayers net) "Identity"); [|reflexivity| |reflexivity];
    destruct Hcase as [?|[?|[?|?]]]; discriminate.
Qed.

End InputTypes.


Section PatternLoading.

Context {F : Type} `{!Collaborators F}.

Implicit Types (ss : Sim F).

(** The run of [OpenPatterns] on a valid [PartialPatterns] pointer. *)
Lemma OpenPatterns_run (ss : Sim F) (b : nat) (tb : Table) :
  PartialPatterns ss = Some b ->
  Tables ss !! b = Some tb ->
  exists ss1,
    OpenPatterns ss = Ok tt ss1 /\
    Events ss1 = Events ss ++ loadErrors "faces.tsv" ++ loadErrors "partial_faces.tsv" /\
    dom (Tables ss1) = {[fresh (dom (Tables ss))]} ∪ dom (Tables ss) /\
    ss1 = set_Patterns (Some b)
            (set_Events (Events ss1) (set_Tables (Tables ss1) ss)) /\
    Tables ss1 !! b = Some (mkTable "FacesPartial" "Partial face testing patterns"
                              (default (TRows tb) (embedfs "partial_faces.tsv"))).
Proof.
  intros Hpp Hb.
  set (a := fresh (dom (Tables ss))).
  assert (Ha : Tables ss !! a = None) by apply fresh_table_free.
  assert (Hab : a <> b) by (intros ->; congruence).
  assert (Hdom : {[b]} ∪ dom (Tables ss) = dom (Tables ss)).
  { apply subseteq_union_1_L, singleton_subseteq_l, elem_of_dom. eauto. }
  unfold OpenPatterns, newTable, SetName, SetDoc, OpenFS, logAndPrint,
    updTable, bind, get, emit, modify, ret, loadErrors.
  fold a.
  destruct (embedfs "faces.tsv") as [rows1|];
    destruct (embedfs "partial_faces.tsv") as [rows2|];
    repeat first
      [ progress cbn [Tables set_Tables set_Events set_Patterns Patterns
                      PartialPatterns Events TName TDoc TRows default]
      | rewrite lookup_insert_eq
      | rewrite lookup_insert_ne by exact Hab
      | rewrite Hpp | rewrite Hb | rewrite insert_insert_eq ];
    (eexists; split; [reflexivity|];
     cbn [Tables set_Tables set_Events set_Patterns Patterns PartialPatterns
          Events app];
     rewrite ?app_nil_r, <- ?app_assoc; cbn [app];
     rewrite !dom_insert_L, (union_comm_L {[b]}), <- (union_assoc_L _ _ {[b]}),
       (union_comm_L (dom (Tables ss))), Hdom;
     rewrite ?lookup_insert_eq;
     repeat split; reflexivity).
Qed.

(** X14. [OpenPatterns] never fails on a file that does not open: it
    reports the error twice (log and print), for each of the two files
    that fails, and goes on. Every call allocates one more table, and
    nothing but the tables, the [Patterns] pointer and the event trace
    changes. *)
Theorem OpenPatterns_reports_load_errors (ss : Sim F) (b : nat) (tb : Table) :
  PartialPatterns ss = Some b ->
  Tables ss !! b = Some tb ->
  exists ss1,
    OpenPatterns ss = Ok tt ss1 /\
    Events ss1 = Events ss ++ loadErrors "faces.tsv" ++ loadErrors "partial_faces.tsv" /\
    dom (Tables ss1) = {[fresh (dom (Tables ss))]} ∪ dom (Tables ss) /\
    ss1 = set_Patterns (Some b)
            (set_Events (Events ss1) (set_Tables (Tables ss1) ss)).
Proof.
  intros Hpp Hb.
  destruct (OpenPatterns_run ss b tb Hpp Hb) as (ss1 & H & He & Hd & Hfr & _).
  exists ss1. auto.
Qed.

Lemma updTable_keeps dt f ss ss1 :
  updTable dt f ss = Ok tt ss1 -> exists T, ss1 = set_Tables T ss.
Proof.
  unfold updTable. destruct dt as [a|]; [|discriminate].
  destruct (Tables ss !! a); [|discriminate]. intros [= <-]. eauto.
Qed.

Lemma OpenFS_keeps dt fnm ss err ss1 :
  OpenFS dt fnm ss = Ok err ss1 -> exists T, ss1 = set_Tables T ss.
Proof.
  unfold OpenFS. destruct (embedfs fnm); intros H;
    inv_bind H as u s1 Hu; destruct u; injection H as <- <-;
    now apply updTable_keeps in Hu.
Qed.

Lemma logAndPrint_keeps err ss ss1 :
  logAndPrint err ss = Ok tt ss1 -> exists ev, ss1 = set_Events ev ss.
Proof.
  unfold logAndPrint. destruct err; intros H.
  - inv_bind H as u s1 Hu. destruct u. injection Hu as <-. injection H as <-.
    eexists. reflexivity.
  - injection H as <-. exists (Events ss). now destruct ss.
Qed.

(** After [OpenPatterns] both fields hold the pointer that
    [PartialPatterns] held before, whatever that pointer is. *)
Lemma OpenPatterns_same_pointer ss ss1 :
  OpenPatterns ss = Ok tt ss1 ->
  Patterns ss1 = PartialPatterns ss1 /\ PartialPatterns ss1 = PartialPatterns ss.
Proof.
  unfold OpenPatterns, SetName, SetDoc. intros H.
  inv_bind H as a s1 Hn. injection Hn as <- <-.
  inv_bind H as u s2 H1. destruct u. apply updTable_keeps in H1 as [T1 ->].
  inv_bind H as u s3 H2. destruct u. apply updTable_keeps in H2 as [T2 ->].
  inv_bind H as err s4 H3. apply OpenFS_keeps in H3 as [T3 ->].
  inv_bind H as u s5 H4. destruct u. apply logAndPrint_keeps in H4 as [e4 ->].
  inv_bind H as dt s6 Hg. injection Hg as <- <-.
  inv_bind H as u s7 H5. destruct u. apply updTable_keeps in H5 as [T5 ->].
  inv_bind H as u s8 H6. destruct u. apply updTable_keeps in H6 as [T6 ->].
  inv_bind H as err2 s9 H7. apply OpenFS_keeps in H7 as [T7 ->].
  inv_bind H as u s10 H8. destruct u. apply logAndPrint_keeps in H8 as [e8 ->].
  injection H as <-. split; reflexivity.
Qed.

(** X15. Once [OpenPatterns] has run, [SetPatterns] does the same for
    both values of its argument: full and partial patterns are the same
    table, so the choice selects nothing. *)
Theorem SetPatterns_choice_is_void (ss0 ss : Sim F) :
  OpenPatterns ss0 = Ok tt ss ->
  SetPatterns true ss = SetPatterns false ss.
Proof.
  intros H. apply OpenPatterns_same_pointer in H as [Hsame _].
  unfold SetPatterns, testEnv, bind, get, ret, panic, deref.
  destruct (existsb isTestEnvConfig (Events ss)); [|reflexivity].
  now rewrite Hsame.
Qed.

End PatternLoading.


Section HeadlessLogs.

Context {F : Type} `{!Collaborators F}.

Implicit Types (ss : Sim F).


End HeadlessLogs.


Section Configuration.

Context {F : Type} `{!Collaborators F}.

Implicit Types (ss : Sim F).





End Configuration.


Section ConfigSimProps.

Context {F : Type} `{!Collaborators F}.

Implicit Types (ss : Sim F).






End ConfigSimProps.

(** * The properties on the concrete simulation *)

#[local] Existing Instance exCollaborators.

Lemma exCounters_keep : keepsHarmony (F := Q) counterFunc.
Proof. intros m l b ss fs q [= <-] _. reflexivity. Qed.

Lemma exTrialName_keep : keepsHarmony (F := Q) trialNameFunc.
Proof.
  intros m l b ss fs q [= <-] Hlast.
  apply lookup_insert_ne. intros <-. discriminate Hlast.
Qed.

Lemma exState_keep : keepsHarmony (F := Q) stateFunc.
Proof. intros m l b ss fs q [= <-] _. reflexivity. Qed.

(** C1 as it is stated fails at the end of an epoch of two trials: the
    Step at Epoch appends the mean of the two Trial rows to the Epoch
    series, and the Current cache of the mode still has no entry for the
    statistic. *)
Lemma Step_above_Cycle_writes_no_Current :
  (Levels_Int64 Cycle < Levels_Int64 Epoch)%Z /\
  HarmonyStat Test Epoch Step exAfterTrials = Ok tt exAfterEpoch /\
  seriesRows exAfterTrials Test Trial = Some [0%Q; 0%Q] /\
  seriesRows exAfterEpoch Test Epoch = Some [Qmean [0%Q; 0%Q]] /\
  FS exAfterEpoch !! currentPath Test = None.
Proof. repeat split; vm_compute; reflexivity. Qed.

Lemma Step_reduces_inner_series_witness :
  (keepsHarmony (F := Q) counterFunc) /\
  (keepsHarmony (F := Q) trialNameFunc) /\
  (keepsHarmony (F := Q) stateFunc) /\
  (Levels_Int64 Cycle < Levels_Int64 Epoch)%Z /\
  Levels_of_Int64 (Levels_Int64 Epoch - 1) = Some Trial /\
  StatsConfigured exConfigured /\
  StatFuncs exConfigured = configuredStatFuncs /\
  ((Test, Trial, Start) ∉ exSuf) /\
  runPhases (exPre ++ (Test, Trial, Start) :: exSuf) exConfigured
    = Ok tt exAfterTrials /\
  HarmonyStat Test Epoch Step exAfterTrials = Ok tt exAfterEpoch /\
  exists xs,
    seriesRows exAfterTrials Test Trial = Some xs /\
    length xs = stepsAt Test Trial exSuf /\
    seriesRows exAfterEpoch Test Epoch
      = Some (default [] (seriesRows exAfterTrials Test Epoch) ++ [StatMean xs]) /\
    forall m name,
      FS exAfterEpoch !! ["Stats"; "Current"; Modes_String m; name]
      = FS exAfterTrials !! ["Stats"; "Current"; Modes_String m; name].
Proof.
  assert (Hin : (Test, Trial, Start) ∉ exSuf)
    by (apply (bool_decide_unpack _); vm_compute; exact I).
  split; [exact exCounters_keep|]. split; [exact exTrialName_keep|].
  split; [exact exState_keep|]. split; [reflexivity|]. split; [reflexivity|].
  split; [split; reflexivity|]. split; [reflexivity|]. split; [exact Hin|].
  split; [vm_compute; reflexivity|]. split; [vm_compute; reflexivity|].
  apply (Step_reduces_inner_series exCounters_keep exTrialName_keep exState_keep
           Test Epoch Trial exPre exSuf exConfigured exAfterTrials exAfterEpoch).
  - reflexivity.
  - reflexivity.
  - split; reflexivity.
  - reflexivity.
  - exact Hin.
  - vm_compute; reflexivity.
  - vm_compute; reflexivity.
Defined.

Lemma rows_since_last_Start_witness :
  (keepsHarmony (F := Q) counterFunc) /\
  (keepsHarmony (F := Q) trialNameFunc) /\
  (keepsHarmony (F := Q) stateFunc) /\
  StatsConfigured exConfigured /\
  StatFuncs exConfigured = configuredStatFuncs /\
  ((Test, Trial, Start) ∉ exSuf) /\
  runPhases (exPre ++ (Test, Trial, Start) :: exSuf) exConfigured
    = Ok tt exAfterTrials /\
  exists rows,
    seriesRows exAfterTrials Test Trial = Some rows /\
    length rows = stepsAt Test Trial exSuf.
Proof.
  assert (Hin : (Test, Trial, Start) ∉ exSuf)
    by (apply (bool_decide_unpack _); vm_compute; exact I).
  split; [exact exCounters_keep|]. split; [exact exTrialName_keep|].
  split; [exact exState_keep|].
  split; [split; reflexivity|]. split; [reflexivity|]. split; [exact Hin|].
  split; [vm_compute; reflexivity|].
  apply (rows_since_last_Start exCounters_keep exTrialName_keep exState_keep
           Test Trial exPre exSuf exConfigured exAfterTrials).
  - split; reflexivity.
  - reflexivity.
  - exact Hin.
  - vm_compute; reflexivity.
Defined.

Lemma Cycle_Step_reduces_level_below_witness :
  StatsConfigured exAfterTrials /\
  ((forall ss1, HarmonyStat Test Cycle Step exAfterTrials = Ok tt ss1 ->
      exists xs xsty crows csty,
        FS exAfterTrials !! ["Stats"; Modes_String Test; "-1"; "Harmony"]
          = Some (Float64Node xs xsty) /\
        seriesRows ss1 Test Cycle
          = Some (default [] (seriesRows exAfterTrials Test Cycle) ++ [StatMean xs]) /\
        FS ss1 !! currentPath Test
          = Some (Float64Node (<[O := StatMean xs]> crows) csty)) /\
   (FS exAfterTrials !! ["Stats"; Modes_String Test; "-1"; "Harmony"] = None ->
    exists p, HarmonyStat Test Cycle Step exAfterTrials = Fail p)).
Proof.
  split; [split; reflexivity|].
  apply (Cycle_Step_reduces_level_below Test exAfterTrials).
  split; reflexivity.
Defined.

(** The failing input of C3: the Step callback at Cycle, after the trials
    of the epoch, panics on the series of the level below Cycle. *)
Lemma StatsStep_Cycle_panics :
  StatsStep (EModes Test) (ELevels Cycle) exAfterTrials
  = Fail (NoSuchNode ["Stats"; "Test"; "-1"; "Harmony"]).
Proof. vm_compute. reflexivity. Qed.

Lemma HarmonyStat_Start_idempotent_witness :
  HarmonyStat Test Trial Start exAfterTrials = Ok tt exAfterStart /\
  seriesRows exAfterTrials Test Trial = Some [0%Q; 0%Q] /\
  (exists S sty, Stats exAfterStart = Some S /\
     FS exAfterStart !! seriesOf S Test Trial "Harmony" = Some (Float64Node [] sty)) /\
  HarmonyStat Test Trial Start exAfterStart = Ok tt exAfterStart.
Proof.
  split; [vm_compute; reflexivity|]. split; [vm_compute; reflexivity|].
  apply (HarmonyStat_Start_idempotent Test Trial exAfterTrials exAfterStart).
  vm_compute; reflexivity.
Defined.

Lemma RunNoGUI_never_steps_witness :
  RunNoGUI exConfigured = Ok tt exAfterRunNoGUI /\
  exists evs ls,
    Events exAfterRunNoGUI = Events exConfigured ++ evs /\
    Forall (fun e => isStepEvent e = false) evs /\
    last evs = Some (EvCloseLogFiles Cycle) /\
    Loops exAfterRunNoGUI = Some ls /\
    counterOf ls Test Trial
      = Some (mkCounter (CfgRunRun (Config exAfterRunNoGUI))
                (CfgRunRun (Config exAfterRunNoGUI)
                 + CfgRunRuns (Config exAfterRunNoGUI))).
Proof.
  split; [vm_compute; reflexivity|].
  apply (RunNoGUI_never_steps exConfigured exAfterRunNoGUI).
  vm_compute; reflexivity.
Defined.

(** The failing input of C4: after [RunNoGUI] on the configured
    simulation, with one run asked for, the series of the Trial and Epoch
    levels are empty and the Trial counter stands at 0 of 1. *)
Lemma RunNoGUI_leaves_series_empty :
  RunNoGUI exConfigured = Ok tt exAfterRunNoGUI /\
  seriesRows exAfterRunNoGUI Test Trial = Some [] /\
  seriesRows exAfterRunNoGUI Test Epoch = Some [] /\
  Loops exAfterRunNoGUI
  = Some [(Test, mkStack [Epoch; Trial]
             [(Epoch, mkCounter 0 1); (Trial, mkCounter 0 1)])].
Proof. repeat split; vm_compute; reflexivity. Qed.

Lemma InitRandSeed_by_index_witness :
  RandSeeds exConfigured = Seeds_Init 100 /\
  Net exConfigured = Some (mkNetwork "Faces"
                             (NetLayers (default (mkNetwork "" [] None)
                                           (Net exConfigured)))
                             (Some 1%Z)) /\
  InitRandSeed 7 exConfigured =
    (if bool_decide (0 <= 7 < 100)%Z then
       let seed := seedInit (Z.to_nat 7) in
       Ok tt (set_Net (Some (mkNetwork "Faces"
                               (NetLayers (default (mkNetwork "" [] None)
                                             (Net exConfigured)))
                               (Some seed)))
                (set_GlobalRand (Some seed) exConfigured))
     else Fail (IndexOutOfRange 7 100)).
Proof.
  split; [vm_compute; reflexivity|]. split; [vm_compute; reflexivity|].
  apply (InitRandSeed_by_index exConfigured
           (mkNetwork "Faces"
              (NetLayers (default (mkNetwork "" [] None) (Net exConfigured)))
              (Some 1%Z)) 7);
    vm_compute; reflexivity.
Defined.

(** The two sides of C5 on the configured simulation: run 7 seeds both
    sources with the eighth seed, run 100 panics. *)
Lemma InitRandSeed_examples :
  GlobalRand (stateOf (InitRandSeed 7 exConfigured)) = Some 8%Z /\
  (NetRand <$> Net (stateOf (InitRandSeed 7 exConfigured))) = Some (Some 8%Z) /\
  InitRandSeed 100 exConfigured = Fail (IndexOutOfRange 100 100).
Proof. repeat split; vm_compute; reflexivity. Qed.

Lemma SetInput_changes_layer_types_only_witness :
  SetInput true exConfigured = Ok tt exTopDown /\
  (LayType <$> NetLayers (default (mkNetwork "" [] None) (Net exTopDown)))
    = [CompareLayer; InputLayer; InputLayer; InputLayer] /\
  Loops exTopDown = Loops exConfigured /\
  FS exTopDown = FS exConfigured /\
  dom (FS exTopDown) = dom (FS exConfigured) /\
  Stats exTopDown = Stats exConfigured /\
  Current exTopDown = Current exConfigured /\
  exTopDown = set_Net (Net exTopDown) exConfigured /\
  exists net net1,
    Net exConfigured = Some net /\ Net exTopDown = Some net1 /\
    netSameButTypes net net1.
Proof.
  split; [vm_compute; reflexivity|]. split; [vm_compute; reflexivity|].
  apply (SetInput_changes_layer_types_only true exConfigured exTopDown).
  vm_compute; reflexivity.
Defined.

Lemma OpenPatterns_aliases_PartialPatterns_witness :
  PartialPatterns exConfigured = Some 1%nat /\
  Tables exConfigured !! 1%nat
    = Some (mkTable "FacesPartial" "Partial face testing patterns"
              [["happy-top"]; ["sad-top"]]) /\
  fresh (dom (Tables exConfigured)) = 3%nat /\
  exists ss1,
    OpenPatterns exConfigured = Ok tt ss1 /\
    Patterns ss1 = Some 1%nat /\
    PartialPatterns ss1 = Some 1%nat /\
    Tables ss1 !! 1%nat
      = Some (mkTable "FacesPartial" "Partial face testing patterns"
                (default [["happy-top"]; ["sad-top"]]
                   (embedfs "partial_faces.tsv"))) /\
    fresh (dom (Tables exConfigured)) <> 1%nat /\
    Tables ss1 !! fresh (dom (Tables exConfigured))
      = Some (mkTable "Faces" "Face testing patterns"
                (default [] (embedfs "faces.tsv"))) /\
    Patterns ss1 <> Some (fresh (dom (Tables exConfigured))) /\
    PartialPatterns ss1 <> Some (fresh (dom (Tables exConfigured))).
Proof.
  split; [vm_compute; reflexivity|]. split; [vm_compute; reflexivity|].
  split; [vm_compute; reflexivity|].
  apply (OpenPatterns_aliases_PartialPatterns exConfigured 1%nat
           (mkTable "FacesPartial" "Partial face testing patterns"
              [["happy-top"]; ["sad-top"]]));
    vm_compute; reflexivity.
Defined.

Lemma RunName_after_SetRunName_witness :
  SetRunName exConfigured = Ok "Base_0" exConfigured /\
  "Base_0" = Params_RunName (Params exConfigured) (CfgRunRun (Config exConfigured)) /\
  (exists cur vals,
     Current exConfigured = Some cur /\
     FS exConfigured !! (cur ++ ["RunName"]) = Some (StringNode vals) /\
     vals !! O = Some "Base_0") /\
  RunName exConfigured = Ok "Base_0" exConfigured.
Proof.
  split; [vm_compute; reflexivity|].
  apply (RunName_after_SetRunName exConfigured exConfigured "Base_0").
  vm_compute; reflexivity.
Defined.

(** ** The further properties *)



Lemma StatsStep_without_inner_series_panics_witness :
  (keepsHarmony (F := Q) counterFunc) /\
  (keepsHarmony (F := Q) trialNameFunc) /\
  Levels_of_Int64 (Levels_Int64 Epoch - 1) = Some Trial /\
  StatsConfigured exConfigured /\
  StatFuncs exConfigured = configuredStatFuncs /\
  seriesRows exConfigured Test Trial = None /\
  exists p, StatsStep (EModes Test) (ELevels Epoch) exConfigured = Fail p.
Proof.
  split; [exact exCounters_keep|]. split; [exact exTrialName_keep|].
  split; [reflexivity|]. split; [split; reflexivity|]. split; [reflexivity|].
  split; [vm_compute; reflexivity|].
  apply (StatsStep_without_inner_series_panics exCounters_keep exTrialName_keep
           Test Epoch Trial exConfigured).
  - reflexivity.
  - split; reflexivity.
  - reflexivity.
  - vm_compute; reflexivity.
Defined.

Lemma series_append_only_witness :
  (keepsHarmony (F := Q) counterFunc) /\
  (keepsHarmony (F := Q) trialNameFunc) /\
  (keepsHarmony (F := Q) stateFunc) /\
  StatsConfigured exAfterTrials /\
  StatFuncs exAfterTrials = configuredStatFuncs /\
  ((Test, Trial, Start) ∉ exThird) /\
  runPhases exThird exAfterTrials = Ok tt exAfterThird /\
  seriesRows exAfterTrials Test Trial = Some [0%Q; 0%Q] /\
  exists ext,
    default [] (seriesRows exAfterThird Test Trial)
      = default [] (seriesRows exAfterTrials Test Trial) ++ ext /\
    length ext = stepsAt Test Trial exThird.
Proof.
  assert (Hin : (Test, Trial, Start) ∉ exThird)
    by (apply (bool_decide_unpack _); vm_compute; exact I).
  split; [exact exCounters_keep|]. split; [exact exTrialName_keep|].
  split; [exact exState_keep|].
  split; [split; reflexivity|]. split; [reflexivity|]. split; [exact Hin|].
  split; [vm_compute; reflexivity|]. split; [vm_compute; reflexivity|].
  apply (series_append_only exCounters_keep exTrialName_keep exState_keep
           Test Trial exThird exAfterTrials exAfterThird).
  - split; reflexivity.
  - reflexivity.
  - exact Hin.
  - vm_compute; reflexivity.
Defined.

Lemma StatsStart_resets_level_below_witness :
  (keepsHarmony (F := Q) counterFunc) /\
  (keepsHarmony (F := Q) trialNameFunc) /\
  (keepsHarmony (F := Q) stateFunc) /\
  Levels_of_Int64 (Levels_Int64 Epoch - 1) = Some Trial /\
  StatsConfigured exAfterTrials /\
  StatFuncs exAfterTrials = configuredStatFuncs /\
  StatsStart (EModes Test) (ELevels Epoch) exAfterTrials = Ok tt exAfterEpochStart /\
  seriesRows exAfterTrials Test Trial = Some [0%Q; 0%Q] /\
  seriesRows exAfterEpochStart Test Trial = Some [] /\
  forall m l, (m, l) <> (Test, Trial) ->
    FS exAfterEpochStart !! seriesPath m l = FS exAfterTrials !! seriesPath m l.
Proof.
  split; [exact exCounters_keep|]. split; [exact exTrialName_keep|].
  split; [exact exState_keep|]. split; [reflexivity|].
  split; [split; reflexivity|]. split; [reflexivity|].
  split; [vm_compute; reflexivity|]. split; [vm_compute; reflexivity|].
  apply (StatsStart_resets_level_below exCounters_keep exTrialName_keep exState_keep
           Test Epoch Trial exAfterTrials exAfterEpochStart).
  - reflexivity.
  - split; reflexivity.
  - reflexivity.
  - vm_compute; reflexivity.
Defined.

Lemma StatsStep_appends_and_logs_witness :
  (keepsHarmony (F := Q) counterFunc) /\
  (keepsHarmony (F := Q) trialNameFunc) /\
  (keepsHarmony (F := Q) stateFunc) /\
  StatsConfigured exDisplayed /\
  StatFuncs exDisplayed = configuredStatFuncs /\
  StatsStep (EModes Test) (ELevels Trial) exDisplayed = Ok tt exAfterTrialStep /\
  (exists x, seriesRows exAfterTrialStep Test Trial
             = Some (default [] (seriesRows exDisplayed Test Trial) ++ [x])) /\
  (forall m l, (m, l) <> (Test, Trial) ->
     FS exAfterTrialStep !! seriesPath m l = FS exDisplayed !! seriesPath m l) /\
  Events exAfterTrialStep = Events exDisplayed ++
    (if GUITabs exDisplayed then plotUpdates Test Trial Step else []) ++
    [EvWriteToLog ["Stats"; Modes_String Test; Levels_String Trial]].
Proof.
  split; [exact exCounters_keep|]. split; [exact exTrialName_keep|].
  split; [exact exState_keep|].
  split; [split; reflexivity|]. split; [reflexivity|].
  split; [vm_compute; reflexivity|].
  apply (StatsStep_appends_and_logs exCounters_keep exTrialName_keep exState_keep
           Test Trial exDisplayed exAfterTrialStep).
  - split; reflexivity.
  - reflexivity.
  - vm_compute; reflexivity.
Defined.


Lemma Init_resets_counters_and_seeds_witness :
  Init exAfterTrials = Ok tt exAfterInit /\
  exists ls net seed,
    Loops exAfterTrials = Some ls /\ Net exAfterTrials = Some net /\
    RandSeeds exAfterTrials !! O = Some seed /\
    exAfterInit
      = set_Events (Events exAfterInit) (set_FS (FS exAfterInit)
          (set_Net (Some (mkNetwork (NetName net) (NetLayers net) (Some seed)))
             (set_GlobalRand (Some seed)
                (set_Loops (Some (resetStacks ls)) exAfterTrials)))).
Proof.
  split; [vm_compute; reflexivity|].
  apply (Init_resets_counters_and_seeds exAfterTrials exAfterInit).
  vm_compute; reflexivity.
Defined.

Lemma ConfigStats_sets_handles_and_registry_witness :
  ConfigStats exConfigured = Ok tt exReconfigured /\
  StatFuncs exConfigured = configuredStatFuncs /\
  exists root,
    Root exConfigured = Some root /\
    Stats exReconfigured = Some (root ++ ["Stats"]) /\
    Current exReconfigured = Some ((root ++ ["Stats"]) ++ ["Current"]) /\
    FS exReconfigured !! (root ++ ["Stats"]) = Some DirNode /\
    FS exReconfigured !! ((root ++ ["Stats"]) ++ ["Current"]) = Some DirNode /\
    StatFuncs exReconfigured = StatFuncs exConfigured ++ configuredStatFuncs /\
    RunName exReconfigured
      = Ok (Params_RunName (Params exConfigured) (CfgRunRun (Config exConfigured)))
           exReconfigured.
Proof.
  split; [vm_compute; reflexivity|]. split; [reflexivity|].
  apply (ConfigStats_sets_handles_and_registry exConfigured exReconfigured).
  vm_compute; reflexivity.
Defined.


Lemma SetInput_assigns_direction_witness :
  SetInput true exConfigured = Ok tt exTopDown /\
  exists net net1,
    Net exConfigured = Some net /\ Net exTopDown = Some net1 /\
    forall name, name ∈ inputLayerNames ->
      exists i ly,
        LayerByName (NetLayers net) name = Some i /\
        NetLayers net1 !! i = Some ly /\
        LayName ly = name /\
        LayType ly = inputType true name.
Proof.
  split; [vm_compute; reflexivity|].
  apply (SetInput_assigns_direction true exConfigured exTopDown).
  vm_compute; reflexivity.
Defined.

Lemma SetInput_needs_the_four_layers_witness :
  (exists net, Net exConfigured = Some net /\
     forall name, name ∈ inputLayerNames ->
       is_Some (LayerByName (NetLayers net) name)) /\
  exists ss1, SetInput false exConfigured = Ok tt ss1.
Proof.
  assert (Hnet : exists net, Net exConfigured = Some net /\
            forall name, name ∈ inputLayerNames ->
              is_Some (LayerByName (NetLayers net) name)).
  { eexists. split; [reflexivity|]. intros name Hin.
    unfold inputLayerNames in Hin.
    repeat (apply elem_of_cons in Hin as [->|Hin]);
      try (vm_compute; eexists; reflexivity).
    now apply elem_of_nil in Hin. }
  split; [exact Hnet|].
  apply (SetInput_needs_the_four_layers false exConfigured). exact Hnet.
Defined.

Lemma SetInput_missing_layer_panics_witness :
  (forall net, Net exNoIdentity = Some net ->
     exists name, name ∈ inputLayerNames /\
       LayerByName (NetLayers net) name = None) /\
  SetInput true exNoIdentity = Fail NilPointer.
Proof.
  assert (Hmiss : forall net, Net exNoIdentity = Some net ->
            exists name, name ∈ inputLayerNames /\
              LayerByName (NetLayers net) name = None).
  { intros net [= <-]. exists "Identity". split; [|vm_compute; reflexivity].
    unfold inputLayerNames. rewrite !elem_of_cons. auto. }
  split; [exact Hmiss|].
  apply (SetInput_missing_layer_panics true exNoIdentity). exact Hmiss.
Defined.

Lemma OpenPatterns_reports_load_errors_witness :
  PartialPatterns exConfigured = Some 1%nat /\
  Tables exConfigured !! 1%nat
    = Some (mkTable "FacesPartial" "Partial face testing patterns"
              [["happy-top"]; ["sad-top"]]) /\
  @loadErrors Q exNoFiles "faces.tsv" ++ @loadErrors Q exNoFiles "partial_faces.tsv"
    = [EvLogError "faces.tsv"; EvPrint "faces.tsv";
       EvLogError "partial_faces.tsv"; EvPrint "partial_faces.tsv"] /\
  exists ss1,
    @OpenPatterns Q exNoFiles exConfigured = Ok tt ss1 /\
    Events ss1 = Events exConfigured ++
      @loadErrors Q exNoFiles "faces.tsv" ++ @loadErrors Q exNoFiles "partial_faces.tsv" /\
    dom (Tables ss1) = {[fresh (dom (Tables exConfigured))]} ∪ dom (Tables exConfigured) /\
    ss1 = set_Patterns (Some 1%nat)
            (set_Events (Events ss1) (set_Tables (Tables ss1) exConfigured)).
Proof.
  split; [reflexivity|]. split; [vm_compute; reflexivity|].
  split; [reflexivity|].
  apply (@OpenPatterns_reports_load_errors Q exNoFiles exConfigured 1%nat
           (mkTable "FacesPartial" "Partial face testing patterns"
              [["happy-top"]; ["sad-top"]])).
  - reflexivity.
  - vm_compute; reflexivity.
Defined.

Lemma SetPatterns_choice_is_void_witness :
  OpenPatterns exConfigured = Ok tt exReopened /\
  SetPatterns true exReopened = SetPatterns false exReopened.
Proof.
  split; [vm_compute; reflexivity|].
  apply (SetPatterns_choice_is_void exConfigured exReopened).
  vm_compute; reflexivity.
Defined.

